(** * Operational scripts of the data pipeline: a shallow embedding

    The repository provisions a small batch-data pipeline and ships three
    operator scripts: [scripts/cleanup_aws.py] (tear everything down and
    verify), [test_pipeline.py] (exercise the deployed pipeline) and
    [scripts/deploy_lambda.py] (push new function code and wait for it).

    The scripts are sequences of remote calls wrapped in [try]/[except],
    interleaved with progress lines.  They are embedded here as programs of
    a small state-and-exception monad whose state holds the remote world
    (and, for the cleanup object, [self.config]) and whose output is the
    chronological list of remote calls, printed lines and sleeps. *)

From Stdlib Require Import ZArith String DecimalString.
From stdpp Require Import base gmap strings list.

(** ** Python exceptions *)

(** The exception classes the scripts tell apart, and [str(e)]. *)
Inductive exn_class :=
| KeyError
| IndexError
| NoSuchBucket
| ResourceNotFoundException
| EntityNotFoundException
| ClientError
| TimeoutExpired
| OtherException.

Record exn := Exn { exn_kind : exn_class; exn_text : string }.

(** The service-specific botocore exceptions derive from [ClientError]. *)
Definition is_client_error (e : exn) : bool :=
  match exn_kind e with
  | NoSuchBucket | ResourceNotFoundException | EntityNotFoundException
  | ClientError => true
  | _ => false
  end.

Inductive res (A : Type) :=
| Ok (a : A)
| Raise (e : exn).
Arguments Ok {A} a.
Arguments Raise {A} e.

(** Python's [needle in haystack] on strings. *)
Definition contains (needle haystack : string) : bool :=
  match String.index 0 needle haystack with
  | Some _ => true
  | None => false
  end.

(** ** Remote responses *)

(** One entry of [response['Stacks']]; the [Outputs] key may be missing. *)
Record stack_description := StackDescription {
  StackStatus : string;
  Outputs : option (list (string * string))   (* OutputKey, OutputValue *)
}.

Record s3_object := S3Object { Key : string; Size : nat }.

(** One page of [list_objects_v2]; the [Contents] key may be missing. *)
Record page := Page { Contents : option (list s3_object) }.

Record completed_process := CompletedProcess {
  returncode : Z;
  stderr : string
}.

(** [result['QueryExecution']['Status']]. *)
Record query_status := QueryStatus {
  State : string;
  StateChangeReason : option string
}.

(** A cell of a result row: [VarCharValue] may be missing. *)
Definition datum := option string.
(** [row['Data']]. *)
Definition row := list datum.
(** [get_query_results]: [None] when [ResultSet] or [Rows] is missing. *)
Definition query_results := option (list row).

(** ** Observable behaviour *)

Inductive request :=
| DescribeStacks (StackName : string)
| DeleteStack (StackName : string)
| WaitStackDeleteComplete (StackName : string) (Delay MaxAttempts : nat)
| ListWorkGroups
| DeleteWorkGroup (WorkGroup : string) (RecursiveDeleteOption : bool)
| StartQueryExecution (QueryString WorkGroup OutputLocation : string)
| GetQueryExecution (QueryExecutionId : string)
| GetQueryResults (QueryExecutionId : string)
| HeadBucket (Bucket : string)
| PaginateListObjectsV2 (Bucket : string)
| DeleteObjects (Bucket : string) (Keys : list string)
| DeleteBucket (Bucket : string)
| ListBuckets
| DeleteFunction (FunctionName : string)
| ListFunctions
| GetFunction (FunctionName : string)
| GetCrawler (Name : string)
| StartCrawler (Name : string)
| DeleteCrawler (Name : string)
| DeleteDatabase (Name : string)
| GetDatabases
| SubprocessRun (argv : list string) (timeout : nat).

(** Values interpolated into a printed line. *)
Inductive arg :=
| AStr (s : string)
| ANat (n : nat)
| AList (l : list string).

(** A printed line is kept as the text of its format string (decorations
    and indentation dropped, every interpolation written [{}]) together
    with the interpolated values in order. *)
Inductive event :=
| Call (r : request)
| Print (template : string) (args : list arg)
| Sleep (seconds : nat).

(** ** The monad *)

Record outcome (S A : Type) := Outcome {
  result : res A;
  final : S;
  emitted : list event
}.
Arguments Outcome {S A}.
Arguments result {S A}.
Arguments final {S A}.
Arguments emitted {S A}.

Definition M (S A : Type) : Type := S -> outcome S A.

Definition ret {S A} (a : A) : M S A :=
  fun s => Outcome (Ok a) s [].

Definition bind {S A B} (m : M S A) (k : A -> M S B) : M S B :=
  fun s =>
    match m s with
    | Outcome (Ok a) s1 tr1 =>
        match k a s1 with
        | Outcome r s2 tr2 => Outcome r s2 (tr1 ++ tr2)
        end
    | Outcome (Raise e) s1 tr1 => Outcome (Raise e) s1 tr1
    end.

Definition raise {S A} (e : exn) : M S A :=
  fun s => Outcome (Raise e) s [].

(** [try: body except Exception as e: handler(e)]. *)
Definition try_except {S A} (body : M S A) (handler : exn -> M S A) : M S A :=
  fun s =>
    match body s with
    | Outcome (Ok a) s1 tr1 => Outcome (Ok a) s1 tr1
    | Outcome (Raise e) s1 tr1 =>
        match handler e s1 with
        | Outcome r s2 tr2 => Outcome r s2 (tr1 ++ tr2)
        end
    end.

Definition print {S} (template : string) (args : list arg) : M S unit :=
  fun s => Outcome (Ok tt) s [Print template args].

(** [time.sleep(seconds)].  What the remote side does meanwhile is part of
    the transition of the next remote call. *)
Definition sleep {S} (seconds : nat) : M S unit :=
  fun s => Outcome (Ok tt) s [Sleep seconds].

(** A remote operation is a transition of the remote world that answers or
    raises. *)
Definition op (W A : Type) : Type := W -> res A * W.

Definition call {W A} (r : request) (f : op W A) : M W A :=
  fun w => let '(x, w') := f w in Outcome x w' [Call r].

Declare Scope prog_scope.
Delimit Scope prog_scope with prog.
Notation "x <- c1 ;; c2" := (bind c1 (fun x => c2))
  (at level 100, c1 at next level, c2 at level 200, right associativity)
  : prog_scope.
Notation "c1 ;; c2" := (bind c1 (fun _ => c2))
  (at level 100, c2 at level 200, right associativity) : prog_scope.
Open Scope prog_scope.

(** [for x in xs: body(x)]. *)
Fixpoint for_each {S A} (xs : list A) (body : A -> M S unit) : M S unit :=
  match xs with
  | [] => ret tt
  | x :: xs' => body x ;; for_each xs' body
  end.

(** A [for] loop that updates one local variable. *)
Fixpoint for_fold {S A B} (xs : list A) (acc : B) (body : B -> A -> M S B)
  : M S B :=
  match xs with
  | [] => ret acc
  | x :: xs' => acc' <- body acc x ;; for_fold xs' acc' body
  end.

(** ** The service clients (boto3) and the subprocess runner *)

Record CloudFormationClient (W : Type) := {
  describe_stacks : string -> op W (list stack_description);
  delete_stack : string -> op W unit;
  (* get_waiter('stack_delete_complete').wait(StackName, Delay, MaxAttempts) *)
  wait_stack_delete_complete : string -> nat -> nat -> op W unit
}.
Arguments describe_stacks {W}.
Arguments delete_stack {W}.
Arguments wait_stack_delete_complete {W}.

Record AthenaClient (W : Type) := {
  (* the names of response['WorkGroups'] *)
  list_work_groups : op W (list string);
  delete_work_group : string -> bool -> op W unit;
  (* QueryString, WorkGroup, OutputLocation; answers the QueryExecutionId *)
  start_query_execution : string -> string -> string -> op W string;
  get_query_execution : string -> op W query_status;
  get_query_results : string -> op W query_results
}.
Arguments list_work_groups {W}.
Arguments delete_work_group {W}.
Arguments start_query_execution {W}.
Arguments get_query_execution {W}.
Arguments get_query_results {W}.

Record S3Client (W : Type) := {
  head_bucket : string -> op W unit;
  (* get_paginator('list_objects_v2').paginate(Bucket): the pages the lazy
     iterator yields, and the exception that ends the iteration if any *)
  paginate_list_objects_v2 : string -> W -> (list page * option exn) * W;
  delete_objects : string -> list string -> op W unit;
  delete_bucket : string -> op W unit;
  (* the names of response['Buckets'] *)
  list_buckets : op W (list string)
}.
Arguments head_bucket {W}.
Arguments paginate_list_objects_v2 {W}.
Arguments delete_objects {W}.
Arguments delete_bucket {W}.
Arguments list_buckets {W}.

Record LambdaClient (W : Type) := {
  (* response['Configuration']['State'] *)
  get_function : string -> op W string;
  delete_function : string -> op W unit;
  (* the names of response['Functions'] *)
  list_functions : op W (list string)
}.
Arguments get_function {W}.
Arguments delete_function {W}.
Arguments list_functions {W}.

Record GlueClient (W : Type) := {
  (* response['Crawler']['State'] *)
  get_crawler : string -> op W string;
  start_crawler : string -> op W unit;
  delete_crawler : string -> op W unit;
  delete_database : string -> op W unit;
  (* the names of response['DatabaseList'] *)
  get_databases : op W (list string)
}.
Arguments get_crawler {W}.
Arguments start_crawler {W}.
Arguments delete_crawler {W}.
Arguments delete_database {W}.
Arguments get_databases {W}.

Record Subprocess (W : Type) := {
  (* subprocess.run(argv, cwd=project_dir, capture_output=True, text=True,
     timeout=timeout) *)
  subprocess_run : list string -> nat -> op W completed_process
}.
Arguments subprocess_run {W}.

(** * scripts/cleanup_aws.py *)

Module cleanup_aws.

(** A [DataPipelineCleanup] object: the remote world its clients talk to and
    the mutable [self.config] dictionary. *)
Record DataPipelineCleanup (W : Type) := Self {
  world : W;
  config : gmap string string
}.
Arguments Self {W}.
Arguments world {W}.
Arguments config {W}.

(** [self.config] as set by [__init__]. *)
Definition init_config : gmap string string :=
  <["stack_name" := "DataPipelineStack"]>
  (<["workgroup_name" := "data-pipeline-workgroup"]>
  (<["database_name" := "data_pipeline_db"]>
  (<["crawler_name" := "data-pipeline-crawler"]>
  (<["lambda_function_name" := "data-pipeline-data-extractor"]> ∅)))).

(** [DataPipelineCleanup()] against the world [w]. *)
Definition new {W} (w : W) : DataPipelineCleanup W := Self w init_config.

Section methods.
Context {W : Type}.
Context (athena_client : AthenaClient W) (s3_client : S3Client W)
  (lambda_client : LambdaClient W) (glue_client : GlueClient W)
  (cf_client : CloudFormationClient W) (subprocess : Subprocess W).

Abbreviation prog := (M (DataPipelineCleanup W)).

(** A call through one of the clients of [self]. *)
Definition aws {A} (r : request) (f : op W A) : prog A :=
  fun self =>
    let '(x, w') := f (world self) in
    Outcome x (Self w' (config self)) [Call r].

(** [self.config[key]]. *)
Definition config_get (key : string) : prog string :=
  fun self =>
    match config self !! key with
    | Some v => Outcome (Ok v) self []
    | None => Outcome (Raise (Exn KeyError key)) self []
    end.

(** [self.config[key] = value]. *)
Definition config_set (key value : string) : prog unit :=
  fun self =>
    Outcome (Ok tt) (Self (world self) (<[key := value]> (config self))) [].

(** [key in self.config]. *)
Definition config_has (key : string) : prog bool :=
  fun self => Outcome (Ok (bool_decide (is_Some (config self !! key)))) self [].

(** The body of [for output in stack.get('Outputs', [])]. *)
Definition record_output (output : string * string) : prog unit :=
  let key := output.1 in
  let value := output.2 in
  if String.eqb key "DataBucketName" then
    config_set "data_bucket" value
  else if String.eqb key "AthenaResultsBucketName" then
    config_set "results_bucket" value
  else if String.eqb key "LambdaFunctionName" then
    config_set "lambda_function_name" value
  else ret tt.

Definition get_stack_resources : prog bool :=
  print "Getting resource names from CloudFormation stack..." [] ;;
  try_except
    (stack_name <- config_get "stack_name" ;;
     response <- aws (DescribeStacks stack_name)
                     (describe_stacks cf_client stack_name) ;;
     match response with
     | [] =>
         print "Stack not found - may already be deleted" [] ;;
         ret false
     | stack :: _ =>
         let stack_status := StackStatus stack in
         if contains "DELETE" stack_status then
           print "Stack is already being deleted (status: {})"
                 [AStr stack_status] ;;
           ret false
         else
           for_each (default [] (Outputs stack)) record_output ;;
           print "Retrieved resource names from stack" [] ;;
           ret true
     end)
    (fun e =>
       print "Could not get stack info: {}" [AStr (exn_text e)] ;;
       print "Will use default resource names" [] ;;
       ret false).

Definition clean_athena_workgroup : prog bool :=
  print "Step 1: Cleaning Athena WorkGroup" [] ;;
  try_except
    (workgroups <- aws ListWorkGroups (list_work_groups athena_client) ;;
     workgroup_name <- config_get "workgroup_name" ;;
     if negb (bool_decide (workgroup_name ∈ workgroups)) then
       print "Athena WorkGroup not found (already deleted)" [] ;;
       ret true
     else
       aws (DeleteWorkGroup workgroup_name true)
           (delete_work_group athena_client workgroup_name true) ;;
       print "Deleted WorkGroup: {}" [AStr workgroup_name] ;;
       ret true)
    (fun e =>
       print "Error deleting Athena WorkGroup: {}" [AStr (exn_text e)] ;;
       ret false).

(** The body of [for page in pages] in [empty_s3_buckets]; the local
    [delete_count] is the accumulator. *)
Definition delete_page (bucket_name : string) (delete_count : nat) (p : page)
  : prog nat :=
  match Contents p with
  | Some contents =>
      let objects := map Key contents in
      match objects with
      | [] => ret delete_count
      | _ :: _ =>
          aws (DeleteObjects bucket_name objects)
              (delete_objects s3_client bucket_name objects) ;;
          ret (delete_count + length objects)
      end
  | None => ret delete_count
  end.

(** [paginator.paginate(Bucket=bucket_name)], read to its end. *)
Definition paginate (bucket_name : string) : prog (list page * option exn) :=
  fun self =>
    let '(x, w') :=
      paginate_list_objects_v2 s3_client bucket_name (world self) in
    Outcome (Ok x) (Self w' (config self))
            [Call (PaginateListObjectsV2 bucket_name)].

(** The body of [for bucket_name in buckets_to_empty]. *)
Definition empty_bucket (bucket_name : string) : prog unit :=
  try_except
    (aws (HeadBucket bucket_name) (head_bucket s3_client bucket_name) ;;
     pages <- paginate bucket_name ;;
     delete_count <- for_fold pages.1 0 (delete_page bucket_name) ;;
     match pages.2 with
     | Some e => raise e
     | None =>
         print "Emptied bucket: {} ({} objects)"
               [AStr bucket_name; ANat delete_count]
     end)
    (fun e =>
       match exn_kind e with
       | NoSuchBucket =>
           print "Bucket not found: {} (already deleted)" [AStr bucket_name]
       | _ =>
           print "Error with bucket {}: {}"
                 [AStr bucket_name; AStr (exn_text e)]
       end).

(** The names [empty_s3_buckets] collects before removing duplicates. *)
Definition buckets_to_empty (cfg : gmap string string) : list string :=
  omap (fun bucket_key => cfg !! bucket_key) ["data_bucket"; "results_bucket"]
  ++ ["data-pipeline-bucket-jsonplaceholder";
      "data-pipeline-athena-results-jsonplaceholder"].

(** [list(set(...))] fixes no order; the order of the elements of a [gset]
    stands for it. *)
Definition empty_s3_buckets : prog bool :=
  print "Step 2: Emptying S3 buckets" [] ;;
  (fun self =>
     for_each (elements (list_to_set (buckets_to_empty (config self))
                         : gset string))
              empty_bucket self) ;;
  ret true.

Definition run_cdk_destroy : prog bool :=
  print "Step 3: Running CDK destroy" [] ;;
  try_except
    (result <- aws (SubprocessRun ["npx"; "cdk"; "destroy"; "--force"] 300)
                   (subprocess_run subprocess
                      ["npx"; "cdk"; "destroy"; "--force"] 300) ;;
     if (returncode result =? 0)%Z then
       print "CDK destroy completed successfully" [] ;;
       ret true
     else
       print "CDK destroy failed:" [] ;;
       print "Error: {}" [AStr (stderr result)] ;;
       ret false)
    (fun e =>
       match exn_kind e with
       | TimeoutExpired =>
           print "CDK destroy timed out" [] ;;
           ret false
       | _ =>
           print "Error running CDK destroy: {}" [AStr (exn_text e)] ;;
           ret false
       end).

(** The body of [for bucket_key in ['data_bucket', 'results_bucket']] in
    [manual_resource_cleanup]. *)
Definition delete_bucket_of (bucket_key : string) : prog unit :=
  present <- config_has bucket_key ;;
  if (present : bool) then
    bucket_name <- config_get bucket_key ;;
    try_except
      (aws (DeleteBucket bucket_name) (delete_bucket s3_client bucket_name) ;;
       print "Deleted S3 bucket: {}" [AStr bucket_name])
      (fun e =>
         match exn_kind e with
         | NoSuchBucket =>
             print "S3 bucket not found: {} (already deleted)"
                   [AStr bucket_name]
         | _ =>
             print "Error deleting S3 bucket {}: {}"
                   [AStr bucket_name; AStr (exn_text e)]
         end)
  else ret tt.

(** [# Delete Lambda function] in [manual_resource_cleanup]. *)
Definition delete_lambda_function : prog unit :=
  try_except
    (name <- config_get "lambda_function_name" ;;
     aws (DeleteFunction name) (delete_function lambda_client name) ;;
     name <- config_get "lambda_function_name" ;;
     print "Deleted Lambda function: {}" [AStr name])
    (fun e =>
       match exn_kind e with
       | ResourceNotFoundException =>
           print "Lambda function not found (already deleted)" []
       | _ => print "Error deleting Lambda function: {}" [AStr (exn_text e)]
       end).

(** [# Delete Glue resources] in [manual_resource_cleanup]: the crawler. *)
Definition delete_glue_crawler : prog unit :=
  try_except
    (name <- config_get "crawler_name" ;;
     aws (DeleteCrawler name) (delete_crawler glue_client name) ;;
     name <- config_get "crawler_name" ;;
     print "Deleted Glue crawler: {}" [AStr name])
    (fun e =>
       match exn_kind e with
       | EntityNotFoundException =>
           print "Glue crawler not found (already deleted)" []
       | _ => print "Error deleting Glue crawler: {}" [AStr (exn_text e)]
       end).

(** [# Delete Glue resources] in [manual_resource_cleanup]: the database. *)
Definition delete_glue_database : prog unit :=
  try_except
    (name <- config_get "database_name" ;;
     aws (DeleteDatabase name) (delete_database glue_client name) ;;
     name <- config_get "database_name" ;;
     print "Deleted Glue database: {}" [AStr name])
    (fun e =>
       match exn_kind e with
       | EntityNotFoundException =>
           print "Glue database not found (already deleted)" []
       | _ => print "Error deleting Glue database: {}" [AStr (exn_text e)]
       end).

Definition manual_resource_cleanup : prog unit :=
  print "Step 4: Manual resource cleanup" [] ;;
  delete_lambda_function ;;
  delete_glue_crawler ;;
  delete_glue_database ;;
  (* # Delete S3 buckets *)
  for_each ["data_bucket"; "results_bucket"] delete_bucket_of.

Definition delete_cloudformation_stack : prog bool :=
  print "Step 5: Deleting CloudFormation stack" [] ;;
  try_except
    (stack_name <- config_get "stack_name" ;;
     response <- aws (DescribeStacks stack_name)
                     (describe_stacks cf_client stack_name) ;;
     match response with
     | [] =>
         print "CloudFormation stack not found (already deleted)" [] ;;
         ret true
     | _ :: _ =>
         stack_name <- config_get "stack_name" ;;
         aws (DeleteStack stack_name) (delete_stack cf_client stack_name) ;;
         print "Initiated deletion of stack: {}" [AStr stack_name] ;;
         print "Waiting for stack deletion to complete..." [] ;;
         aws (WaitStackDeleteComplete stack_name 15 40)
             (wait_stack_delete_complete cf_client stack_name 15 40) ;;
         print "CloudFormation stack deleted successfully" [] ;;
         ret true
     end)
    (fun e =>
       if is_client_error e then
         if contains "does not exist" (exn_text e) then
           print "CloudFormation stack not found (already deleted)" [] ;;
           ret true
         else
           print "Error deleting CloudFormation stack: {}"
                 [AStr (exn_text e)] ;;
           ret false
       else
         print "Error deleting CloudFormation stack: {}" [AStr (exn_text e)] ;;
         ret false).

(** The five checks of [verify_cleanup].  Each one answers the boolean it
    appends to [verification_results]. *)

(** [# Check CloudFormation stack] *)
Definition check_stack : prog bool :=
  try_except
    (stack_name <- config_get "stack_name" ;;
     response <- aws (DescribeStacks stack_name)
                     (describe_stacks cf_client stack_name) ;;
     match response with
     | stack :: _ =>
         let stack_status := StackStatus stack in
         if contains "DELETE_COMPLETE" stack_status then
           print "CloudFormation: Stack deleted successfully" [] ;;
           ret true
         else
           print "CloudFormation: Stack status is {}" [AStr stack_status] ;;
           ret false
     | [] =>
         print "CloudFormation: Stack not found" [] ;;
         ret true
     end)
    (fun _ =>
       print "CloudFormation: Stack not found" [] ;;
       ret true).

(** [# Check S3 buckets] *)
Definition check_buckets : prog bool :=
  try_except
    (response <- aws ListBuckets (list_buckets s3_client) ;;
     let data_pipeline_buckets :=
       filter (fun name => contains "data-pipeline" name = true) response in
     match data_pipeline_buckets with
     | [] =>
         print "S3: No data-pipeline buckets found" [] ;;
         ret true
     | _ :: _ =>
         print "S3: Found buckets: {}" [AList data_pipeline_buckets] ;;
         ret false
     end)
    (fun e =>
       print "S3: Error checking buckets: {}" [AStr (exn_text e)] ;;
       ret false).

(** [# Check Lambda functions] *)
Definition check_functions : prog bool :=
  try_except
    (response <- aws ListFunctions (list_functions lambda_client) ;;
     let data_pipeline_functions :=
       filter (fun name => contains "data-pipeline" name = true) response in
     match data_pipeline_functions with
     | [] =>
         print "Lambda: No data-pipeline functions found" [] ;;
         ret true
     | _ :: _ =>
         print "Lambda: Found functions: {}" [AList data_pipeline_functions] ;;
         ret false
     end)
    (fun e =>
       print "Lambda: Error checking functions: {}" [AStr (exn_text e)] ;;
       ret false).

(** [# Check Glue database] *)
Definition check_database : prog bool :=
  try_except
    (response <- aws GetDatabases (get_databases glue_client) ;;
     (* the comprehension reads [self.config] once per listed database *)
     data_pipeline_dbs <-
       match response with
       | [] => ret []
       | _ :: _ =>
           database_name <- config_get "database_name" ;;
           ret (filter (fun name => name = database_name) response)
       end ;;
     match data_pipeline_dbs with
     | [] =>
         print "Glue: Database not found" [] ;;
         ret true
     | _ :: _ =>
         print "Glue: Found database: {}" [AList data_pipeline_dbs] ;;
         ret false
     end)
    (fun e =>
       print "Glue: Error checking database: {}" [AStr (exn_text e)] ;;
       ret false).

(** [# Check Athena workgroup] *)
Definition check_workgroup : prog bool :=
  try_except
    (response <- aws ListWorkGroups (list_work_groups athena_client) ;;
     (* the comprehension reads [self.config] once per listed workgroup *)
     data_pipeline_wgs <-
       match response with
       | [] => ret []
       | _ :: _ =>
           workgroup_name <- config_get "workgroup_name" ;;
           ret (filter (fun name => name = workgroup_name) response)
       end ;;
     match data_pipeline_wgs with
     | [] =>
         print "Athena: WorkGroup not found" [] ;;
         ret true
     | _ :: _ =>
         print "Athena: Found workgroup: {}" [AList data_pipeline_wgs] ;;
         ret false
     end)
    (fun e =>
       print "Athena: Error checking workgroup: {}" [AStr (exn_text e)] ;;
       ret false).

(** The list [verification_results] at the end of [verify_cleanup]. *)
Definition verification_results : prog (list bool) :=
  print "Step 6: Verifying cleanup" [] ;;
  stack_ok <- check_stack ;;
  buckets_ok <- check_buckets ;;
  functions_ok <- check_functions ;;
  database_ok <- check_database ;;
  workgroup_ok <- check_workgroup ;;
  ret [stack_ok; buckets_ok; functions_ok; database_ok; workgroup_ok].

(** Python's [all]. *)
Definition all (bs : list bool) : bool := forallb id bs.

Definition verify_cleanup : prog bool :=
  results <- verification_results ;;
  ret (all results).

(** [# Step 3] to [# Step 5] of [run_cleanup]: its statement
    [if stack_exists: ... else: ...]. *)
Definition destroy_or_fall_back (stack_exists : bool) : prog unit :=
  if stack_exists then
    cdk_success <- run_cdk_destroy ;;
    if negb cdk_success then
      print "CDK destroy failed, attempting manual cleanup..." [] ;;
      manual_resource_cleanup ;;
      delete_cloudformation_stack ;;
      ret tt
    else ret tt
  else
    print "Stack not found, running manual cleanup..." [] ;;
    manual_resource_cleanup.

Definition run_cleanup : prog Z :=
  print "AWS CDK Data Pipeline Cleanup" [] ;;
  print "==================================================" [] ;;
  stack_exists <- get_stack_resources ;;
  athena_success <- clean_athena_workgroup ;;
  s3_success <- empty_s3_buckets ;;
  destroy_or_fall_back stack_exists ;;
  cleanup_successful <- verify_cleanup ;;
  print "==================================================" [] ;;
  print "Cleanup Summary" [] ;;
  print "==================================================" [] ;;
  if (cleanup_successful : bool) then
    print "All resources have been successfully deleted!" [] ;;
    print "AWS billing for this pipeline has stopped." [] ;;
    print "Your AWS account is clean." [] ;;
    ret 0%Z
  else
    print "Some resources may still exist." [] ;;
    print "Check the verification results above." [] ;;
    print
      "You may need to delete remaining resources manually via AWS Console."
      [] ;;
    ret 1%Z.

(** The object as [# Step 3] of [run_cleanup] finds it. *)
Definition at_step_3 (self : DataPipelineCleanup W) : DataPipelineCleanup W :=
  final (empty_s3_buckets
           (final (clean_athena_workgroup
                     (final (get_stack_resources self))))).

(** The object as [# Step 6] of [run_cleanup] finds it. *)
Definition at_step_6 (self : DataPipelineCleanup W) : DataPipelineCleanup W :=
  match result (get_stack_resources self) with
  | Ok stack_exists =>
      final (destroy_or_fall_back stack_exists (at_step_3 self))
  | Raise _ => final (get_stack_resources self)
  end.

End methods.

End cleanup_aws.

(** * test_pipeline.py *)

Module test_pipeline.

(** One entry of [queries] in [test_athena_query]. *)
Record query := Query {
  name : string;
  description : string;
  sql : string;
  result_column : string
}.

(** One entry of [query_executions]. *)
Record query_execution := QueryExecution {
  execution_id : string;
  query_info : query
}.

(** The frame of a call of [test_athena_query]: the remote world and the
    two locals its loop updates in place. *)
Record frame (W : Type) := Frame {
  world : W;
  all_queries_passed : bool;
  query_executions : list query_execution
}.
Arguments Frame {W}.
Arguments world {W}.
Arguments all_queries_passed {W}.
Arguments query_executions {W}.

(** [enumerate(xs, start)]. *)
Definition enumerate {A} (xs : list A) (start : nat) : list (nat * A) :=
  zip (seq start (length xs)) xs.

(** [xs[a:b]] for in-range literals. *)
Definition slice {A} (xs : list A) (a b : nat) : list A :=
  take (b - a) (drop a xs).

Section DataPipelineTester.
Context {W : Type}.
Context (glue_client : GlueClient W) (athena_client : AthenaClient W)
  (cf_client : CloudFormationClient W).

Definition test_glue_crawler (crawler_name : string) : M W bool :=
  print "Testing Glue crawler: {}" [AStr crawler_name] ;;
  try_except
    (state <- call (GetCrawler crawler_name)
                   (get_crawler glue_client crawler_name) ;;
     print "Crawler state: {}" [AStr state] ;;
     if String.eqb state "READY" then
       print "Starting crawler..." [] ;;
       call (StartCrawler crawler_name)
            (start_crawler glue_client crawler_name) ;;
       print "Crawler started successfully" [] ;;
       print "Note: Crawler may take a few minutes to complete" [] ;;
       ret true
     else if String.eqb state "RUNNING" then
       print "Crawler is already running" [] ;;
       ret true
     else
       print "Crawler is in unexpected state: {}" [AStr state] ;;
       ret false)
    (fun e =>
       print "Error testing Glue crawler: {}" [AStr (exn_text e)] ;;
       ret false).

(** The crawler step of [main] ([# Test 3: Glue crawler]). *)
Definition main_test_3 (glue_crawler_name : string) : M W bool :=
  print "3. Testing Glue Crawler" [] ;;
  print "------------------------------" [] ;;
  crawler_success <- test_glue_crawler glue_crawler_name ;;
  (if (crawler_success : bool) then
     print "Waiting 60 seconds for crawler to process data..." [] ;;
     sleep 60
   else ret tt) ;;
  ret crawler_success.

Abbreviation prog := (M (frame W)).

Definition aws {A} (r : request) (f : op W A) : prog A :=
  fun fr =>
    let '(x, w') := f (world fr) in
    Outcome x (Frame w' (all_queries_passed fr) (query_executions fr)) [Call r].

(** [all_queries_passed = False]. *)
Definition fail_query : prog unit :=
  fun fr => Outcome (Ok tt) (Frame (world fr) false (query_executions fr)) [].

(** [query_executions.append(x)]. *)
Definition append_execution (x : query_execution) : prog unit :=
  fun fr =>
    Outcome (Ok tt)
      (Frame (world fr) (all_queries_passed fr) (query_executions fr ++ [x]))
      [].

(** [xs[i]] *)
Definition item {A} (xs : list A) (i : nat) : prog A :=
  match xs !! i with
  | Some x => ret x
  | None => raise (Exn IndexError "list index out of range")
  end.

(** [cell['VarCharValue']] *)
Definition var_char_value (cell : datum) : prog string :=
  match cell with
  | Some v => ret v
  | None => raise (Exn KeyError "VarCharValue")
  end.

(** [cell.get('VarCharValue', 'N/A')] of [row['Data'][i]], under a guard on
    [len(row['Data'])] that makes the index valid. *)
Definition var_char_value_or_na (data : row) (i : nat) : string :=
  default "N/A" (mjoin (data !! i)).

(** The summary printed for a succeeded query ([# Get query results]). *)
Definition show_results (query_info : query) (query_execution_id : string)
  : prog unit :=
  results <- aws (GetQueryResults query_execution_id)
                 (get_query_results athena_client query_execution_id) ;;
  match results with
  | Some rows =>
      if 1 <? length rows then
        if String.prefix "count_rows" (name query_info) then
          data <- item rows 1 ;;
          cell <- item data 0 ;;
          count <- var_char_value cell ;;
          print "Result: {} total records" [AStr count]
        else if String.prefix "users_by_city" (name query_info) then
          let city_count := length rows - 1 in
          print "Result: Found {} unique cities" [ANat city_count] ;;
          for_each (enumerate (drop 1 rows) 1) (fun jr =>
            if 2 <=? length jr.2 then
              print "{}. {}: {} users"
                    [ANat jr.1; AStr (var_char_value_or_na jr.2 0);
                     AStr (var_char_value_or_na jr.2 1)]
            else ret tt)
        else if String.prefix "users" (name query_info) then
          let sample_count := length rows - 1 in
          print "Result: Retrieved {} sample users" [ANat sample_count] ;;
          for_each (enumerate (slice rows 1 4) 1) (fun jr =>
            if 3 <=? length jr.2 then
              print "{}. {} from {}"
                    [ANat jr.1; AStr (var_char_value_or_na jr.2 0);
                     AStr (var_char_value_or_na jr.2 2)]
            else ret tt)
        else
          let result_count := length rows - 1 in
          print "Result: Retrieved {} rows" [ANat result_count]
      else ret tt
  | None => ret tt
  end.

(** [for attempt in range(max_attempts): ... else: ...] of
    [test_athena_query] ([# Wait for query to complete]); the argument
    counts the attempts still to run. *)
Fixpoint wait_for_query (query_info : query) (query_execution_id : string)
  (attempts : nat) : prog unit :=
  match attempts with
  | 0 =>
      print "Status: TIMEOUT" [] ;;
      fail_query
  | S attempts' =>
      result <- aws (GetQueryExecution query_execution_id)
                    (get_query_execution athena_client query_execution_id) ;;
      let status := State result in
      if String.eqb status "SUCCEEDED" then
        print "Status: SUCCESS" [] ;;
        show_results query_info query_execution_id
      else if String.eqb status "FAILED" then
        let error := default "Unknown error" (StateChangeReason result) in
        print "Status: FAILED - {}" [AStr error] ;;
        fail_query
      else if String.eqb status "CANCELLED" then
        print "Status: CANCELLED" [] ;;
        fail_query
      else
        sleep 2 ;;
        wait_for_query query_info query_execution_id attempts'
  end.

(** The list [queries]; [timestamp] is [datetime.now().strftime("%H:%M")]. *)
Definition queries (timestamp database_name table_name : string) : list query :=
  [ Query ("count_rows_" +:+ timestamp) "Total record count"
      ("SELECT COUNT(*) as record_count FROM " +:+ database_name +:+ "."
       +:+ table_name)
      "record_count";
    Query ("users_" +:+ timestamp) "User data"
      ("SELECT name, email, address_city FROM " +:+ database_name +:+ "."
       +:+ table_name +:+ " LIMIT 5")
      "name";
    Query ("users_by_city_" +:+ timestamp) "Users by city"
      ("SELECT address_city, COUNT(*) as user_count FROM " +:+ database_name
       +:+ "." +:+ table_name
       +:+ " GROUP BY address_city ORDER BY user_count DESC LIMIT 3")
      "address_city" ].

(** The body of [for i, query_info in enumerate(queries, 1)]. *)
Definition run_query (workgroup results_bucket : string) (iq : nat * query)
  : prog unit :=
  let i := iq.1 in
  let query_info := iq.2 in
  print "Query {}: {} ({})"
        [ANat i; AStr (description query_info); AStr (name query_info)] ;;
  try_except
    (let custom_result_location :=
       "s3://" +:+ results_bucket +:+ "/query-results/" +:+ name query_info
       +:+ "/" in
     query_execution_id <-
       aws (StartQueryExecution (sql query_info) workgroup
                                custom_result_location)
           (start_query_execution athena_client (sql query_info) workgroup
                                  custom_result_location) ;;
     print "Execution ID: {}" [AStr query_execution_id] ;;
     append_execution (QueryExecution query_execution_id query_info) ;;
     let max_attempts := 30 in
     wait_for_query query_info query_execution_id max_attempts)
    (fun e =>
       print "Status: ERROR - {}" [AStr (exn_text e)] ;;
       fail_query).

Definition test_athena_query
  (timestamp workgroup database_name table_name results_bucket : string)
  : M W (bool * list query_execution) :=
  fun w =>
    let o :=
      (print "Testing Athena queries" [] ;;
       for_each (enumerate (queries timestamp database_name table_name) 1)
                (run_query workgroup results_bucket) ;;
       fun fr =>
         (if all_queries_passed fr then
            print "All Athena queries completed successfully" [] ;;
            print "Query Execution ID Mapping:" [] ;;
            for_each (query_executions fr) (fun exec_info =>
              let exec_id := execution_id exec_info in
              let query_info := query_info exec_info in
              print "{}: {}" [AStr (description query_info); AStr exec_id] ;;
              print "CSV: s3://{}/query-results/{}.csv"
                    [AStr results_bucket; AStr exec_id] ;;
              print "Metadata: s3://{}/query-results/{}.csv.metadata"
                    [AStr results_bucket; AStr exec_id])
          else
            print "Some Athena queries failed" []) fr)
        (Frame w true []) in
    Outcome
      (match result o with
       | Ok _ =>
           Ok (all_queries_passed (final o), query_executions (final o))
       | Raise e => Raise e
       end)
      (world (final o)) (emitted o).

(** The body of [for output in outputs] in [get_stack_outputs]: the local
    dictionary [config] after the iteration. *)
Definition extract_output (config : gmap string string)
  (output : string * string) : gmap string string :=
  let key := output.1 in
  let value := output.2 in
  if String.eqb key "LambdaFunctionName" then
    <["lambda_function_name" := value]> config
  else if String.eqb key "DataBucketName" then
    <["data_bucket_name" := value]> config
  else if String.eqb key "AthenaResultsBucketName" then
    <["athena_results_bucket_name" := value]> config
  else config.

(** The module-level [get_stack_outputs]; [None] is Python's [None]. *)
Definition get_stack_outputs : M W (option (gmap string string)) :=
  try_except
    (response <- call (DescribeStacks "DataPipelineStack")
                      (describe_stacks cf_client "DataPipelineStack") ;;
     (* response['Stacks'][0]['Outputs'] *)
     outputs <-
       match response with
       | [] => raise (Exn IndexError "list index out of range")
       | stack :: _ =>
           match Outputs stack with
           | Some outputs => ret outputs
           | None => raise (Exn KeyError "Outputs")
           end
       end ;;
     let config : gmap string string :=
       <["glue_database_name" := "data_pipeline_db"]>
       (<["glue_crawler_name" := "data-pipeline-crawler"]>
       (<["athena_workgroup" := "data-pipeline-workgroup"]> ∅)) in
     let config := foldl extract_output config outputs in
     ret (Some config))
    (fun e =>
       print "Could not get stack outputs: {}" [AStr (exn_text e)] ;;
       print "Make sure the DataPipelineStack is deployed" [] ;;
       ret None).

End DataPipelineTester.

End test_pipeline.

(** * scripts/deploy_lambda.py *)

Module deploy_lambda.

Section functions.
Context {W : Type} (lambda_client : LambdaClient W).

(** [for attempt in range(max_attempts)] of [wait_for_function_ready],
    followed by the statements after the loop.  [attempt] is the loop
    variable and [remaining] the number of attempts still to run; the body
    answers [Some b] for [return b] and [None] to go round again. *)
Fixpoint wait_attempts (function_name : string) (max_attempts : nat)
  (attempt remaining : nat) : M W bool :=
  match remaining with
  | 0 =>
      print "Timeout waiting for Lambda function to be ready" [] ;;
      ret false
  | S remaining' =>
      returned <-
        try_except
          (state <- call (GetFunction function_name)
                         (get_function lambda_client function_name) ;;
           if String.eqb state "Active" then
             print "Lambda function is ready" [] ;;
             ret (Some true)
           else if String.eqb state "Pending" then
             print "Status: {} (attempt {}/{})"
                   [AStr state; ANat (attempt + 1); ANat max_attempts] ;;
             sleep 2 ;;
             ret None
           else
             print "Unexpected Lambda state: {}" [AStr state] ;;
             ret (Some false))
          (fun e =>
             print "Error checking Lambda status: {}" [AStr (exn_text e)] ;;
             ret (Some false)) ;;
      match returned with
      | Some b => ret b
      | None =>
          wait_attempts function_name max_attempts (S attempt) remaining'
      end
  end.

Definition wait_for_function_ready (function_name : string)
  (max_attempts : nat) : M W bool :=
  print "Waiting for Lambda function to be ready..." [] ;;
  wait_attempts function_name max_attempts 0 max_attempts.

End functions.

End deploy_lambda.

(** * Reading a run *)

Definition calls (tr : list event) : list request :=
  omap (fun e => match e with Call r => Some r | _ => None end) tr.

Definition sleeps (tr : list event) : list nat :=
  omap (fun e => match e with Sleep n => Some n | _ => None end) tr.

(** The requests that read the status of an asynchronous remote operation. *)
Definition is_status_fetch (r : request) : bool :=
  match r with
  | GetQueryExecution _ | GetFunction _ | GetCrawler _ => true
  | _ => false
  end.

Definition status_fetches (tr : list event) : list request :=
  omap (fun e =>
          match e with
          | Call r => if is_status_fetch r then Some r else None
          | _ => None
          end) tr.

(** The outcome of a poll, in the terms of the specification. *)
Inductive PollResult :=
| Succeeded
| FailedTerminal (reason : string)
| TimedOut.

(** How the two polling loops of the scripts announce their outcome: the
    query loop of [test_athena_query] and [wait_for_function_ready]. *)
Definition announced (e : event) : option PollResult :=
  match e with
  | Print template args =>
      if String.eqb template "Status: SUCCESS" then Some Succeeded
      else if String.eqb template "Status: FAILED - {}" then
        match args with
        | [AStr error] => Some (FailedTerminal error)
        | _ => None
        end
      else if String.eqb template "Status: CANCELLED" then
        Some (FailedTerminal "CANCELLED")
      else if String.eqb template "Status: TIMEOUT" then Some TimedOut
      else if String.eqb template "Lambda function is ready" then
        Some Succeeded
      else if String.eqb template "Unexpected Lambda state: {}" then
        match args with
        | [AStr state] => Some (FailedTerminal state)
        | _ => None
        end
      else if String.eqb template
                "Timeout waiting for Lambda function to be ready" then
        Some TimedOut
      else None
  | _ => None
  end.

Definition poll_results (tr : list event) : list PollResult :=
  omap announced tr.

(** The predicates of the query loop. *)
Definition query_succeeded (status : string) : bool :=
  String.eqb status "SUCCEEDED".
Definition query_failed (status : string) : bool :=
  String.eqb status "FAILED" || String.eqb status "CANCELLED".
Definition query_pending (status : string) : bool :=
  negb (query_succeeded status) && negb (query_failed status).
(** The states the query service documents as in progress. *)
Definition query_in_progress (status : string) : bool :=
  String.eqb status "QUEUED" || String.eqb status "RUNNING".

(** The predicates of [wait_for_function_ready]. *)
Definition function_active (state : string) : bool :=
  String.eqb state "Active".
Definition function_pending (state : string) : bool :=
  String.eqb state "Pending".
Definition function_unexpected (state : string) : bool :=
  negb (function_active state) && negb (function_pending state).

(** The steps of the fallback path of [run_cleanup]: the four kinds of
    direct deletion of [manual_resource_cleanup], and the entry into
    [delete_cloudformation_stack]. *)
Inductive fallback_step :=
| delete_function_step (FunctionName : string)
| delete_crawler_step (Name : string)
| delete_database_step (Name : string)
| delete_bucket_step (Bucket : string)
| force_delete_stack_step.

Definition fallback_step_of (e : event) : option fallback_step :=
  match e with
  | Call (DeleteFunction n) => Some (delete_function_step n)
  | Call (DeleteCrawler n) => Some (delete_crawler_step n)
  | Call (DeleteDatabase n) => Some (delete_database_step n)
  | Call (DeleteBucket b) => Some (delete_bucket_step b)
  | Print template _ =>
      if String.eqb template "Step 5: Deleting CloudFormation stack" then
        Some force_delete_stack_step
      else None
  | _ => None
  end.

Definition fallback_steps (tr : list event) : list fallback_step :=
  omap fallback_step_of tr.

(** The fallback steps in the order [run_cleanup] declares them, for the
    names held by [self.config]: a step whose name is not configured has
    nothing to act on. *)
Definition declared_fallback (cfg : gmap string string) : list fallback_step :=
  omap id
    [delete_function_step <$> cfg !! "lambda_function_name";
     delete_crawler_step <$> cfg !! "crawler_name";
     delete_database_step <$> cfg !! "database_name";
     delete_bucket_step <$> cfg !! "data_bucket";
     delete_bucket_step <$> cfg !! "results_bucket"].

(** The keys handed to [delete_objects] for a bucket, in order. *)
Definition deleted_keys (bucket_name : string) (tr : list event)
  : list string :=
  concat (omap (fun e =>
                  match e with
                  | Call (DeleteObjects b keys) =>
                      if String.eqb b bucket_name then Some keys else None
                  | _ => None
                  end) tr).

(** The keys listed on a page. *)
Definition page_keys (p : page) : list string :=
  map Key (default [] (Contents p)).

(** * Test doubles *)

Definition unavailable {W A} : op W A :=
  fun w => (Raise (Exn OtherException "unavailable"), w).

(** A double that answers the same whatever the world. *)
Definition always {W A} (x : res A) : op W A := fun w => (x, w).

Definition s3_double {W} (head : res unit)
  (pages : list page * option exn) (deleted_objects deleted_bucket : res unit)
  (buckets : res (list string)) : S3Client W :=
  {| head_bucket _ := always head;
     paginate_list_objects_v2 _ w := (pages, w);
     delete_objects _ _ := always deleted_objects;
     delete_bucket _ := always deleted_bucket;
     list_buckets := always buckets |}.

Definition lambda_double {W} (state : res string) (deleted : res unit)
  (functions : res (list string)) : LambdaClient W :=
  {| get_function _ := always state;
     delete_function _ := always deleted;
     list_functions := always functions |}.

Definition glue_double {W} (crawler_state : res string)
  (started deleted_crawler deleted_database : res unit)
  (databases : res (list string)) : GlueClient W :=
  {| get_crawler _ := always crawler_state;
     start_crawler _ := always started;
     delete_crawler _ := always deleted_crawler;
     delete_database _ := always deleted_database;
     get_databases := always databases |}.

Definition athena_double {W} (workgroups : res (list string))
  (deleted : res unit) : AthenaClient W :=
  {| list_work_groups := always workgroups;
     delete_work_group _ _ := always deleted;
     start_query_execution _ _ _ := unavailable;
     get_query_execution _ := unavailable;
     get_query_results _ := unavailable |}.

Definition subprocess_double {W} (completed : res completed_process)
  : Subprocess W :=
  {| subprocess_run _ _ := always completed |}.

(** A deployment record whose [n]-th read answers [answers n]; the world is
    the number of reads so far. *)
Definition cf_script (answers : nat -> res (list stack_description))
  (deleted waited : res unit) : CloudFormationClient nat :=
  {| describe_stacks _ n := (answers n, S n);
     delete_stack _ := always deleted;
     wait_stack_delete_complete _ _ _ := always waited |}.

(** A function whose [n]-th state read answers [states n]. *)
Definition lambda_script (states : nat -> res string) : LambdaClient nat :=
  {| get_function _ n := (states n, S n);
     delete_function _ := unavailable;
     list_functions := unavailable |}.

(** A crawler whose [n]-th state read answers [states n]. *)
Definition glue_script (states : nat -> res string) (started : res unit)
  : GlueClient nat :=
  {| get_crawler _ n := (states n, S n);
     start_crawler _ := always started;
     delete_crawler _ := unavailable;
     delete_database _ := unavailable;
     get_databases := unavailable |}.

(** A query service.  The world counts the submissions so far and the status
    reads since the last submission: the [n]-th submission is answered by
    [submit n], the [k]-th status read of an execution since then by
    [status id k], and its rows by [rows id]. *)
Record athena_sim := AthenaSim { submitted : nat; polled : nat }.

Definition athena_script (submit : nat -> res string)
  (status : string -> nat -> res query_status)
  (rows : string -> res query_results) : AthenaClient athena_sim :=
  {| list_work_groups := unavailable;
     delete_work_group _ _ := unavailable;
     start_query_execution _ _ _ w :=
       (submit (submitted w), AthenaSim (S (submitted w)) 0);
     get_query_execution id w :=
       (status id (polled w), AthenaSim (submitted w) (S (polled w)));
     get_query_results id := always (rows id) |}.


(** A query service that answers the [k]-th status read since the last
    submission with [statuses k], whatever the execution. *)
Definition query_script (submit : nat -> res string)
  (statuses : nat -> query_status) (rows : string -> res query_results)
  : AthenaClient athena_sim :=
  athena_script submit (fun _ k => Ok (statuses k)) rows.

(** A function whose [n]-th state read answers the state [states n]. *)
Definition function_script (states : nat -> string) : LambdaClient nat :=
  lambda_script (fun n => Ok (states n)).

(** * Judgements on programs *)

(** Trace properties that hold of the empty trace and of concatenations. *)
Class Additive (Q : list event -> Prop) := {
  additive_nil : Q [];
  additive_app : forall tr1 tr2, Q tr1 -> Q tr2 -> Q (tr1 ++ tr2)
}.

(** Every run of [m] emits a trace in [Q]. *)
Definition emits {S A} (Q : list event -> Prop) (m : M S A) : Prop :=
  forall s, Q (emitted (m s)).

(** No run of [m] raises. *)
Definition total {S A} (m : M S A) : Prop :=
  forall s, exists a, result (m s) = Ok a.

(** Every run of [m] leaves the component [f] of the state as it was. *)
Definition keeps {S A T} (f : S -> T) (m : M S A) : Prop :=
  forall s, f (final (m s)) = f s.

(** Traces without an announced outcome, a status read or a sleep. *)
Definition silent (tr : list event) : Prop :=
  poll_results tr = [] /\ status_fetches tr = [] /\ sleeps tr = [].

(** * Concrete scenarios *)

(** A query reported [RUNNING] on the first read and [final_state] from the
    second read on. *)
Definition running_then (final_state : string) (k : nat) : query_status :=
  QueryStatus (if k <? 1 then "RUNNING" else final_state) None.

(** A function reported [Pending] on the first read and [final_state] from
    the second read on. *)
Definition pending_then (final_state : string) (k : nat) : string :=
  if k <? 1 then "Pending" else final_state.

Definition no_submission (n : nat) : res string :=
  Raise (Exn OtherException "no submission expected").

Definition no_rows (id : string) : res query_results := Ok None.

Definition count_query : test_pipeline.query :=
  test_pipeline.Query "count_rows_09:30" "Total record count"
    "SELECT COUNT(*) as record_count FROM data_pipeline_db.raw_data"
    "record_count".

(** Three attempts at a query whose state is always [state]. *)
Definition stuck_query_run (state : string)
  : outcome (test_pipeline.frame athena_sim) unit :=
  test_pipeline.wait_for_query
    (query_script no_submission (fun _ => QueryStatus state None) no_rows)
    count_query "exec-1" 3
    (test_pipeline.Frame (AthenaSim 0 0) true []).

(** A crawler found [RUNNING] that is [READY] from the second read on. *)
Definition crawler_states (n : nat) : res string :=
  Ok (if n <? 1 then "RUNNING" else "READY").

Definition crawler_stage_run : outcome nat bool :=
  test_pipeline.main_test_3 (glue_script crawler_states (Ok tt))
    "data-pipeline-crawler" 0.

(** A deployment record that cannot be read. *)
Definition unreachable_record : CloudFormationClient nat :=
  cf_script
    (fun _ => Raise (Exn ClientError "Unable to locate credentials"))
    (Raise (Exn ClientError "Unable to locate credentials"))
    (Raise (Exn ClientError "Unable to locate credentials")).

(** The stack as deployed, with its three outputs. *)
Definition deployed_stack : stack_description :=
  StackDescription "CREATE_COMPLETE"
    (Some [("DataBucketName", "data-pipeline-bucket-jsonplaceholder");
           ("AthenaResultsBucketName",
            "data-pipeline-athena-results-jsonplaceholder");
           ("LambdaFunctionName", "data-pipeline-data-extractor")]).

(** A teardown in which the delegated destroy fails and so does every
    direct deletion, while the forced stack deletion goes through: the
    record is there for the first two reads and gone afterwards, and the
    listings of the verification come back empty. *)
Definition record_gone_after_two_reads (n : nat)
  : res (list stack_description) :=
  if n <? 2 then Ok [deployed_stack]
  else Raise (Exn ClientError "Stack with id DataPipelineStack does not exist").

Definition access_denied {A} : res A := Raise (Exn ClientError "AccessDenied").

Definition degraded_run : outcome (cleanup_aws.DataPipelineCleanup nat) Z :=
  cleanup_aws.run_cleanup
    (athena_double (Ok []) (Ok tt))
    (s3_double access_denied ([], None) access_denied access_denied (Ok []))
    (lambda_double access_denied access_denied (Ok []))
    (glue_double access_denied access_denied access_denied access_denied
       (Ok []))
    (cf_script record_gone_after_two_reads (Ok tt) (Ok tt))
    (subprocess_double (Ok (CompletedProcess 1 "destroy failed")))
    (cleanup_aws.new 0).

(** Traces without a fallback step. *)
Definition no_fallback_step (tr : list event) : Prop :=
  fallback_steps tr = [].

(** Every run of [m] answers, leaves [self.config] as it was, and takes the
    fallback steps [steps] gives for that configuration. *)
Definition performs {W A} (m : M (cleanup_aws.DataPipelineCleanup W) A)
  (steps : gmap string string -> list fallback_step) : Prop :=
  forall self,
    (exists a, result (m self) = Ok a) /\
    cleanup_aws.config (final (m self)) = cleanup_aws.config self /\
    fallback_steps (emitted (m self)) = steps (cleanup_aws.config self).

(** A deployment record that answers the same at every read. *)
Definition cf_double {W} (stacks : res (list stack_description))
  (deleted waited : res unit) : CloudFormationClient W :=
  {| describe_stacks _ := always stacks;
     delete_stack _ := always deleted;
     wait_stack_delete_complete _ _ _ := always waited |}.

(** What a failing check of [verify_cleanup] on a listing has to print:
    [found] stands for the listed names the check selects. *)
Definition reports {S} (listing : res (list string))
  (select : list string -> list string) (found_line error_line : string)
  (o : outcome S bool) : Prop :=
  match listing with
  | Ok names =>
      match select names with
      | [] => result o = Ok true
      | found =>
          result o = Ok false /\
          In (Print found_line [AList found]) (emitted o)
      end
  | Raise e =>
      result o = Ok false /\
      In (Print error_line [AStr (exn_text e)]) (emitted o)
  end.

(** What the check of the stack has to answer and print. *)
Definition reports_stack {S} (record : res (list stack_description))
  (o : outcome S bool) : Prop :=
  match record with
  | Ok (stack :: _) =>
      if contains "DELETE_COMPLETE" (StackStatus stack) then
        result o = Ok true
      else
        result o = Ok false /\
        In (Print "CloudFormation: Stack status is {}"
              [AStr (StackStatus stack)]) (emitted o)
  | _ => result o = Ok true
  end.




(** The cleanup object facing a deployment record that cannot be read. *)
Definition check_of_unreachable_record
  : outcome (cleanup_aws.DataPipelineCleanup nat) bool :=
  cleanup_aws.check_stack unreachable_record (cleanup_aws.new 0).




(** The submissions of queries, in order. *)
Definition submissions (tr : list event) : list request :=
  omap (fun e =>
          match e with
          | Call (StartQueryExecution QueryString WorkGroup OutputLocation) =>
              Some (StartQueryExecution QueryString WorkGroup OutputLocation)
          | _ => None
          end) tr.

(** The statuses read for an execution reach [SUCCEEDED] within [budget]
    reads, after pending statuses only. *)
Definition reaches_succeeded (statuses : nat -> res query_status)
  (budget : nat) : Prop :=
  exists k,
    k < budget /\
    (forall j, j < k ->
       exists st, statuses j = Ok st /\ query_pending (State st) = true) /\
    exists st, statuses k = Ok st /\ query_succeeded (State st) = true.

(** The rows of a succeeded query can be fetched and summed up by
    [show_results]: only the summary of a [count_rows] query reads a cell
    without a default. *)
Definition summarisable (q : test_pipeline.query)
  (answer : res query_results) : bool :=
  match answer with
  | Raise _ => false
  | Ok None => true
  | Ok (Some rows) =>
      if 1 <? length rows then
        if String.prefix "count_rows" (test_pipeline.name q) then
          match rows !! 1 with
          | Some (Some _ :: _) => true
          | _ => false
          end
        else true
      else true
  end.

(** The records kept for the queries [qs] when the [n]-th submission is
    answered by [submit n]: one for each accepted submission. *)
Definition tracked (submit : nat -> res string) (n : nat)
  (qs : list test_pipeline.query) : list test_pipeline.query_execution :=
  omap (fun iq : nat * test_pipeline.query =>
          match submit iq.1 with
          | Ok id => Some (test_pipeline.QueryExecution id iq.2)
          | Raise _ => None
          end)
       (zip (seq n (length qs)) qs).

(** The location [run_query] asks the results of a query to be written to. *)
Definition result_location (results_bucket : string)
  (q : test_pipeline.query) : string :=
  "s3://" +:+ results_bucket +:+ "/query-results/" +:+ test_pipeline.name q
  +:+ "/".

(** Three queries that are accepted, run for one read and succeed. *)
Definition accepted (n : nat) : res string :=
  Ok ("exec-" +:+ NilZero.string_of_uint (Nat.to_uint n)).

Definition one_count_row (id : string) : res query_results :=
  Ok (Some [[Some "record_count"]; [Some "10"]]).

Definition three_queries_run
  : outcome athena_sim (bool * list test_pipeline.query_execution) :=
  test_pipeline.test_athena_query
    (athena_script accepted (fun _ k => Ok (running_then "SUCCEEDED" k))
       one_count_row)
    "09:30" "data-pipeline-workgroup" "data_pipeline_db" "raw_data"
    "data-pipeline-athena-results-jsonplaceholder" (AthenaSim 0 0).

(** Three queries that are accepted, run for one read and succeed, while
    their rows cannot be fetched. *)
Definition rows_unavailable (id : string) : res query_results :=
  Raise (Exn ClientError "ThrottlingException: Rate exceeded").

Definition three_queries_without_rows_run
  : outcome athena_sim (bool * list test_pipeline.query_execution) :=
  test_pipeline.test_athena_query
    (athena_script accepted (fun _ k => Ok (running_then "SUCCEEDED" k))
       rows_unavailable)
    "09:30" "data-pipeline-workgroup" "data_pipeline_db" "raw_data"
    "data-pipeline-athena-results-jsonplaceholder" (AthenaSim 0 0).

(** * Further readings of a run *)

(** The buckets probed with [head_bucket], in order. *)
Definition head_buckets (tr : list event) : list string :=
  omap (fun e => match e with Call (HeadBucket b) => Some b | _ => None end)
       tr.

(** The subprocesses run, in order. *)
Definition subprocess_runs (tr : list event) : list (list string * nat) :=
  omap (fun e =>
          match e with
          | Call (SubprocessRun argv timeout) => Some (argv, timeout)
          | _ => None
          end) tr.

(** The requests that remove something from the account. *)
Definition is_removal (r : request) : bool :=
  match r with
  | DeleteStack _ | DeleteWorkGroup _ _ | DeleteObjects _ _ | DeleteBucket _
  | DeleteFunction _ | DeleteCrawler _ | DeleteDatabase _ => true
  | _ => false
  end.

Definition removals (tr : list event) : list request :=
  omap (fun e =>
          match e with
          | Call r => if is_removal r then Some r else None
          | _ => None
          end) tr.

(** The error [delete_cloudformation_stack] takes for "already deleted":
    a [ClientError] whose text says the stack does not exist. *)
Definition says_does_not_exist (e : exn) : bool :=
  is_client_error e && contains "does not exist" (exn_text e).

(** The value of the last output with the key [output_key], if any. *)
Definition last_output (output_key : string)
  (outputs : list (string * string)) : option string :=
  last (omap (fun output : string * string =>
                if String.eqb output.1 output_key then Some output.2
                else None) outputs).

(** The value of the first output with the key [output_key], if any. *)
Definition first_output (output_key : string)
  (outputs : list (string * string)) : option string :=
  head (omap (fun output : string * string =>
                if String.eqb output.1 output_key then Some output.2
                else None) outputs).

(** A workgroup listing without the workgroup of the pipeline. *)
Definition cleaning_absent_workgroup
  : outcome (cleanup_aws.DataPipelineCleanup unit) bool :=
  cleanup_aws.clean_athena_workgroup (athena_double (Ok ["primary"]) (Ok tt))
    (cleanup_aws.new tt).

(** The deletions a listing calls for: one request for each page that lists
    objects, in the order of the pages. *)
Definition deletions_due (bucket_name : string) (pages : list page)
  : list request :=
  map (DeleteObjects bucket_name)
      (filter (fun keys => keys <> []) (map page_keys pages)).

(** How many of the deletions due the storage service is asked for, from
    the world [w] on: the deletions up to the first one it refuses, that
    one included. *)
Fixpoint deletions_attempted {W} (s3_client : S3Client W)
  (bucket_name : string) (pages : list page) (w : W) : nat :=
  match pages with
  | [] => 0
  | p :: pages =>
      match page_keys p with
      | [] => deletions_attempted s3_client bucket_name pages w
      | keys =>
          match delete_objects s3_client bucket_name keys w with
          | (Ok _, w') =>
              S (deletions_attempted s3_client bucket_name pages w')
          | (Raise _, _) => 1
          end
      end
  end.

(** A bucket whose listing breaks off after its first page. *)
Definition broken_listing : S3Client unit :=
  s3_double (Ok tt)
    ([Page (Some [S3Object "raw-data/users.csv" 2048;
                  S3Object "raw-data/posts.csv" 512])],
     Some (Exn ClientError "RequestTimeout"))
    (Ok tt) (Ok tt) (Ok []).

Definition emptying_broken_listing
  : outcome (cleanup_aws.DataPipelineCleanup unit) unit :=
  cleanup_aws.empty_bucket broken_listing "data-pipeline-bucket"
    (cleanup_aws.new tt).

(** A stack whose deletion is refused because it is already gone. *)
Definition vanished_stack : CloudFormationClient unit :=
  cf_double (Ok [deployed_stack])
    (Raise (Exn ClientError "Stack with id DataPipelineStack does not exist"))
    (Ok tt).

Definition deleting_vanished_stack
  : outcome (cleanup_aws.DataPipelineCleanup unit) bool :=
  cleanup_aws.delete_cloudformation_stack vanished_stack (cleanup_aws.new tt).

(** What [get_stack_resources] leaves under [key] of a configuration [cfg]
    after reading [outputs], when [output_key] is the output recorded
    under [key]. *)
Definition recorded (cfg : gmap string string)
  (outputs : list (string * string)) (key output_key : string)
  : option string :=
  match last_output output_key outputs with
  | Some value => Some value
  | None => cfg !! key
  end.

(** The outputs [get_stack_resources] records, and where. *)
Definition recorded_outputs : list (string * string) :=
  [("data_bucket", "DataBucketName");
   ("results_bucket", "AthenaResultsBucketName");
   ("lambda_function_name", "LambdaFunctionName")].

(** A record that lists the data bucket twice and does not say which
    function was deployed. *)
Definition renamed_bucket_record : CloudFormationClient unit :=
  cf_double
    (Ok [StackDescription "UPDATE_COMPLETE"
           (Some [("DataBucketName", "data-pipeline-bucket-v1");
                  ("GlueCrawlerName", "data-pipeline-crawler");
                  ("DataBucketName", "data-pipeline-bucket-v2")])])
    (Ok tt) (Ok tt).

Definition reading_renamed_bucket
  : outcome (cleanup_aws.DataPipelineCleanup unit) bool :=
  cleanup_aws.get_stack_resources renamed_bucket_record (cleanup_aws.new tt).

(** The stacks whose deletion a run asks for. *)
Definition stack_deletions (tr : list event) : list string :=
  omap (fun e =>
          match e with
          | Call (DeleteStack stack_name) => Some stack_name
          | _ => None
          end) tr.

(** Traces of a run that leaves the stack to itself: no destroy command
    and no deletion of the stack. *)
Definition leaves_stack_alone (tr : list event) : Prop :=
  subprocess_runs tr = [] /\ stack_deletions tr = [].

(** A teardown started without credentials: the record cannot be read and
    every deletion is refused. *)
Definition run_without_credentials
  : outcome (cleanup_aws.DataPipelineCleanup nat) Z :=
  cleanup_aws.run_cleanup
    (athena_double access_denied access_denied)
    (s3_double access_denied ([], None) access_denied access_denied
       access_denied)
    (lambda_double access_denied access_denied access_denied)
    (glue_double access_denied access_denied access_denied access_denied
       access_denied)
    unreachable_record
    (subprocess_double (Ok (CompletedProcess 0 "")))
    (cleanup_aws.new 0).

(** An account that holds nothing of the pipeline, as the verification of
    the cleanup sees it: no stack is recorded, and no listing shows a name
    of the pipeline. *)
Record clean_account {W : Type} (athena_client : AthenaClient W)
  (s3_client : S3Client W) (lambda_client : LambdaClient W)
  (glue_client : GlueClient W) (cf_client : CloudFormationClient W)
  : Prop := {
  no_stack : forall w,
    (describe_stacks cf_client "DataPipelineStack" w).1 = Ok [] \/
    exists e, (describe_stacks cf_client "DataPipelineStack" w).1 = Raise e;
  no_bucket : forall w,
    exists names,
      (list_buckets s3_client w).1 = Ok names /\
      Forall (fun name => contains "data-pipeline" name = false) names;
  no_function : forall w,
    exists names,
      (list_functions lambda_client w).1 = Ok names /\
      Forall (fun name => contains "data-pipeline" name = false) names;
  no_database : forall w,
    exists names,
      (get_databases glue_client w).1 = Ok names /\
      "data_pipeline_db" ∉ names;
  no_workgroup : forall w,
    exists names,
      (list_work_groups athena_client w).1 = Ok names /\
      "data-pipeline-workgroup" ∉ names
}.

(** A teardown of an account in which another project lives. *)
Definition run_on_clean_account
  : outcome (cleanup_aws.DataPipelineCleanup nat) Z :=
  cleanup_aws.run_cleanup
    (athena_double (Ok ["primary"]) (Ok tt))
    (s3_double (Raise (Exn NoSuchBucket "Not Found")) ([], None) (Ok tt)
       (Ok tt) (Ok ["billing-reports"]))
    (lambda_double (Ok "Active")
       (Raise (Exn ResourceNotFoundException "Function not found"))
       (Ok ["thumbnailer"]))
    (glue_double (Ok "READY") (Ok tt)
       (Raise (Exn EntityNotFoundException "Crawler not found"))
       (Raise (Exn EntityNotFoundException "Database not found"))
       (Ok ["default"]))
    (cf_double
       (Raise (Exn ClientError
                 "Stack with id DataPipelineStack does not exist"))
       (Ok tt) (Ok tt))
    (subprocess_double (Ok (CompletedProcess 0 "")))
    (cleanup_aws.new 0).

(** Every run of [m] from a state in [P] ends in a state in [P], whether it
    answers or raises. *)
Definition maintains {S A} (P : S -> Prop) (m : M S A) : Prop :=
  forall s, P s -> P (final (m s)).

(** A function whose state cannot be read any more after one read. *)
Definition throttled_after_one_read (n : nat) : res string :=
  if n <? 1 then Ok "Pending"
  else Raise (Exn ClientError "TooManyRequestsException").

Definition waiting_for_throttled_function : outcome nat bool :=
  deploy_lambda.wait_for_function_ready
    (lambda_script throttled_after_one_read) "data-pipeline-data-extractor"
    30 0.

(** The frames in which a query has failed. *)
Definition failed {W} (fr : test_pipeline.frame W) : Prop :=
  test_pipeline.all_queries_passed fr = false.

(** The part of the trace of [test_athena_query] that belongs to the
    query [q], numbered [i]: its heading and its submission, followed up to
    the next query by events among which nothing is submitted and at most
    [budget] status reads are made. *)
Definition query_segment (workgroup results_bucket : string) (budget : nat)
  (iq : nat * test_pipeline.query) (segment : list event) : Prop :=
  exists rest,
    segment
    = Print "Query {}: {} ({})"
        [ANat iq.1; AStr (test_pipeline.description iq.2);
         AStr (test_pipeline.name iq.2)]
      :: Call (StartQueryExecution (test_pipeline.sql iq.2) workgroup
                 (result_location results_bucket iq.2))
      :: rest /\
    submissions rest = [] /\
    length (status_fetches rest) <= budget.

(** The records of the executions [ids] of the queries [qs], pairwise. *)
Definition executions_of (ids : list string) (qs : list test_pipeline.query)
  : list test_pipeline.query_execution :=
  zip_with test_pipeline.QueryExecution ids qs.

(** * The remaining steps of the scripts

    [test_pipeline.main] and [deploy_lambda.main] make requests that the
    cleanup and the query test do not make: they invoke the function, list
    the objects under a prefix, read the tables of the catalog, upload code
    and touch local files.  A session keeps these requests, in order, in a
    journal beside the remote world. *)

Inductive further_request :=
| Invoke (FunctionName bucket_name : string)
    (* Payload = json.dumps({"bucket_name": bucket_name}) *)
| ListObjectsV2 (Bucket Prefix : string)
| GetTables (DatabaseName : string)
| UpdateFunctionCode (FunctionName ZipFile : string)
| ChangeDirectory (path : string)
| GetCwd
| ReadBytes (path : string)
| PathExists (path : string)
| Unlink (path : string).

Record session (W : Type) := Session {
  remote : W;
  journal : list further_request
}.
Arguments Session {W}.
Arguments remote {W}.
Arguments journal {W}.

(** A request through a client, entered in the journal. *)
Definition ask {W A} (r : further_request) (f : op W A) : M (session W) A :=
  fun s =>
    let '(x, w') := f (remote s) in
    Outcome x (Session w' (journal s ++ [r])) [].

(** A program on a part of the state, run on the whole state. *)
Definition zoom {S T A} (get : T -> S) (put : S -> T -> T) (m : M S A)
  : M T A :=
  fun t =>
    match m (get t) with
    | Outcome r s tr => Outcome r (put s t) tr
    end.

(** A program on the remote world, run in a session. *)
Definition through {W A} (m : M W A) : M (session W) A :=
  zoom remote (fun w s => Session w (journal s)) m.

(** A value that is there, or the exception raised by reading it. *)
Definition of_res {S A} (x : res A) : M S A :=
  match x with
  | Ok a => ret a
  | Raise e => raise e
  end.

(** [try: body finally: cleanup]. *)
Definition try_finally {S A} (body : M S A) (cleanup : M S unit) : M S A :=
  fun s =>
    match body s with
    | Outcome r s1 tr1 =>
        match cleanup s1 with
        | Outcome (Ok _) s2 tr2 => Outcome r s2 (tr1 ++ tr2)
        | Outcome (Raise e) s2 tr2 => Outcome (Raise e) s2 (tr1 ++ tr2)
        end
    end.

(** The response of [invoke]: its status code and what
    [json.loads(response['Payload'].read())] gives, as printed. *)
Record invocation := Invocation {
  StatusCode : nat;
  Payload : res string
}.

(** One entry of [response['TableList']], with
    [len(table.get('StorageDescriptor', {}).get('Columns', []))]. *)
Record table := Table { Name : string; Columns : nat }.

(** The response of [update_function_code]. *)
Record code_update := CodeUpdate {
  FunctionArn : string;
  LastModified : string;
  CodeSize : nat
}.

(** Further methods of the clients, and the local files. *)
Record Invoker (W : Type) := {
  (* FunctionName and the bucket name of the payload *)
  invoke : string -> string -> op W invocation
}.
Arguments invoke {W}.

Record ObjectLister (W : Type) := {
  (* Bucket, Prefix: one page of at most a thousand keys *)
  list_objects_v2 : string -> string -> op W page
}.
Arguments list_objects_v2 {W}.

Record Catalog (W : Type) := {
  (* response['TableList'], which may be missing *)
  get_tables : string -> op W (option (list table))
}.
Arguments get_tables {W}.

Record CodeUpdater (W : Type) := {
  update_function_code : string -> string -> op W code_update
}.
Arguments update_function_code {W}.

Record Files (W : Type) := {
  chdir : string -> op W unit;
  getcwd : op W string;
  (* open(path, 'rb').read() *)
  read_bytes : string -> op W string;
  path_exists : string -> op W bool;
  unlink : string -> op W unit
}.
Arguments chdir {W}.
Arguments getcwd {W}.
Arguments read_bytes {W}.
Arguments path_exists {W}.
Arguments unlink {W}.

(** ** Strings *)

(** [s.endswith(suffix)]. *)
Definition endswith (s suffix : string) : bool :=
  let n := String.length s in
  let k := String.length suffix in
  (k <=? n) && String.eqb (substring (n - k) k s) suffix.

(** [s.split('/')[-1]]: what follows the last slash; [seen] is what was
    read since the last slash. *)
Fixpoint last_component (seen s : string) : string :=
  match s with
  | EmptyString => seen
  | String c s' =>
      if String.eqb (String c "") "/" then last_component "" s'
      else last_component (seen +:+ String c "") s'
  end.

(** [s.replace(old, '')] for a non-empty [old]: the occurrences of [old]
    are removed from left to right; [skip] counts the characters of an
    occurrence still to pass. *)
Fixpoint remove_from (old : string) (skip : nat) (s : string) : string :=
  match s with
  | EmptyString => EmptyString
  | String c s' =>
      match skip with
      | S skip' => remove_from old skip' s'
      | 0 =>
          if String.prefix old s then
            remove_from old (String.length old - 1) s'
          else String c (remove_from old 0 s')
      end
  end.

Definition remove (old s : string) : string := remove_from old 0 s.

(** * test_pipeline.py: the other tests and [main] *)

Module pipeline_tests.

Import test_pipeline.

(** One entry of a list of [query_files]. *)
Record file_info := FileInfo {
  csv_file : string;
  metadata_file : string;
  size : nat;
  exec_id : string
}.

(** [exec_id_map]: a later execution of an identifier replaces an earlier
    one. *)
Definition exec_id_map (query_executions : list query_execution)
  : gmap string query :=
  foldl (fun exec_id_map exec_info =>
           <[execution_id exec_info := query_info exec_info]> exec_id_map)
        ∅ query_executions.

(** [query_files[query_type].append(file)], on a dictionary that keeps the
    order in which its keys were entered. *)
Fixpoint append_file (query_type : string) (file : file_info)
  (query_files : list (string * list file_info))
  : list (string * list file_info) :=
  match query_files with
  | [] => [(query_type, [file])]
  | (t, files) :: rest =>
      if String.eqb t query_type then (t, files ++ [file]) :: rest
      else (t, files) :: append_file query_type file rest
  end.

(** The body of [for obj in response['Contents']] in
    [show_query_result_files]. *)
Definition file_of_object (exec_id_map : gmap string query)
  (query_files : list (string * list file_info)) (obj : s3_object)
  : list (string * list file_info) :=
  let key := Key obj in
  if endswith key ".csv" && negb (endswith key "/") then
    let filename := last_component "" key in
    let exec_id := remove ".csv" filename in
    match exec_id_map !! exec_id with
    | Some query_info =>
        let query_type := description query_info in
        append_file query_type
          (FileInfo key (key +:+ ".metadata") (Size obj) exec_id)
          query_files
    | None => query_files
    end
  else query_files.

(** [missing_keys] of [main]. *)
Definition missing_keys (config : gmap string string) : list string :=
  filter (fun key => config !! key = None)
    ["lambda_function_name"; "data_bucket_name";
     "athena_results_bucket_name"].

(** [sum(1 for _, success in tests if success)]. *)
Definition passed (tests : list (string * bool)) : nat :=
  length (filter (fun test => test.2 = true) tests).

Section DataPipelineTester.
Context {W : Type}.
Context (lambda_client : Invoker W) (s3_client : ObjectLister W)
  (glue_client : GlueClient W) (catalog : Catalog W)
  (athena_client : AthenaClient W) (cf_client : CloudFormationClient W).

Abbreviation prog := (M (session W)).

Definition test_lambda_function (function_name bucket_name : string)
  : prog bool :=
  print "Testing Lambda function: {}" [AStr function_name] ;;
  try_except
    (response <- ask (Invoke function_name bucket_name)
                     (invoke lambda_client function_name bucket_name) ;;
     payload <- of_res (Payload response) ;;
     if StatusCode response =? 200 then
       print "Lambda function executed successfully" [] ;;
       print "Response: {}" [AStr payload] ;;
       ret true
     else
       print "Lambda function failed: {}" [AStr payload] ;;
       ret false)
    (fun e =>
       print "Error testing Lambda: {}" [AStr (exn_text e)] ;;
       ret false).

Definition check_s3_data (bucket_name : string) : prog bool :=
  print "Checking S3 bucket: {}" [AStr bucket_name] ;;
  try_except
    (response <- ask (ListObjectsV2 bucket_name "raw-data/")
                     (list_objects_v2 s3_client bucket_name "raw-data/") ;;
     match Contents response with
     | Some contents =>
         if 0 <? length contents then
           print "Found {} objects in S3" [ANat (length contents)] ;;
           for_each (take 5 contents) (fun obj =>
             print "- {} ({} bytes)" [AStr (Key obj); ANat (Size obj)]) ;;
           ret true
         else
           print "No data found in S3" [] ;;
           ret false
     | None =>
         print "No data found in S3" [] ;;
         ret false
     end)
    (fun e =>
       print "Error checking S3: {}" [AStr (exn_text e)] ;;
       ret false).

Definition check_glue_tables (database_name : string) : prog bool :=
  print "Checking Glue tables in database: {}" [AStr database_name] ;;
  try_except
    (response <- ask (GetTables database_name)
                     (get_tables catalog database_name) ;;
     let tables := default [] response in
     match tables with
     | _ :: _ =>
         print "Found {} table(s)" [ANat (length tables)] ;;
         for_each tables (fun table =>
           print "- {} ({} columns)"
                 [AStr (Name table); ANat (Columns table)]) ;;
         ret true
     | [] =>
         print "No tables found in Glue catalog" [] ;;
         print "Make sure the crawler has completed successfully" [] ;;
         ret false
     end)
    (fun e =>
       print "Error checking Glue tables: {}" [AStr (exn_text e)] ;;
       ret false).

Definition show_query_result_files (results_bucket : string)
  (query_executions : list query_execution) : prog unit :=
  print "Query result files by type:" [] ;;
  match query_executions with
  | _ :: _ =>
      let exec_id_map := exec_id_map query_executions in
      try_except
        (response <- ask (ListObjectsV2 results_bucket "query-results/")
                         (list_objects_v2 s3_client results_bucket
                            "query-results/") ;;
         match Contents response with
         | Some contents =>
             let query_files :=
               foldl (file_of_object exec_id_map) [] contents in
             match query_files with
             | _ :: _ =>
                 for_each query_files (fun entry =>
                   print "{}:" [AStr entry.1] ;;
                   for_each entry.2 (fun file_info =>
                     print "CSV: {} ({} bytes)"
                           [AStr (csv_file file_info);
                            ANat (size file_info)] ;;
                     print "s3://{}/{}"
                           [AStr results_bucket;
                            AStr (csv_file file_info)] ;;
                     print "Metadata: {}"
                           [AStr (metadata_file file_info)] ;;
                     print "s3://{}/{}"
                           [AStr results_bucket;
                            AStr (metadata_file file_info)]))
             | [] =>
                 print
                   "No matching query result files found for recent executions"
                   []
             end
         | None => print "No files found in query-results folder" []
         end)
        (fun e =>
           print "Error listing result files: {}" [AStr (exn_text e)])
  | [] => print "No query execution information available" []
  end.

(** [config[key]] on the dictionary answered by [get_stack_outputs]. *)
Definition item_of (config : gmap string string) (key : string)
  : prog string :=
  match config !! key with
  | Some value => ret value
  | None => raise (Exn KeyError key)
  end.

(** [# Test 5: Athena query (only if tables exist)]: the value of
    [athena_success] after it. *)
Definition main_test_5 (timestamp : string) (config : gmap string string)
  (tables_success : bool) : prog bool :=
  if tables_success then
    print "5. Testing Athena Query" [] ;;
    print "------------------------------" [] ;;
    try_except
      (database_name <- item_of config "glue_database_name" ;;
       response <- ask (GetTables database_name)
                       (get_tables catalog database_name) ;;
       (* response['TableList'][0]['Name'] *)
       table_name <-
         match response with
         | None => raise (Exn KeyError "TableList")
         | Some [] => raise (Exn IndexError "list index out of range")
         | Some (table :: _) => ret (Name table)
         end ;;
       athena_workgroup <- item_of config "athena_workgroup" ;;
       glue_database_name <- item_of config "glue_database_name" ;;
       athena_results_bucket_name <-
         item_of config "athena_results_bucket_name" ;;
       answer <- through (test_athena_query athena_client timestamp
                            athena_workgroup glue_database_name table_name
                            athena_results_bucket_name) ;;
       let athena_success := answer.1 in
       let query_executions := answer.2 in
       (if (athena_success : bool) then
          athena_results_bucket_name <-
            item_of config "athena_results_bucket_name" ;;
          show_query_result_files athena_results_bucket_name
            query_executions
        else ret tt) ;;
       ret athena_success)
      (fun e =>
         print "Error getting table name: {}" [AStr (exn_text e)] ;;
         ret false)
  else
    print "5. Skipping Athena Test (no tables found)" [] ;;
    ret false.

(** [# Summary]. *)
Definition summary (tests : list (string * bool)) : prog unit :=
  print "==================================================" [] ;;
  print "Test Summary" [] ;;
  print "==================================================" [] ;;
  for_each tests (fun test =>
    let status := if test.2 then "PASS" else "FAIL" in
    print "{} {}" [AStr test.1; AStr status]) ;;
  let passed_tests := passed tests in
  let total_tests := length tests in
  print "Results: {}/{} tests passed" [ANat passed_tests; ANat total_tests] ;;
  if passed_tests =? total_tests then
    print "All tests passed! Your data pipeline is working correctly." []
  else
    print
      "Some tests failed. Check the error messages above for troubleshooting."
      [].

(** The five tests of [main], for a configuration that has the required
    keys: the list [tests] of the summary. *)
Definition run_tests (timestamp : string) (config : gmap string string)
  : prog (list (string * bool)) :=
  (* Test 1: Lambda function *)
  print "1. Testing Lambda Function" [] ;;
  print "------------------------------" [] ;;
  lambda_function_name <- item_of config "lambda_function_name" ;;
  data_bucket_name <- item_of config "data_bucket_name" ;;
  lambda_success <-
    test_lambda_function lambda_function_name data_bucket_name ;;
  (if (lambda_success : bool) then
     print "Waiting 10 seconds for data upload..." [] ;;
     sleep 10
   else ret tt) ;;
  (* Test 2: S3 data *)
  print "2. Checking S3 Data" [] ;;
  print "------------------------------" [] ;;
  data_bucket_name <- item_of config "data_bucket_name" ;;
  s3_success <- check_s3_data data_bucket_name ;;
  (* Test 3: Glue crawler *)
  print "3. Testing Glue Crawler" [] ;;
  print "------------------------------" [] ;;
  glue_crawler_name <- item_of config "glue_crawler_name" ;;
  crawler_success <- through (test_glue_crawler glue_client glue_crawler_name) ;;
  (if (crawler_success : bool) then
     print "Waiting 60 seconds for crawler to process data..." [] ;;
     sleep 60
   else ret tt) ;;
  (* Test 4: Glue tables *)
  print "4. Checking Glue Catalog" [] ;;
  print "------------------------------" [] ;;
  glue_database_name <- item_of config "glue_database_name" ;;
  tables_success <- check_glue_tables glue_database_name ;;
  (* Test 5: Athena query (only if tables exist) *)
  athena_success <- main_test_5 timestamp config tables_success ;;
  ret [("Lambda Function", lambda_success);
       ("S3 Data Storage", s3_success);
       ("Glue Crawler", crawler_success);
       ("Glue Catalog", tables_success);
       ("Athena Query", athena_success)].

(** [main]; [timestamp] is what [datetime.now()] gives in
    [test_athena_query]. *)
Definition main (timestamp : string) : prog unit :=
  print "Starting Data Pipeline Tests" [] ;;
  print "==================================================" [] ;;
  config <- through (get_stack_outputs cf_client) ;;
  match config with
  | None => ret tt
  | Some config =>
      if bool_decide (config = ∅) then ret tt
      else
        let missing_keys := missing_keys config in
        match missing_keys with
        | _ :: _ =>
            print "Missing required configuration: {}" [AList missing_keys] ;;
            print "Make sure the DataPipelineStack is deployed with all outputs"
                  [] ;;
            ret tt
        | [] =>
            tests <- run_tests timestamp config ;;
            summary tests
        end
  end.

End DataPipelineTester.

End pipeline_tests.

(** * scripts/deploy_lambda.py: the other steps and [main] *)

Module lambda_deployment.

(** The frame of a call of [main]: the session and the local [zip_path],
    which the [finally] clause reads. *)
Record frame (W : Type) := Frame {
  in_frame : session W;
  zip_path : option string
}.
Arguments Frame {W}.
Arguments in_frame {W}.
Arguments zip_path {W}.

(** A program of the session, run in the frame. *)
Definition in_session {W A} (m : M (session W) A) : M (frame W) A :=
  zoom in_frame (fun s fr => Frame s (zip_path fr)) m.

(** [zip_path = value]. *)
Definition set_zip_path {W} (value : option string) : M (frame W) unit :=
  fun fr => Outcome (Ok tt) (Frame (in_frame fr) value) [].

Section functions.
Context {W : Type}.
Context (cf_client : CloudFormationClient W) (lambda_client : LambdaClient W)
  (updater : CodeUpdater W) (invoker : Invoker W) (files : Files W).

Abbreviation prog := (M (session W)).

(** [for output in outputs] of [get_lambda_function_name], followed by the
    statements after the loop. *)
Fixpoint find_function_name (outputs : list (string * string))
  : M W (option string) :=
  match outputs with
  | [] =>
      print "Lambda function name not found in stack outputs" [] ;;
      ret None
  | output :: outputs' =>
      if String.eqb output.1 "LambdaFunctionName" then
        let function_name := output.2 in
        print "Found Lambda function: {}" [AStr function_name] ;;
        ret (Some function_name)
      else find_function_name outputs'
  end.

(** [response['Stacks'][0]['Outputs']]. *)
Definition outputs_of {S} (response : list stack_description)
  : M S (list (string * string)) :=
  match response with
  | [] => raise (Exn IndexError "list index out of range")
  | stack :: _ =>
      match Outputs stack with
      | Some outputs => ret outputs
      | None => raise (Exn KeyError "Outputs")
      end
  end.

Definition get_lambda_function_name : M W (option string) :=
  print "Getting Lambda function name from CloudFormation..." [] ;;
  try_except
    (response <- call (DescribeStacks "DataPipelineStack")
                      (describe_stacks cf_client "DataPipelineStack") ;;
     outputs <- outputs_of response ;;
     find_function_name outputs)
    (fun e =>
       print "Error getting Lambda function name: {}" [AStr (exn_text e)] ;;
       ret None).

Definition update_lambda_code (function_name zip_path : string) : prog bool :=
  print "Updating Lambda function code: {}" [AStr function_name] ;;
  try_except
    (zip_content <- ask (ReadBytes zip_path) (read_bytes files zip_path) ;;
     response <- ask (UpdateFunctionCode function_name zip_content)
                     (update_function_code updater function_name
                        zip_content) ;;
     print "Lambda function updated successfully" [] ;;
     print "Function ARN: {}" [AStr (FunctionArn response)] ;;
     print "Last Modified: {}" [AStr (LastModified response)] ;;
     print "Code Size: {} bytes" [ANat (CodeSize response)] ;;
     ret true)
    (fun e =>
       print "Error updating Lambda function: {}" [AStr (exn_text e)] ;;
       ret false).

Definition test_updated_function (function_name : string) : prog bool :=
  print "Testing updated Lambda function..." [] ;;
  try_except
    (response <- through (call (DescribeStacks "DataPipelineStack")
                            (describe_stacks cf_client "DataPipelineStack")) ;;
     outputs <- outputs_of response ;;
     (* for output in outputs: ... break *)
     let data_bucket_name := first_output "DataBucketName" outputs in
     match data_bucket_name with
     | None | Some EmptyString =>
         print "Could not find data bucket name for testing" [] ;;
         ret false
     | Some data_bucket_name =>
         response <- ask (Invoke function_name data_bucket_name)
                         (invoke invoker function_name data_bucket_name) ;;
         if StatusCode response =? 200 then
           payload <- of_res (Payload response) ;;
           print "Lambda function test successful" [] ;;
           print "Response: {}" [AStr payload] ;;
           ret true
         else
           print "Lambda function test failed with status: {}"
                 [ANat (StatusCode response)] ;;
           ret false
     end)
    (fun e =>
       print "Error testing Lambda function: {}" [AStr (exn_text e)] ;;
       ret false).

Definition cleanup_temp_files (zip_path : string) : prog unit :=
  try_except
    (present <- ask (PathExists zip_path) (path_exists files zip_path) ;;
     if (present : bool) then
       ask (Unlink zip_path) (unlink files zip_path) ;;
       print "Cleaned up temporary file: {}" [AStr zip_path]
     else ret tt)
    (fun e =>
       print "Could not clean up {}: {}"
             [AStr zip_path; AStr (exn_text e)]).

(** The [try] block of [main], for any way of building the package:
    [create_lambda_package] answers the path of the archive, or [None]. *)
Definition deployment_steps (create_lambda_package : prog (option string))
  : M (frame W) Z :=
  (* Step 1: Create deployment package *)
  created <- in_session create_lambda_package ;;
  set_zip_path created ;;
  match created with
  | None => ret 1%Z
  | Some zip_path =>
      (* Step 2: Get Lambda function name *)
      function_name <- in_session (through get_lambda_function_name) ;;
      match function_name with
      | None | Some EmptyString => ret 1%Z
      | Some function_name =>
          (* Step 3: Update Lambda code *)
          updated <- in_session (update_lambda_code function_name zip_path) ;;
          if negb updated then ret 1%Z
          else
            (* Step 4: Wait for function to be ready *)
            ready <-
              in_session
                (through
                   (deploy_lambda.wait_for_function_ready lambda_client
                      function_name 30)) ;;
            if negb ready then ret 1%Z
            else
              (* Step 5: Test the updated function *)
              tested <- in_session (test_updated_function function_name) ;;
              if negb tested then
                print "Lambda update completed but test failed" [] ;;
                ret 1%Z
              else
                print "Lambda function code deployed successfully!" [] ;;
                print "=================================================="
                      [] ;;
                ret 0%Z
      end
  end.

(** [main].  [script_dir] is [Path(__file__).parent.parent]. *)
Definition main (create_lambda_package : prog (option string))
  (script_dir : string) : M (frame W) Z :=
  print "Lambda Function Code Deployment" [] ;;
  print "==================================================" [] ;;
  in_session (ask (ChangeDirectory script_dir) (chdir files script_dir)) ;;
  cwd <- in_session (ask GetCwd (getcwd files)) ;;
  print "Working directory: {}" [AStr cwd] ;;
  set_zip_path None ;;
  try_finally
    (try_except
       (deployment_steps create_lambda_package)
       (fun e =>
          print "Unexpected error: {}" [AStr (exn_text e)] ;;
          ret 1%Z))
    (fun fr =>
       match zip_path fr with
       | Some zip_path => in_session (cleanup_temp_files zip_path) fr
       | None => ret tt fr
       end).

End functions.

End lambda_deployment.

(** * Further scenarios *)

(** A record that lists the function twice. *)
Definition twice_named_function : CloudFormationClient unit :=
  cf_double
    (Ok [StackDescription "UPDATE_COMPLETE"
           (Some [("DataBucketName", "data-pipeline-bucket-jsonplaceholder");
                  ("LambdaFunctionName", "data-pipeline-data-extractor");
                  ("LambdaFunctionName", "data-pipeline-data-extractor-v2")])])
    (Ok tt) (Ok tt).

(** The line [check_s3_data] prints for an object. *)
Definition object_line (obj : s3_object) : event :=
  Print "- {} ({} bytes)" [AStr (Key obj); ANat (Size obj)].

(** The line [check_glue_tables] prints for a table. *)
Definition table_line (t : table) : event :=
  Print "- {} ({} columns)" [AStr (Name t); ANat (Columns t)].

(** The session a script starts in. *)
Definition fresh {W} (w : W) : session W := Session w [].

(** Every run of [m] answers, and enters the requests [requests] in the
    journal. *)
Definition enters {W A} (m : M (session W) A)
  (requests : list further_request) : Prop :=
  forall s,
    (exists a, result (m s) = Ok a) /\
    journal (final (m s)) = journal s ++ requests.

(** The outputs [get_stack_outputs] looks for, and the keys of [config] it
    keeps them under. *)
Definition required_outputs : list (string * string) :=
  [("lambda_function_name", "LambdaFunctionName");
   ("data_bucket_name", "DataBucketName");
   ("athena_results_bucket_name", "AthenaResultsBucketName")].

(** A record of a stack deployed without the output of the results
    bucket. *)
Definition record_without_results_bucket : CloudFormationClient unit :=
  cf_double
    (Ok [StackDescription "CREATE_COMPLETE"
           (Some [("DataBucketName", "data-pipeline-bucket-jsonplaceholder");
                  ("LambdaFunctionName", "data-pipeline-data-extractor")])])
    (Ok tt) (Ok tt).

Definition silent_invoker {W} : Invoker W :=
  {| invoke _ _ := unavailable |}.
Definition silent_lister {W} : ObjectLister W :=
  {| list_objects_v2 _ _ := unavailable |}.
Definition silent_catalog {W} : Catalog W :=
  {| get_tables _ := unavailable |}.

Definition tests_without_results_bucket : outcome (session unit) unit :=
  pipeline_tests.main silent_invoker silent_lister
    (glue_double (Ok "READY") (Ok tt) (Ok tt) (Ok tt) (Ok []))
    silent_catalog (athena_double (Ok []) (Ok tt))
    record_without_results_bucket "09:30" (fresh tt).

(** The dictionary [get_stack_outputs] starts from. *)
Definition default_outputs : gmap string string :=
  <["glue_database_name" := "data_pipeline_db"]>
  (<["glue_crawler_name" := "data-pipeline-crawler"]>
  (<["athena_workgroup" := "data-pipeline-workgroup"]> ∅)).

(** A read of the deployment record from which [main] of the test script
    cannot take all it needs: the read fails, lists no stack or no
    outputs, or lacks one of the required outputs. *)
Definition incomplete_record (record : res (list stack_description)) : Prop :=
  match record with
  | Ok (stack :: _) =>
      match Outputs stack with
      | Some outputs =>
          exists output_key,
            output_key ∈ required_outputs.*2 /\ output_key ∉ outputs.*1
      | None => True
      end
  | _ => True
  end.

(** The line [main] prints for a test in its summary. *)
Definition test_line (test : string * bool) : event :=
  Print "{} {}" [AStr test.1; AStr (if test.2 then "PASS" else "FAIL")].

(** The list [tests] of the summary of [main]. *)
Definition five_tests
  (lambda_success s3_success crawler_success tables_success athena_success
     : bool) : list (string * bool) :=
  [("Lambda Function", lambda_success);
   ("S3 Data Storage", s3_success);
   ("Glue Crawler", crawler_success);
   ("Glue Catalog", tables_success);
   ("Athena Query", athena_success)].

(** The two lines [main] prints before a test. *)
Definition test_heading (title : string) : list event :=
  [Print title []; Print "------------------------------" []].

(** What [main] does after a test that is followed by a wait when it
    passed. *)
Definition pause (success : bool) (line : string) (seconds : nat)
  : list event :=
  if success then [Print line []; Sleep seconds] else [].

(** The last line of the summary. *)
Definition verdict_line (all_passed : bool) : event :=
  Print (if all_passed then
           "All tests passed! Your data pipeline is working correctly."
         else
           "Some tests failed. Check the error messages above for troubleshooting.")
        [].

(** An outcome reached after the trace [tr]. *)
Definition after {S A} (tr : list event) (o : outcome S A) : outcome S A :=
  Outcome (result o) (final o) (tr ++ emitted o).

(** A catalog in which no table is listed, whatever the world. *)
Definition without_tables {W} (catalog : Catalog W) (database_name : string)
  : Prop :=
  forall w,
    match (get_tables catalog database_name w).1 with
    | Ok (Some (_ :: _)) => False
    | _ => True
    end.

(** A pipeline whose crawler has not listed any table yet. *)
Definition tests_before_the_first_crawl : outcome (session unit) unit :=
  pipeline_tests.main
    {| invoke _ _ := always (Ok (Invocation 200 (Ok "{'statusCode': 200}"))) |}
    {| list_objects_v2 _ _ :=
         always (Ok (Page (Some [S3Object "raw-data/users.json" 1024]))) |}
    (glue_double (Ok "READY") (Ok tt) (Ok tt) (Ok tt) (Ok []))
    {| get_tables _ := always (Ok (Some [])) |}
    (athena_double (Ok []) (Ok tt))
    (cf_double (Ok [deployed_stack]) (Ok tt) (Ok tt))
    "09:30" (fresh tt).

(** The files of a project whose archive can be read and removed. *)
Definition local_files : Files unit :=
  {| chdir _ := always (Ok tt);
     getcwd := always (Ok "/home/user/data-pipeline");
     read_bytes _ := always (Ok "PK");
     path_exists _ := always (Ok true);
     unlink _ := always (Ok tt) |}.

(** A deployment whose upload is refused: the archive is built and read,
    the function is named by the record, and the service does not take the
    code. *)
Definition deployment_with_refused_upload
  : outcome (lambda_deployment.frame unit) Z :=
  lambda_deployment.main
    (cf_double (Ok [deployed_stack]) (Ok tt) (Ok tt))
    (lambda_double (Ok "Active") (Ok tt) (Ok []))
    {| update_function_code _ _ := unavailable |}
    silent_invoker local_files
    (ret (Some "lambda_deployment.zip"))
    "/home/user/data-pipeline"
    (lambda_deployment.Frame (fresh tt) None).

(** A deployment whose archive cannot be built. *)
Definition deployment_without_archive
  : outcome (lambda_deployment.frame unit) Z :=
  lambda_deployment.main
    (cf_double (Ok [deployed_stack]) (Ok tt) (Ok tt))
    (lambda_double (Ok "Active") (Ok tt) (Ok []))
    {| update_function_code _ _ := unavailable |}
    silent_invoker local_files
    (print "Lambda functions directory not found: {}"
           [AStr "lambda_functions"] ;;
     ret None)
    "/home/user/data-pipeline"
    (lambda_deployment.Frame (fresh tt) None).
(** * Reasoning rules *)

Section rules.
Context {S : Type}.

Lemma emits_ret {A} Q `{!Additive Q} (a : A) : emits Q (ret (S:=S) a).
Proof. intros s. apply additive_nil. Qed.

Lemma emits_raise {A} Q `{!Additive Q} e : emits Q (raise (S:=S) (A:=A) e).
Proof. intros s. apply additive_nil. Qed.

Lemma emits_bind {A B} Q `{!Additive Q} (m : M S A) (k : A -> M S B) :
  emits Q m -> (forall a, emits Q (k a)) -> emits Q (bind m k).
Proof.
  intros Hm Hk s. unfold bind. specialize (Hm s).
  destruct (m s) as [[a|e] s1 tr1]; cbn in *; [|done].
  specialize (Hk a s1). destruct (k a s1). by apply additive_app.
Qed.

Lemma emits_try {A} Q `{!Additive Q} (m : M S A) h :
  emits Q m -> (forall e, emits Q (h e)) -> emits Q (try_except m h).
Proof.
  intros Hm Hh s. unfold try_except. specialize (Hm s).
  destruct (m s) as [[a|e] s1 tr1]; cbn in *; [done|].
  specialize (Hh e s1). destruct (h e s1). by apply additive_app.
Qed.

Lemma emits_print Q template args :
  Q [Print template args] -> emits Q (print (S:=S) template args).
Proof. intros H s. exact H. Qed.

Lemma emits_sleep Q n : Q [Sleep n] -> emits Q (sleep (S:=S) n).
Proof. intros H s. exact H. Qed.

Lemma emits_for_each {A} Q `{!Additive Q} (xs : list A) (body : A -> M S unit) :
  (forall x, emits Q (body x)) -> emits Q (for_each xs body).
Proof.
  intros H. induction xs; simpl; [apply emits_ret | apply emits_bind]; auto.
Qed.

Lemma emits_for_fold {A B} Q `{!Additive Q} (xs : list A) (acc : B)
  (body : B -> A -> M S B) :
  (forall b x, emits Q (body b x)) -> emits Q (for_fold xs acc body).
Proof.
  intros H. revert acc.
  induction xs; intros acc; simpl; [apply emits_ret | apply emits_bind]; auto.
Qed.

Lemma total_ret {A} (a : A) : total (ret (S:=S) a).
Proof. intros s. by exists a. Qed.

Lemma total_bind {A B} (m : M S A) (k : A -> M S B) :
  total m -> (forall a, total (k a)) -> total (bind m k).
Proof.
  intros Hm Hk s. unfold bind. destruct (Hm s) as [a Ha].
  destruct (m s) as [r s1 tr1]; cbn in *. subst r.
  destruct (Hk a s1) as [b Hb]. destruct (k a s1). eauto.
Qed.

Lemma total_try {A} (m : M S A) h :
  (forall e, total (h e)) -> total (try_except m h).
Proof.
  intros Hh s. unfold try_except.
  destruct (m s) as [[a|e] s1 tr1]; cbn; [eauto|].
  destruct (Hh e s1) as [b Hb]. destruct (h e s1). eauto.
Qed.

Lemma total_print template args : total (print (S:=S) template args).
Proof. intros s. by exists tt. Qed.

Lemma total_sleep n : total (sleep (S:=S) n).
Proof. intros s. by exists tt. Qed.

Lemma total_for_each {A} (xs : list A) (body : A -> M S unit) :
  (forall x, total (body x)) -> total (for_each xs body).
Proof.
  intros H. induction xs; simpl; [apply total_ret | apply total_bind]; auto.
Qed.

Lemma keeps_ret {A T} (f : S -> T) (a : A) : keeps f (ret a : M S A).
Proof. by intros s. Qed.

Lemma keeps_raise {A T} (f : S -> T) e : keeps f (raise (S:=S) (A:=A) e).
Proof. by intros s. Qed.

Lemma keeps_bind {A B T} (f : S -> T) (m : M S A) (k : A -> M S B) :
  keeps f m -> (forall a, keeps f (k a)) -> keeps f (bind m k).
Proof.
  intros Hm Hk s. unfold bind. specialize (Hm s).
  destruct (m s) as [[a|e] s1 tr1]; cbn in *; [|done].
  specialize (Hk a s1). destruct (k a s1). cbn in *. congruence.
Qed.

Lemma keeps_try {A T} (f : S -> T) (m : M S A) h :
  keeps f m -> (forall e, keeps f (h e)) -> keeps f (try_except m h).
Proof.
  intros Hm Hh s. unfold try_except. specialize (Hm s).
  destruct (m s) as [[a|e] s1 tr1]; cbn in *; [done|].
  specialize (Hh e s1). destruct (h e s1). cbn in *. congruence.
Qed.

Lemma keeps_print {T} (f : S -> T) template args :
  keeps f (print template args).
Proof. by intros s. Qed.

Lemma keeps_sleep {T} (f : S -> T) n : keeps f (sleep n).
Proof. by intros s. Qed.

Lemma keeps_for_each {A T} (f : S -> T) (xs : list A) (body : A -> M S unit) :
  (forall x, keeps f (body x)) -> keeps f (for_each xs body).
Proof.
  intros H. induction xs; simpl; [apply keeps_ret | apply keeps_bind]; auto.
Qed.

Lemma keeps_for_fold {A B T} (f : S -> T) (xs : list A) (acc : B)
  (body : B -> A -> M S B) :
  (forall b x, keeps f (body b x)) -> keeps f (for_fold xs acc body).
Proof.
  intros H. revert acc.
  induction xs; intros acc; simpl; [apply keeps_ret | apply keeps_bind]; auto.
Qed.

End rules.

(** Traces on which a projection of the events is empty. *)
Lemma omap_nil_additive {B} (f : event -> option B) :
  Additive (fun tr => omap f tr = []).
Proof.
  split; [done|]. intros tr1 tr2 H1 H2. by rewrite omap_app, H1, H2.
Qed.

Lemma and_additive (P Q : list event -> Prop) :
  Additive P -> Additive Q -> Additive (fun tr => P tr /\ Q tr).
Proof.
  intros [] []. split; [done|]. intros ?? [] []; split; auto.
Qed.

(** Runs the combinators of a program on the state it is applied to. *)
Ltac run :=
  unfold try_except, bind, call, print, sleep, ret, raise; cbn.

(** Walks through a program built from the combinators above. *)
Ltac walk rule :=
  repeat first
    [ rule
    | match goal with
      | |- context [match ?x with _ => _ end] => destruct x
      end ].

(** * The polling loops *)


#[local] Instance silent_additive : Additive silent.
Proof. repeat apply and_additive; apply omap_nil_additive. Qed.

Lemma poll_results_app tr1 tr2 :
  poll_results (tr1 ++ tr2) = poll_results tr1 ++ poll_results tr2.
Proof. apply omap_app. Qed.

Lemma status_fetches_app tr1 tr2 :
  status_fetches (tr1 ++ tr2) = status_fetches tr1 ++ status_fetches tr2.
Proof. apply omap_app. Qed.

Lemma sleeps_app tr1 tr2 : sleeps (tr1 ++ tr2) = sleeps tr1 ++ sleeps tr2.
Proof. apply omap_app. Qed.

Section query_frame.
Context {W : Type} (athena_client : AthenaClient W).
Import test_pipeline.

Lemma emits_frame_aws {A} Q r (f : op W A) :
  Q [Call r] -> emits Q (aws r f).
Proof. intros H fr. unfold aws. by destruct (f (world fr)). Qed.

Lemma keeps_flag_aws {A} r (f : op W A) : keeps all_queries_passed (aws r f).
Proof. intros fr. unfold aws. by destruct (f (world fr)). Qed.

Lemma keeps_executions_aws {A} r (f : op W A) :
  keeps query_executions (aws r f).
Proof. intros fr. unfold aws. by destruct (f (world fr)). Qed.

Lemma emits_item {A} Q `{!Additive Q} (xs : list A) i :
  emits (S:=frame W) Q (item xs i).
Proof.
  unfold item. destruct (xs !! i); [apply emits_ret | apply emits_raise]; done.
Qed.

Lemma emits_var_char_value Q `{!Additive Q} cell :
  emits (S:=frame W) Q (var_char_value cell).
Proof. destruct cell; [apply emits_ret | apply emits_raise]; done. Qed.

Lemma keeps_item {A T} (f : frame W -> T) (xs : list A) i : keeps f (item xs i).
Proof.
  unfold item. destruct (xs !! i); [apply keeps_ret | apply keeps_raise].
Qed.

Lemma keeps_var_char_value {T} (f : frame W -> T) cell :
  keeps f (var_char_value cell).
Proof. destruct cell; [apply keeps_ret | apply keeps_raise]. Qed.

Lemma show_results_silent q id :
  emits silent (show_results athena_client q id).
Proof.
  unfold show_results.
  walk ltac:(first [ apply emits_ret; apply _
                   | apply emits_bind; [apply _| |intros]
                   | apply emits_print; by repeat split
                   | apply emits_frame_aws; by repeat split
                   | apply emits_item; apply _
                   | apply emits_var_char_value; apply _
                   | apply emits_for_each; [apply _|intros] ]).
Qed.

Lemma show_results_keeps_flag q id :
  keeps all_queries_passed (show_results athena_client q id).
Proof.
  unfold show_results.
  walk ltac:(first [ apply keeps_ret | apply keeps_bind; [|intros]
                   | apply keeps_print | apply keeps_flag_aws
                   | apply keeps_item | apply keeps_var_char_value
                   | apply keeps_for_each; intros ]).
Qed.

Lemma show_results_keeps_executions q id :
  keeps query_executions (show_results athena_client q id).
Proof.
  unfold show_results.
  walk ltac:(first [ apply keeps_ret | apply keeps_bind; [|intros]
                   | apply keeps_print | apply keeps_executions_aws
                   | apply keeps_item | apply keeps_var_char_value
                   | apply keeps_for_each; intros ]).
Qed.

End query_frame.

(** What [k] rounds of "read the status, sleep two seconds" emit. *)
Lemma rounds_poll_results r k :
  poll_results (concat (replicate k [Call r; Sleep 2])) = [].
Proof. induction k; [done|]. simpl. apply IHk. Qed.

Lemma rounds_sleeps r k :
  sleeps (concat (replicate k [Call r; Sleep 2])) = replicate k 2.
Proof. induction k; [done|]. simpl. f_equal. apply IHk. Qed.

Lemma rounds_status_fetches r k :
  is_status_fetch r = true ->
  status_fetches (concat (replicate k [Call r; Sleep 2])) = replicate k r.
Proof.
  intros Hr. induction k; [done|]. simpl. rewrite Hr. f_equal. apply IHk.
Qed.

Lemma replicate_snoc {A} (x : A) m :
  replicate m x ++ [x] = replicate (S m) x.
Proof. induction m as [|m IH]; [done|]. simpl in *. by rewrite IH. Qed.

Lemma query_pending_tests status :
  query_pending status = true ->
  String.eqb status "SUCCEEDED" = false /\
  String.eqb status "FAILED" = false /\
  String.eqb status "CANCELLED" = false.
Proof.
  unfold query_pending, query_succeeded, query_failed.
  intros [H1 H2]%andb_true_iff.
  apply negb_true_iff in H1, H2. apply orb_false_iff in H2. tauto.
Qed.

Section scripted_queries.
Context (submit : nat -> res string)
  (status : string -> nat -> res query_status)
  (rows : string -> res query_results).
Import test_pipeline.

Abbreviation client := (athena_script submit status rows).

(** While the statuses read are pending ones, each attempt reads the status
    once and sleeps once. *)
Lemma wait_for_query_pending q id k : forall attempts s p flag execs,
  (forall j, j < k ->
     exists st, status id (p + j) = Ok st /\
                query_pending (State st) = true) ->
  k <= attempts ->
  wait_for_query client q id attempts (Frame (AthenaSim s p) flag execs) =
  let o := wait_for_query client q id (attempts - k)
             (Frame (AthenaSim s (p + k)) flag execs) in
  Outcome (result o) (final o)
    (concat (replicate k [Call (GetQueryExecution id); Sleep 2]) ++ emitted o).
Proof.
  induction k as [|k IH]; intros attempts s p flag execs Hp Hk.
  - cbn zeta. rewrite Nat.sub_0_r, Nat.add_0_r. simpl.
    by destruct (wait_for_query _ _ _ _ _).
  - destruct attempts as [|attempts]; [lia|].
    destruct (Hp 0 ltac:(lia)) as (st & Hst & H0).
    rewrite Nat.add_0_r in Hst.
    apply query_pending_tests in H0 as (H1 & H2 & H3).
    cbn [wait_for_query]. unfold aws, bind at 1. cbn. rewrite Hst. cbn.
    rewrite H1, H2, H3. unfold bind at 1. cbn.
    rewrite (IH attempts s (S p) flag execs).
    + cbn. by replace (p + S k) with (S p + k) by lia.
    + intros j Hj. replace (S p + j) with (p + S j) by lia. apply Hp. lia.
    + lia.
Qed.

Lemma wait_for_query_succeeded q id attempts s p flag execs st :
  status id p = Ok st ->
  query_succeeded (State st) = true ->
  let o := wait_for_query client q id (S attempts)
             (Frame (AthenaSim s p) flag execs) in
  let shown := show_results client q id (Frame (AthenaSim s (S p)) flag execs)
  in
  poll_results (emitted o) = [Succeeded] /\
  status_fetches (emitted o) = [GetQueryExecution id] /\
  sleeps (emitted o) = [] /\
  result o = result shown /\
  final o = final shown /\
  submissions (emitted o) = submissions (emitted shown).
Proof.
  unfold query_succeeded. intros Hst H.
  cbn [wait_for_query].
  unfold aws, bind, print; cbn -[show_results]. rewrite Hst.
  cbn -[show_results]. rewrite H. cbn -[show_results].
  pose proof (show_results_silent client q id
                (Frame (AthenaSim s (S p)) flag execs)) as (Hr & Hf & Hs).
  destruct (show_results _ _ _ _) as [r fr tr]. simpl in *.
  unfold poll_results, status_fetches, sleeps in *. by rewrite Hr, Hf, Hs.
Qed.

Lemma wait_for_query_failed q id attempts s p flag execs st :
  status id p = Ok st ->
  query_failed (State st) = true ->
  let o := wait_for_query client q id (S attempts)
             (Frame (AthenaSim s p) flag execs) in
  (exists reason, poll_results (emitted o) = [FailedTerminal reason]) /\
  status_fetches (emitted o) = [GetQueryExecution id] /\
  sleeps (emitted o) = [] /\
  result o = Ok tt /\
  all_queries_passed (final o) = false /\
  query_executions (final o) = execs.
Proof.
  unfold query_failed. intros Hst H.
  cbn [wait_for_query]. unfold aws, bind at 1. cbn. rewrite Hst. cbn.
  destruct (String.eqb (State st) "SUCCEEDED") eqn:E1.
  { apply String.eqb_eq in E1. rewrite E1 in H. done. }
  destruct (String.eqb (State st) "FAILED") eqn:E2.
  { cbn. eauto 10. }
  simpl in H. rewrite H. cbn. eauto 10.
Qed.

Lemma wait_for_query_timeout q id fr :
  let o := wait_for_query client q id 0 fr in
  poll_results (emitted o) = [TimedOut] /\
  status_fetches (emitted o) = [] /\
  sleeps (emitted o) = [] /\
  result o = Ok tt /\
  all_queries_passed (final o) = false /\
  query_executions (final o) = query_executions fr.
Proof. by cbn. Qed.

End scripted_queries.

Section scripted_function.
Context (states : nat -> string).
Import deploy_lambda.

Abbreviation lambda := (function_script states).

(** While the states read are [Pending], each attempt reads the state once
    and sleeps once. *)
Lemma wait_attempts_pending name max_attempts k :
  forall attempt remaining n,
  (forall j, j < k -> function_pending (states (n + j)) = true) ->
  k <= remaining ->
  exists pre,
    let o := wait_attempts lambda name max_attempts (attempt + k)
               (remaining - k) (n + k) in
    wait_attempts lambda name max_attempts attempt remaining n =
      Outcome (result o) (final o) (pre ++ emitted o) /\
    poll_results pre = [] /\
    status_fetches pre = replicate k (GetFunction name) /\
    sleeps pre = replicate k 2.
Proof.
  induction k as [|k IH]; intros attempt remaining n Hp Hk.
  - exists []. cbn zeta. rewrite Nat.sub_0_r, !Nat.add_0_r.
    by destruct (wait_attempts _ _ _ _ _ _).
  - destruct remaining as [|remaining]; [lia|].
    pose proof (Hp 0 ltac:(lia)) as H0. rewrite Nat.add_0_r in H0.
    unfold function_pending in H0. apply String.eqb_eq in H0.
    destruct (IH (S attempt) remaining (S n)) as (pre & Heq & H1 & H2 & H3).
    { intros j Hj. replace (S n + j) with (n + S j) by lia. apply Hp. lia. }
    { lia. }
    exists ([Call (GetFunction name);
             Print "Status: {} (attempt {}/{})"
               [AStr "Pending"; ANat (attempt + 1); ANat max_attempts];
             Sleep 2] ++ pre).
    cbn zeta in *. split; [|split; [|split]].
    + cbn [wait_attempts]. run. rewrite H0. cbn.
      fold (function_script states). rewrite Heq. cbn.
      by replace (attempt + S k) with (S attempt + k) by lia;
         replace (n + S k) with (S n + k) by lia.
    + rewrite poll_results_app, H1. done.
    + rewrite status_fetches_app, H2. done.
    + rewrite sleeps_app, H3. done.
Qed.

Lemma wait_attempts_active name max_attempts attempt remaining n :
  function_active (states n) = true ->
  wait_attempts lambda name max_attempts attempt (S remaining) n =
  Outcome (Ok true) (S n)
    [Call (GetFunction name); Print "Lambda function is ready" []].
Proof.
  unfold function_active. intros H.
  cbn [wait_attempts]. run. by rewrite H.
Qed.

Lemma wait_attempts_unexpected name max_attempts attempt remaining n :
  function_unexpected (states n) = true ->
  wait_attempts lambda name max_attempts attempt (S remaining) n =
  Outcome (Ok false) (S n)
    [Call (GetFunction name);
     Print "Unexpected Lambda state: {}" [AStr (states n)]].
Proof.
  unfold function_unexpected, function_active, function_pending.
  intros [H1 H2]%andb_true_iff. apply negb_true_iff in H1, H2.
  cbn [wait_attempts]. run. by rewrite H1, H2.
Qed.

Lemma wait_attempts_timeout name max_attempts attempt n :
  wait_attempts lambda name max_attempts attempt 0 n =
  Outcome (Ok false) n
    [Print "Timeout waiting for Lambda function to be ready" []].
Proof. done. Qed.

(** The three ways out of [wait_for_function_ready] after [k] pending
    reads. *)
Lemma wait_for_function_ready_after name max_attempts k :
  k <= max_attempts ->
  (forall j, j < k -> function_pending (states j) = true) ->
  let o := wait_for_function_ready lambda name max_attempts 0 in
  (k < max_attempts -> function_active (states k) = true ->
     result o = Ok true /\
     poll_results (emitted o) = [Succeeded] /\
     status_fetches (emitted o) = replicate (S k) (GetFunction name) /\
     sleeps (emitted o) = replicate k 2) /\
  (k < max_attempts -> function_unexpected (states k) = true ->
     result o = Ok false /\
     poll_results (emitted o) = [FailedTerminal (states k)] /\
     status_fetches (emitted o) = replicate (S k) (GetFunction name) /\
     sleeps (emitted o) = replicate k 2) /\
  (k = max_attempts ->
     result o = Ok false /\
     poll_results (emitted o) = [TimedOut] /\
     status_fetches (emitted o) = replicate k (GetFunction name) /\
     sleeps (emitted o) = replicate k 2).
Proof.
  intros Hk Hp.
  destruct (wait_attempts_pending name max_attempts k 0 max_attempts 0)
    as (pre & Heq & H1 & H2 & H3); [done..|].
  cbn zeta in *. unfold wait_for_function_ready. run.
  rewrite Heq. cbn. clear Heq.
  rewrite !poll_results_app, !status_fetches_app, !sleeps_app, H1, H2, H3.
  pose proof (replicate_snoc (A:=request)) as Hsnoc.
  split; [|split].
  - intros Hlt Ha. destruct (max_attempts - k) as [|m] eqn:E; [lia|].
    rewrite wait_attempts_active by done. cbn.
    by rewrite Hsnoc, app_nil_r.
  - intros Hlt Hu. destruct (max_attempts - k) as [|m] eqn:E; [lia|].
    rewrite wait_attempts_unexpected by done. cbn.
    by rewrite Hsnoc, app_nil_r.
  - intros E. subst max_attempts.
    rewrite Nat.sub_diag, wait_attempts_timeout. cbn.
    by rewrite !app_nil_r.
Qed.

End scripted_function.

Section scripted_queries_after.
Context (submit : nat -> res string) (statuses : nat -> query_status)
  (rows : string -> res query_results).
Import test_pipeline.

(** The three ways out of the query loop after [k] pending reads. *)
Lemma wait_for_query_after q id s flag execs max_attempts k :
  k <= max_attempts ->
  (forall j, j < k -> query_pending (State (statuses j)) = true) ->
  let o := wait_for_query (query_script submit statuses rows) q id
             max_attempts (Frame (AthenaSim s 0) flag execs) in
  (k < max_attempts -> query_succeeded (State (statuses k)) = true ->
     poll_results (emitted o) = [Succeeded] /\
     status_fetches (emitted o) = replicate (S k) (GetQueryExecution id) /\
     sleeps (emitted o) = replicate k 2) /\
  (k < max_attempts -> query_failed (State (statuses k)) = true ->
     (exists reason, poll_results (emitted o) = [FailedTerminal reason]) /\
     status_fetches (emitted o) = replicate (S k) (GetQueryExecution id) /\
     sleeps (emitted o) = replicate k 2 /\
     result o = Ok tt /\
     all_queries_passed (final o) = false) /\
  (k = max_attempts ->
     poll_results (emitted o) = [TimedOut] /\
     status_fetches (emitted o) = replicate k (GetQueryExecution id) /\
     sleeps (emitted o) = replicate k 2 /\
     result o = Ok tt /\
     all_queries_passed (final o) = false).
Proof.
  intros Hk Hp. cbn zeta. unfold query_script.
  rewrite (wait_for_query_pending submit (fun _ n => Ok (statuses n)) rows
             q id k) by (try done; intros j Hj; eauto).
  cbn.
  rewrite !poll_results_app, !status_fetches_app, !sleeps_app,
    rounds_poll_results, rounds_sleeps, rounds_status_fetches by done.
  pose proof (replicate_snoc (A:=request)) as Hsnoc.
  split; [|split].
  - intros Hlt Hs. destruct (max_attempts - k) as [|m] eqn:E; [lia|].
    destruct (wait_for_query_succeeded submit (fun _ n => Ok (statuses n))
                rows q id m s k flag execs _ eq_refl Hs)
      as (-> & -> & -> & _).
    by rewrite Hsnoc, app_nil_r.
  - intros Hlt Hf. destruct (max_attempts - k) as [|m] eqn:E; [lia|].
    destruct (wait_for_query_failed submit (fun _ n => Ok (statuses n))
                rows q id m s k flag execs _ eq_refl Hf)
      as ([reason ->] & -> & -> & -> & -> & _).
    rewrite Hsnoc, app_nil_r. eauto 10.
  - intros E. subst max_attempts. rewrite Nat.sub_diag.
    destruct (wait_for_query_timeout submit (fun _ n => Ok (statuses n))
                rows q id (Frame (AthenaSim s k) flag execs))
      as (-> & -> & -> & -> & -> & _).
    by rewrite !app_nil_r.
Qed.

End scripted_queries_after.

(** ** The polling state machine *)

(** C1.  For every status sequence presented to a polling loop (the query
    loop of [test_athena_query] and [wait_for_function_ready]), with [k]
    the number of leading statuses that match neither predicate: if the
    status at [k] matches the success predicate and [k] is within the
    budget, the poll announces [Succeeded] (and [wait_for_function_ready]
    answers [True]); if it matches the terminal-failure predicate the poll
    announces [FailedTerminal] after exactly [k + 1] status reads, whatever
    budget is left; if the whole budget is spent on statuses that match
    neither, the poll announces [TimedOut]. *)
Theorem polling_state_machine
  (submit : nat -> res string) (rows : string -> res query_results)
  (statuses : nat -> query_status) (states : nat -> string)
  (q : test_pipeline.query) (id function_name : string) (s : nat)
  (flag : bool) (execs : list test_pipeline.query_execution)
  (max_attempts k : nat) :
  k <= max_attempts ->
  (forall j, j < k -> query_pending (State (statuses j)) = true) ->
  (forall j, j < k -> function_pending (states j) = true) ->
  let oq :=
    test_pipeline.wait_for_query (query_script submit statuses rows) q id
      max_attempts (test_pipeline.Frame (AthenaSim s 0) flag execs) in
  let ol :=
    deploy_lambda.wait_for_function_ready (function_script states)
      function_name max_attempts 0 in
  (* a success match within the budget *)
  (k < max_attempts -> query_succeeded (State (statuses k)) = true ->
     poll_results (emitted oq) = [Succeeded] /\
     status_fetches (emitted oq) = replicate (S k) (GetQueryExecution id) /\
     sleeps (emitted oq) = replicate k 2) /\
  (k < max_attempts -> function_active (states k) = true ->
     result ol = Ok true /\
     poll_results (emitted ol) = [Succeeded] /\
     status_fetches (emitted ol) = replicate (S k) (GetFunction function_name) /\
     sleeps (emitted ol) = replicate k 2) /\
  (* a terminal-failure match *)
  (k < max_attempts -> query_failed (State (statuses k)) = true ->
     (exists reason, poll_results (emitted oq) = [FailedTerminal reason]) /\
     status_fetches (emitted oq) = replicate (S k) (GetQueryExecution id) /\
     sleeps (emitted oq) = replicate k 2 /\
     result oq = Ok tt /\
     test_pipeline.all_queries_passed (final oq) = false) /\
  (k < max_attempts -> function_unexpected (states k) = true ->
     result ol = Ok false /\
     poll_results (emitted ol) = [FailedTerminal (states k)] /\
     status_fetches (emitted ol) = replicate (S k) (GetFunction function_name) /\
     sleeps (emitted ol) = replicate k 2) /\
  (* no match within the budget *)
  (k = max_attempts ->
     poll_results (emitted oq) = [TimedOut] /\
     status_fetches (emitted oq) = replicate k (GetQueryExecution id) /\
     sleeps (emitted oq) = replicate k 2 /\
     result oq = Ok tt /\
     test_pipeline.all_queries_passed (final oq) = false) /\
  (k = max_attempts ->
     result ol = Ok false /\
     poll_results (emitted ol) = [TimedOut] /\
     status_fetches (emitted ol) = replicate k (GetFunction function_name) /\
     sleeps (emitted ol) = replicate k 2).
Proof.
  intros Hk Hq Hf.
  destruct (wait_for_query_after submit statuses rows q id s flag execs
              max_attempts k Hk Hq) as (Q1 & Q2 & Q3).
  destruct (wait_for_function_ready_after states function_name
              max_attempts k Hk Hf) as (F1 & F2 & F3).
  cbn zeta. tauto.
Qed.

Lemma polling_state_machine_witness :
  poll_results (emitted (stuck_query_run "RUNNING")) = [TimedOut] /\
  result
    (deploy_lambda.wait_for_function_ready
       (function_script (pending_then "Active")) "extractor" 30 0)
  = Ok true.
Proof.
  split.
  - refine (proj1 (proj1 (proj2 (proj2 (proj2 (proj2
      (polling_state_machine no_submission no_rows
         (fun _ => QueryStatus "RUNNING" None) (fun _ => "Pending")
         count_query "exec-1" "extractor" 0 true [] 3 3 _ _ _)))))
      eq_refl)).
    + apply le_n.
    + intros j _. reflexivity.
    + intros j _. reflexivity.
  - refine (proj1 (proj1 (proj2
      (polling_state_machine no_submission no_rows
         (running_then "SUCCEEDED") (pending_then "Active")
         count_query "exec-1" "extractor" 0 true [] 30 1 _ _ _))
      _ eq_refl)).
    + repeat constructor.
    + intros [|j] Hj; [reflexivity | exfalso; inversion Hj as [|? Hj']; inversion Hj'].
    + intros [|j] Hj; [reflexivity | exfalso; inversion Hj as [|? Hj']; inversion Hj'].
    + repeat constructor.
Defined.

(** C3 fails for the query loop: a status that is neither a success state
    nor an in-progress state, and not [FAILED] or [CANCELLED] either, is
    slept on and read again until the budget is spent. *)
Lemma unrecognized_query_status_is_retried :
  query_succeeded "THROTTLED" = false /\
  query_in_progress "THROTTLED" = false /\
  poll_results (emitted (stuck_query_run "THROTTLED")) = [TimedOut] /\
  sleeps (emitted (stuck_query_run "THROTTLED")) = [2; 2; 2] /\
  ~ (exists reason,
       poll_results (emitted (stuck_query_run "THROTTLED"))
       = [FailedTerminal reason]).
Proof.
  repeat split; try reflexivity.
  intros [reason H]. vm_compute in H. discriminate H.
Qed.

(** C3, amended.  In [wait_for_function_ready] a state that is neither
    [Active] nor [Pending] ends the loop at once as a terminal failure,
    with no sleep after it.  In the query loop only [FAILED] and
    [CANCELLED] are terminal failures: every other status that is not
    [SUCCEEDED], recognized or not, costs one status read and one sleep of
    two seconds, and the loop goes on with the attempts that are left. *)
Theorem unrecognized_status_handling
  (submit : nat -> res string) (rows : string -> res query_results)
  (statuses : nat -> query_status) (states : nat -> string)
  (q : test_pipeline.query) (id function_name : string) (s : nat)
  (flag : bool) (execs : list test_pipeline.query_execution)
  (max_attempts k : nat) :
  k < max_attempts ->
  (forall j, j < k -> function_pending (states j) = true) ->
  function_unexpected (states k) = true ->
  (forall j, j <= k ->
     query_succeeded (State (statuses j)) = false /\
     query_failed (State (statuses j)) = false) ->
  let ol :=
    deploy_lambda.wait_for_function_ready (function_script states)
      function_name max_attempts 0 in
  let oq :=
    test_pipeline.wait_for_query (query_script submit statuses rows) q id
      max_attempts (test_pipeline.Frame (AthenaSim s 0) flag execs) in
  let rest :=
    test_pipeline.wait_for_query (query_script submit statuses rows) q id
      (max_attempts - S k)
      (test_pipeline.Frame (AthenaSim s (S k)) flag execs) in
  (result ol = Ok false /\
   poll_results (emitted ol) = [FailedTerminal (states k)] /\
   status_fetches (emitted ol) = replicate (S k) (GetFunction function_name) /\
   sleeps (emitted ol) = replicate k 2) /\
  (result oq = result rest /\
   final oq = final rest /\
   emitted oq =
     concat (replicate (S k) [Call (GetQueryExecution id); Sleep 2])
     ++ emitted rest).
Proof.
  intros Hk Hf Hu Hq. cbn zeta. split.
  - apply (wait_for_function_ready_after states function_name
             max_attempts k); [lia | done..].
  - unfold query_script.
    rewrite (wait_for_query_pending submit (fun _ n => Ok (statuses n)) rows
               q id (S k)).
    + done.
    + intros j Hj. destruct (Hq j ltac:(lia)) as [H1 H2].
      eexists. split; [reflexivity|].
      unfold query_pending. simpl. by rewrite H1, H2.
    + lia.
Qed.

Lemma unrecognized_status_handling_witness :
  poll_results
    (emitted
       (deploy_lambda.wait_for_function_ready
          (function_script (pending_then "Failed")) "extractor" 30 0))
  = [FailedTerminal "Failed"].
Proof.
  refine (proj1 (proj2 (proj1
    (unrecognized_status_handling no_submission no_rows
       (fun _ => QueryStatus "THROTTLED" None) (pending_then "Failed")
       count_query "exec-1" "extractor" 0 true [] 30 1 _ _ eq_refl _)))).
  - repeat constructor.
  - intros [|j] Hj; [reflexivity | exfalso; inversion Hj as [|? Hj']; inversion Hj'].
  - intros j _. split; reflexivity.
Defined.

(** ** The crawler stage *)

(** C4 fails: the crawler stage has no polling loop.  A crawler found
    [RUNNING], which would be [READY] at a second read, is read once; the
    only sleep is the fixed wait of sixty seconds in [main]. *)
Lemma crawler_running_is_not_polled :
  result crawler_stage_run = Ok true /\
  status_fetches (emitted crawler_stage_run)
  = [GetCrawler "data-pipeline-crawler"] /\
  sleeps (emitted crawler_stage_run) = [60] /\
  ~ (length (status_fetches (emitted crawler_stage_run)) = 2 /\
     sleeps (emitted crawler_stage_run) = [2; 2]).
Proof.
  repeat split; try reflexivity.
  intros [H _]. vm_compute in H. discriminate H.
Qed.

(** C4, amended.  The crawler stage reads the crawler state exactly once
    and never polls it.  Found [RUNNING], the crawler is reported as a
    success at once, with no further call; found [READY], it is started,
    with no further status read; any other state is a failure.  After a
    success [main] waits a fixed sixty seconds, once; after a failure it
    does not wait. *)
Theorem crawler_state_is_read_once {W : Type} (glue_client : GlueClient W)
  (crawler_name state : string) (w w' : W) :
  get_crawler glue_client crawler_name w = (Ok state, w') ->
  let o := test_pipeline.main_test_3 glue_client crawler_name w in
  status_fetches (emitted o) = [GetCrawler crawler_name] /\
  if String.eqb state "READY" then
    calls (emitted o) = [GetCrawler crawler_name; StartCrawler crawler_name] /\
    match (start_crawler glue_client crawler_name w').1 with
    | Ok _ => result o = Ok true /\ sleeps (emitted o) = [60]
    | Raise _ => result o = Ok false /\ sleeps (emitted o) = []
    end
  else if String.eqb state "RUNNING" then
    calls (emitted o) = [GetCrawler crawler_name] /\
    result o = Ok true /\ final o = w' /\ sleeps (emitted o) = [60]
  else
    calls (emitted o) = [GetCrawler crawler_name] /\
    result o = Ok false /\ final o = w' /\ sleeps (emitted o) = [].
Proof.
  intros Hget. cbn zeta.
  unfold test_pipeline.main_test_3, test_pipeline.test_glue_crawler.
  run. rewrite Hget. cbn.
  destruct (String.eqb state "READY"); cbn.
  - destruct (start_crawler glue_client crawler_name w') as [[[]|e] w''];
      by cbn.
  - by destruct (String.eqb state "RUNNING"); cbn.
Qed.

Lemma crawler_state_is_read_once_witness :
  status_fetches (emitted crawler_stage_run)
  = [GetCrawler "data-pipeline-crawler"].
Proof.
  exact (proj1 (crawler_state_is_read_once (glue_script crawler_states (Ok tt))
                  "data-pipeline-crawler" "RUNNING" 0 1 eq_refl)).
Defined.

(** ** Resource resolution *)

Section resolution.
Context {W : Type} (cf_client : CloudFormationClient W).
Import cleanup_aws.

Lemma record_outputs outputs : forall s : DataPipelineCleanup W,
  let o := for_each outputs record_output s in
  result o = Ok tt /\
  emitted o = [] /\
  world (final o) = world s /\
  (forall key,
     key <> "data_bucket" -> key <> "results_bucket" ->
     key <> "lambda_function_name" ->
     config (final o) !! key = config s !! key) /\
  (is_Some (config s !! "lambda_function_name") ->
   is_Some (config (final o) !! "lambda_function_name")).
Proof.
  induction outputs as [|[key value] outputs IH]; intros s; [by cbn|].
  cbn zeta. cbn [for_each]. unfold bind.
  assert (exists cfg,
            record_output (key, value) s = Outcome (Ok tt) (Self (world s) cfg) []
            /\ (forall k, k <> "data_bucket" -> k <> "results_bucket" ->
                          k <> "lambda_function_name" ->
                          cfg !! k = config s !! k)
            /\ (is_Some (config s !! "lambda_function_name") ->
                is_Some (cfg !! "lambda_function_name")))
    as (cfg & -> & Hother & Hfn).
  { destruct s as [w0 cfg0]. unfold record_output, config_set, ret. cbn.
    repeat case_match; eexists; (split; [reflexivity|]);
      split; intros; by simplify_map_eq. }
  specialize (IH (Self (world s) cfg)). cbn zeta in IH.
  destruct (for_each outputs record_output (Self (world s) cfg))
    as [r s' tr]. cbn in *.
  destruct IH as (-> & -> & -> & H1 & H2).
  repeat split; [|by auto].
  intros k ? ? ?. rewrite H1, Hother; done.
Qed.

Lemma init_config_stack_name :
  init_config !! "stack_name" = Some "DataPipelineStack".
Proof. reflexivity. Qed.

Lemma get_stack_resources_from_defaults (w : W) :
  let o := get_stack_resources cf_client (new w) in
  let cfg := config (final o) in
  (exists b, result o = Ok b) /\
  cfg !! "stack_name" = Some "DataPipelineStack" /\
  cfg !! "workgroup_name" = Some "data-pipeline-workgroup" /\
  cfg !! "database_name" = Some "data_pipeline_db" /\
  cfg !! "crawler_name" = Some "data-pipeline-crawler" /\
  is_Some (cfg !! "lambda_function_name") /\
  match (describe_stacks cf_client "DataPipelineStack" w).1 with
  | Raise e =>
      result o = Ok false /\
      cfg = init_config /\
      emitted o =
        [Print "Getting resource names from CloudFormation stack..." [];
         Call (DescribeStacks "DataPipelineStack");
         Print "Could not get stack info: {}" [AStr (exn_text e)];
         Print "Will use default resource names" []]
  | Ok _ =>
      exists line args,
        emitted o =
          [Print "Getting resource names from CloudFormation stack..." [];
           Call (DescribeStacks "DataPipelineStack");
           Print line args] /\
        line <> "Could not get stack info: {}"
  end.
Proof.
  cbn zeta. unfold get_stack_resources, config_get, aws. run.
  rewrite init_config_stack_name. cbn.
  destruct (describe_stacks cf_client "DataPipelineStack" w)
    as [[[|stack stacks]|e] w']; cbn.
  - repeat split; eauto; by eexists _, _.
  - destruct (contains "DELETE" (StackStatus stack)); cbn.
    { repeat split; eauto; by eexists _, _. }
    pose proof (record_outputs (default [] (Outputs stack))
                  (Self w' init_config)) as IH.
    cbn zeta in IH.
    destruct (for_each _ record_output _) as [r s' tr]. cbn in *.
    destruct IH as (-> & -> & Hw & Hother & Hfn). cbn.
    repeat split; eauto; try (rewrite Hother; done);
      try (by eexists _, _); try (apply Hfn; by eexists).
  - repeat split; eauto.
Qed.

End resolution.

Lemma extract_outputs_keep_defaults outputs : forall cfg : gmap string string,
  forall key,
    key <> "lambda_function_name" -> key <> "data_bucket_name" ->
    key <> "athena_results_bucket_name" ->
    foldl test_pipeline.extract_output cfg outputs !! key = cfg !! key.
Proof.
  induction outputs as [|[k v] outputs IH]; intros cfg key H1 H2 H3; [done|].
  cbn [foldl]. rewrite IH by done.
  unfold test_pipeline.extract_output. cbn.
  repeat case_match; by simplify_map_eq.
Qed.

(** C9 fails for the locator of the test script: when the deployment
    record cannot be read, [get_stack_outputs] answers [None], not a
    configuration, and [main] gives up. *)
Lemma get_stack_outputs_gives_no_configuration :
  result (test_pipeline.get_stack_outputs unreachable_record 0) = Ok None /\
  ~ (exists cfg,
       result (test_pipeline.get_stack_outputs unreachable_record 0)
       = Ok (Some cfg)).
Proof.
  split; [reflexivity|]. intros [cfg H]. vm_compute in H. discriminate H.
Qed.

(** C9, amended.  The locator of the cleanup script, [get_stack_resources],
    never fails: whatever the read of the deployment record gives, it
    answers, and the configuration keeps the configured defaults of the
    stack, workgroup, database and crawler names and holds a function name;
    when the read raises, the configuration is the default one and the
    warning is printed, and it is printed in no other case.  The locator of
    the test script, [get_stack_outputs], answers a configuration with its
    three defaults only when the record can be read and lists outputs;
    otherwise it answers [None]. *)
Theorem resource_resolution {W : Type} (cf_client : CloudFormationClient W)
  (w : W) :
  let record := (describe_stacks cf_client "DataPipelineStack" w).1 in
  let o := cleanup_aws.get_stack_resources cf_client (cleanup_aws.new w) in
  let cfg := cleanup_aws.config (final o) in
  let t := test_pipeline.get_stack_outputs cf_client w in
  ((exists b, result o = Ok b) /\
   cfg !! "stack_name" = Some "DataPipelineStack" /\
   cfg !! "workgroup_name" = Some "data-pipeline-workgroup" /\
   cfg !! "database_name" = Some "data_pipeline_db" /\
   cfg !! "crawler_name" = Some "data-pipeline-crawler" /\
   is_Some (cfg !! "lambda_function_name") /\
   match record with
   | Raise e =>
       result o = Ok false /\
       cfg = cleanup_aws.init_config /\
       emitted o =
         [Print "Getting resource names from CloudFormation stack..." [];
          Call (DescribeStacks "DataPipelineStack");
          Print "Could not get stack info: {}" [AStr (exn_text e)];
          Print "Will use default resource names" []]
   | Ok _ =>
       exists line args,
         emitted o =
           [Print "Getting resource names from CloudFormation stack..." [];
            Call (DescribeStacks "DataPipelineStack");
            Print line args] /\
         line <> "Could not get stack info: {}"
   end) /\
  match record with
  | Ok (StackDescription _ (Some outputs) :: _) =>
      exists config,
        result t = Ok (Some config) /\
        config !! "glue_database_name" = Some "data_pipeline_db" /\
        config !! "glue_crawler_name" = Some "data-pipeline-crawler" /\
        config !! "athena_workgroup" = Some "data-pipeline-workgroup"
  | _ => result t = Ok None
  end.
Proof.
  cbn zeta. split; [apply get_stack_resources_from_defaults|].
  unfold test_pipeline.get_stack_outputs. run.
  destruct (describe_stacks cf_client "DataPipelineStack" w)
    as [[[|[status [outputs|]] stacks]|e] w']; cbn; try done.
  eexists. split; [reflexivity|].
  by rewrite !extract_outputs_keep_defaults.
Qed.

(** * The cleanup object *)

#[local] Instance no_fallback_step_additive : Additive no_fallback_step.
Proof. apply omap_nil_additive. Qed.

Lemma fallback_steps_app tr1 tr2 :
  fallback_steps (tr1 ++ tr2) = fallback_steps tr1 ++ fallback_steps tr2.
Proof. apply omap_app. Qed.

Lemma bind_run {S A B} (m : M S A) (k : A -> M S B) s a :
  result (m s) = Ok a ->
  bind m k s =
  Outcome (result (k a (final (m s)))) (final (k a (final (m s))))
    (emitted (m s) ++ emitted (k a (final (m s)))).
Proof.
  intros H. unfold bind. destruct (m s) as [r s1 tr1]. cbn in *. subst r.
  by destruct (k a s1).
Qed.

Section cleanup_rules.
Context {W : Type}.
Import cleanup_aws.

Lemma emits_aws {A} Q r (f : op W A) : Q [Call r] -> emits Q (aws r f).
Proof. intros H s. unfold aws. by destruct (f (world s)). Qed.

Lemma keeps_config_aws {A} r (f : op W A) : keeps config (aws r f).
Proof. intros s. unfold aws. by destruct (f (world s)). Qed.

Lemma emits_config_get Q `{!Additive Q} key :
  emits Q (config_get (W:=W) key).
Proof.
  intros s. unfold config_get. destruct (config s !! key); apply additive_nil.
Qed.

Lemma keeps_config_get {T} (f : DataPipelineCleanup W -> T) key :
  keeps f (config_get key).
Proof. intros s. unfold config_get. by destruct (config s !! key). Qed.

Lemma emits_config_has Q `{!Additive Q} key :
  emits Q (config_has (W:=W) key).
Proof. intros s. apply additive_nil. Qed.

Lemma emits_paginate Q s3_client bucket_name :
  Q [Call (PaginateListObjectsV2 bucket_name)] ->
  emits Q (paginate (W:=W) s3_client bucket_name).
Proof.
  intros H s. unfold paginate.
  by destruct (paginate_list_objects_v2 _ _ _).
Qed.

Lemma keeps_config_paginate s3_client bucket_name :
  keeps config (paginate (W:=W) s3_client bucket_name).
Proof.
  intros s. unfold paginate. by destruct (paginate_list_objects_v2 _ _ _).
Qed.

Lemma performs_ret {A} (a : A) :
  performs (ret (S:=DataPipelineCleanup W) a) (fun _ => []).
Proof. intros s. eauto. Qed.

Lemma performs_print template args steps :
  fallback_steps [Print template args] = steps ->
  performs (print (S:=DataPipelineCleanup W) template args) (fun _ => steps).
Proof. intros <- s. eauto. Qed.

Lemma performs_bind {A B} (m : M (DataPipelineCleanup W) A)
  (k : A -> M (DataPipelineCleanup W) B) steps1 steps2 :
  performs m steps1 -> (forall a, performs (k a) steps2) ->
  performs (bind m k) (fun cfg => steps1 cfg ++ steps2 cfg).
Proof.
  intros Hm Hk s. destruct (Hm s) as ([a Ha] & Hc & Hs).
  rewrite (bind_run m k s a Ha). cbn.
  destruct (Hk a (final (m s))) as (Hr' & Hc' & Hs').
  rewrite fallback_steps_app, Hs, Hs', Hc', Hc. done.
Qed.

(** A [try] whose body takes no fallback step and whose handlers answer. *)
Lemma performs_try {A} (m : M (DataPipelineCleanup W) A) h :
  emits no_fallback_step m -> keeps config m ->
  (forall e, performs (h e) (fun _ => [])) ->
  performs (try_except m h) (fun _ => []).
Proof.
  intros He Hk Hh s. unfold try_except.
  specialize (He s). specialize (Hk s). unfold no_fallback_step in He.
  destruct (m s) as [[a|e] s1 tr1]; cbn in *; [eauto|].
  destruct (Hh e s1) as (Hr' & Hc' & Hs').
  destruct (h e s1) as [r s2 tr2]. cbn in *.
  repeat split; [done | congruence | by rewrite omap_app, He, Hs'].
Qed.

Lemma performs_for_each {A} (xs : list A)
  (body : A -> M (DataPipelineCleanup W) unit) :
  (forall x, performs (body x) (fun _ => [])) ->
  performs (for_each xs body) (fun _ => []).
Proof.
  intros H. induction xs as [|x xs IH]; cbn [for_each].
  - apply performs_ret.
  - apply (performs_bind _ _ (fun _ => []) (fun _ => [])); auto.
Qed.

Lemma performs_ext {A} (m : M (DataPipelineCleanup W) A) steps steps' :
  (forall cfg, steps cfg = steps' cfg) -> performs m steps -> performs m steps'.
Proof. intros E H s. rewrite <- E. apply H. Qed.

End cleanup_rules.

(** Closes a goal [emits no_fallback_step m] for straight-line [m]. *)
Ltac no_steps :=
  walk ltac:(first
    [ apply emits_ret; apply _
    | apply emits_raise; apply _
    | apply emits_bind; [apply _| |intros]
    | apply emits_try; [apply _| |intros]
    | apply emits_print; reflexivity
    | apply emits_aws; reflexivity
    | apply emits_paginate; reflexivity
    | apply emits_config_get; apply _
    | apply emits_config_has; apply _
    | apply emits_for_each; [apply _|intros]
    | apply emits_for_fold; [apply _|intros] ]).

(** Closes a goal [keeps config m] for straight-line [m]. *)
Ltac same_config :=
  walk ltac:(first
    [ apply keeps_ret
    | apply keeps_raise
    | apply keeps_bind; [|intros]
    | apply keeps_try; [|intros]
    | apply keeps_print
    | apply keeps_config_aws
    | apply keeps_config_paginate
    | apply keeps_config_get
    | apply keeps_for_each; intros
    | apply keeps_for_fold; intros ]).

(** Closes a goal [performs m (fun _ => [])] for [m] made of prints and
    guarded calls. *)
Ltac quiet :=
  walk ltac:(first
    [ apply performs_ret
    | apply performs_print; reflexivity
    | apply (performs_bind _ _ (fun _ => []) (fun _ => [])); [|intros]
    | apply performs_try; [no_steps | same_config | intros] ]).

(** Runs the first program of a sequence, given that it [performs]. *)
Ltac step_with lem :=
  match goal with
  | |- context [bind ?m ?k ?s'] =>
      let a := fresh "a" in
      let Ha := fresh "Ha" in
      destruct (lem s') as ([a Ha] & _);
      rewrite (bind_run m k s' a Ha);
      cbn [result final emitted]
  end.

Section cleanup_stages.
Context {W : Type}.
Context (athena_client : AthenaClient W) (s3_client : S3Client W)
  (lambda_client : LambdaClient W) (glue_client : GlueClient W)
  (cf_client : CloudFormationClient W) (subprocess : Subprocess W).
Import cleanup_aws.

Lemma clean_athena_workgroup_quiet :
  performs (clean_athena_workgroup athena_client) (fun _ => []).
Proof. unfold clean_athena_workgroup. quiet. Qed.

Lemma empty_bucket_quiet bucket_name :
  performs (empty_bucket s3_client bucket_name) (fun _ => []).
Proof. unfold empty_bucket, delete_page. quiet. Qed.

Lemma empty_s3_buckets_quiet :
  performs (empty_s3_buckets s3_client) (fun _ => []).
Proof.
  unfold empty_s3_buckets.
  apply (performs_bind _ _ (fun _ => []) (fun _ => []));
    [apply performs_print; reflexivity|intros _].
  apply (performs_bind _ _ (fun _ => []) (fun _ => []));
    [|intros; apply performs_ret].
  intros s. apply performs_for_each. apply empty_bucket_quiet.
Qed.

Lemma run_cdk_destroy_quiet :
  performs (run_cdk_destroy subprocess) (fun _ => []).
Proof. unfold run_cdk_destroy. quiet. Qed.

Lemma check_stack_quiet : performs (check_stack cf_client) (fun _ => []).
Proof. unfold check_stack. quiet. Qed.

Lemma check_buckets_quiet : performs (check_buckets s3_client) (fun _ => []).
Proof. unfold check_buckets. quiet. Qed.

Lemma check_functions_quiet :
  performs (check_functions lambda_client) (fun _ => []).
Proof. unfold check_functions. quiet. Qed.

Lemma check_database_quiet :
  performs (check_database glue_client) (fun _ => []).
Proof. unfold check_database. quiet. Qed.

Lemma check_workgroup_quiet :
  performs (check_workgroup athena_client) (fun _ => []).
Proof. unfold check_workgroup. quiet. Qed.

End cleanup_stages.

Section fallback_chain.
Context {W : Type}.
Context (athena_client : AthenaClient W) (s3_client : S3Client W)
  (lambda_client : LambdaClient W) (glue_client : GlueClient W)
  (cf_client : CloudFormationClient W) (subprocess : Subprocess W).
Import cleanup_aws.

(** Each direct deletion is attempted once for the configured name and
    answers whether the remote call succeeds or raises. *)
Lemma delete_lambda_function_step :
  performs (delete_lambda_function lambda_client)
    (fun cfg =>
       option_list (delete_function_step <$> cfg !! "lambda_function_name")).
Proof.
  intros s. unfold delete_lambda_function, config_get, aws. run.
  destruct (config s !! "lambda_function_name") as [name|] eqn:E; cbn;
    [|by eauto].
  destruct (delete_function lambda_client name (world s)) as [[[]|e] w']; cbn.
  - rewrite E. cbn. eauto.
  - destruct (exn_kind e); cbn; eauto.
Qed.

Lemma delete_glue_crawler_step :
  performs (delete_glue_crawler glue_client)
    (fun cfg => option_list (delete_crawler_step <$> cfg !! "crawler_name")).
Proof.
  intros s. unfold delete_glue_crawler, config_get, aws. run.
  destruct (config s !! "crawler_name") as [name|] eqn:E; cbn; [|by eauto].
  destruct (delete_crawler glue_client name (world s)) as [[[]|e] w']; cbn.
  - rewrite E. cbn. eauto.
  - destruct (exn_kind e); cbn; eauto.
Qed.

Lemma delete_glue_database_step :
  performs (delete_glue_database glue_client)
    (fun cfg => option_list (delete_database_step <$> cfg !! "database_name")).
Proof.
  intros s. unfold delete_glue_database, config_get, aws. run.
  destruct (config s !! "database_name") as [name|] eqn:E; cbn; [|by eauto].
  destruct (delete_database glue_client name (world s)) as [[[]|e] w']; cbn.
  - rewrite E. cbn. eauto.
  - destruct (exn_kind e); cbn; eauto.
Qed.

Lemma delete_bucket_of_step bucket_key :
  performs (delete_bucket_of s3_client bucket_key)
    (fun cfg => option_list (delete_bucket_step <$> cfg !! bucket_key)).
Proof.
  intros s. unfold delete_bucket_of, config_has, config_get, aws. run.
  destruct (config s !! bucket_key) as [name|] eqn:E; cbn; [|by eauto].
  rewrite ?bool_decide_eq_true_2 by eauto. cbn. rewrite ?E. cbn.
  destruct (delete_bucket s3_client name (world s)) as [[[]|e] w']; cbn.
  - eauto.
  - destruct (exn_kind e); cbn; eauto.
Qed.

Lemma manual_resource_cleanup_steps :
  performs (manual_resource_cleanup s3_client lambda_client glue_client)
    declared_fallback.
Proof.
  unfold manual_resource_cleanup.
  eapply performs_ext; cycle 1.
  - eapply performs_bind; [apply performs_print; reflexivity|intros _].
    eapply performs_bind; [apply delete_lambda_function_step|intros _].
    eapply performs_bind; [apply delete_glue_crawler_step|intros _].
    eapply performs_bind; [apply delete_glue_database_step|intros _].
    cbn [for_each].
    eapply performs_bind; [apply delete_bucket_of_step|intros _].
    eapply performs_bind; [apply delete_bucket_of_step|intros _].
    apply performs_ret.
  - intros cfg. unfold declared_fallback. cbn.
    by destruct (cfg !! "lambda_function_name"), (cfg !! "crawler_name"),
      (cfg !! "database_name"), (cfg !! "data_bucket"),
      (cfg !! "results_bucket").
Qed.

(** The forced stack deletion is entered once and answers whatever its
    calls do. *)
Lemma delete_cloudformation_stack_step :
  performs (delete_cloudformation_stack cf_client)
    (fun _ => [force_delete_stack_step]).
Proof.
  unfold delete_cloudformation_stack.
  apply (performs_bind _ _ (fun _ => [force_delete_stack_step]) (fun _ => []));
    [apply performs_print; reflexivity|intros _].
  quiet.
Qed.

Lemma destroy_or_fall_back_run (s : DataPipelineCleanup W) cdk_success :
  result (run_cdk_destroy subprocess s) = Ok cdk_success ->
  let o := destroy_or_fall_back s3_client lambda_client glue_client cf_client
             subprocess true s in
  result o = Ok tt /\
  config (final o) = config s /\
  fallback_steps (emitted o) =
    if cdk_success then []
    else declared_fallback (config s) ++ [force_delete_stack_step].
Proof.
  intros Hcdk. cbn zeta. unfold destroy_or_fall_back.
  destruct (run_cdk_destroy_quiet subprocess s) as (_ & Hc & Hs).
  rewrite (bind_run _ _ s cdk_success Hcdk). cbn [result final emitted].
  rewrite fallback_steps_app, Hs. cbn [app].
  destruct cdk_success; cbn [negb]; [done|].
  pose proof (performs_bind _ _ _ _
    (performs_print "CDK destroy failed, attempting manual cleanup..." [] []
       eq_refl)
    (fun _ => performs_bind _ _ _ _ manual_resource_cleanup_steps
       (fun _ => performs_bind _ _ _ _ delete_cloudformation_stack_step
          (fun _ => performs_ret tt)))
    (final (run_cdk_destroy subprocess s))) as ([[] Hr] & Hc' & Hs').
  rewrite Hr, Hc', Hs', Hc. cbn [app]. by rewrite ?app_nil_r.
Qed.

Lemma fall_back_without_record :
  performs (destroy_or_fall_back s3_client lambda_client glue_client cf_client
              subprocess false)
    declared_fallback.
Proof.
  unfold destroy_or_fall_back.
  eapply performs_ext; cycle 1.
  - eapply performs_bind; [apply performs_print; reflexivity|intros _].
    apply manual_resource_cleanup_steps.
  - done.
Qed.

Lemma destroy_or_fall_back_total stack_exists (s : DataPipelineCleanup W) :
  let o := destroy_or_fall_back s3_client lambda_client glue_client cf_client
             subprocess stack_exists s in
  result o = Ok tt /\ config (final o) = config s.
Proof.
  destruct stack_exists.
  - destruct (run_cdk_destroy_quiet subprocess s) as ([cdk Hcdk] & _).
    destruct (destroy_or_fall_back_run s cdk Hcdk) as (? & ? & _). done.
  - destruct (fall_back_without_record s) as ([[] ?] & ? & _). done.
Qed.

Lemma get_stack_resources_total :
  total (get_stack_resources (W:=W) cf_client).
Proof.
  unfold get_stack_resources.
  apply total_bind; [apply total_print|intros _].
  apply total_try. intros e.
  repeat (apply total_bind; [apply total_print|intros _]). apply total_ret.
Qed.

Lemma record_output_no_steps output :
  emits no_fallback_step (record_output (W:=W) output).
Proof. intros s. unfold record_output, config_set, ret. by repeat case_match. Qed.

Lemma get_stack_resources_no_steps :
  emits no_fallback_step (get_stack_resources (W:=W) cf_client).
Proof.
  unfold get_stack_resources.
  walk ltac:(first
    [ apply emits_ret; apply _
    | apply emits_bind; [apply _| |intros]
    | apply emits_try; [apply _| |intros]
    | apply emits_print; reflexivity
    | apply emits_aws; reflexivity
    | apply emits_config_get; apply _
    | apply emits_for_each; [apply _|intros; apply record_output_no_steps] ]).
Qed.

Lemma verification_results_quiet :
  performs (verification_results athena_client s3_client lambda_client
              glue_client cf_client)
    (fun _ => []).
Proof.
  unfold verification_results.
  repeat (apply (performs_bind _ _ (fun _ => []) (fun _ => [])); [|intros]);
    first [ apply performs_print; reflexivity | apply check_stack_quiet
          | apply check_buckets_quiet | apply check_functions_quiet
          | apply check_database_quiet | apply check_workgroup_quiet
          | apply performs_ret ].
Qed.

End fallback_chain.

Section whole_run.
Context {W : Type}.
Context (athena_client : AthenaClient W) (s3_client : S3Client W)
  (lambda_client : LambdaClient W) (glue_client : GlueClient W)
  (cf_client : CloudFormationClient W) (subprocess : Subprocess W).
Import cleanup_aws.

Abbreviation run_cleanup' :=
  (run_cleanup athena_client s3_client lambda_client glue_client cf_client
     subprocess).
Abbreviation at_step_3' :=
  (at_step_3 athena_client s3_client cf_client).
Abbreviation at_step_6' :=
  (at_step_6 athena_client s3_client lambda_client glue_client cf_client
     subprocess).
Abbreviation verification_results' :=
  (verification_results athena_client s3_client lambda_client glue_client
     cf_client).
Abbreviation verify_cleanup' :=
  (verify_cleanup athena_client s3_client lambda_client glue_client
     cf_client).
Abbreviation destroy_or_fall_back' :=
  (destroy_or_fall_back s3_client lambda_client glue_client cf_client
     subprocess).

(** [verify_cleanup] always collects five results. *)
Lemma verification_results_five (s : DataPipelineCleanup W) :
  exists stack_ok buckets_ok functions_ok database_ok workgroup_ok,
    result (verification_results' s)
    = Ok [stack_ok; buckets_ok; functions_ok; database_ok; workgroup_ok].
Proof.
  unfold verification_results.
  rewrite (bind_run (print "Step 6: Verifying cleanup" []) _ s tt eq_refl).
  cbn [result final emitted].
  step_with (check_stack_quiet cf_client).
  step_with (check_buckets_quiet s3_client).
  step_with (check_functions_quiet lambda_client).
  step_with (check_database_quiet glue_client).
  step_with (check_workgroup_quiet athena_client).
  by eexists _, _, _, _, _.
Qed.

Lemma verify_cleanup_run (s : DataPipelineCleanup W) :
  exists results,
    result (verification_results' s) = Ok results /\
    result (verify_cleanup' s) = Ok (all results) /\
    config (final (verify_cleanup' s)) = config s /\
    fallback_steps (emitted (verify_cleanup' s)) = [].
Proof.
  destruct (verification_results_quiet athena_client s3_client lambda_client
              glue_client cf_client s) as ([results Hr] & Hc & Hs).
  exists results. split; [done|].
  unfold verify_cleanup. rewrite (bind_run _ _ s results Hr).
  cbn [result final emitted ret]. by rewrite app_nil_r.
Qed.

(** The whole run: it answers the verdict of the verification made on the
    object as step 6 finds it, and its only fallback steps are those of
    steps 3 to 5. *)
Lemma run_cleanup_run (s0 : DataPipelineCleanup W) :
  exists stack_exists results,
    result (get_stack_resources cf_client s0) = Ok stack_exists /\
    result (verification_results' (at_step_6' s0)) = Ok results /\
    result (run_cleanup' s0) = Ok (if all results then 0 else 1)%Z /\
    config (final (run_cleanup' s0))
    = config (final (get_stack_resources cf_client s0)) /\
    fallback_steps (emitted (run_cleanup' s0))
    = fallback_steps
        (emitted (destroy_or_fall_back' stack_exists (at_step_3' s0))).
Proof.
  destruct (get_stack_resources_total cf_client s0) as [stack_exists Hget].
  pose proof (get_stack_resources_no_steps cf_client s0) as Hget_steps.
  set (s1 := final (get_stack_resources cf_client s0)) in *.
  destruct (clean_athena_workgroup_quiet athena_client s1)
    as ([b1 Hclean] & Hc1 & Hs1).
  set (s2 := final (clean_athena_workgroup athena_client s1)) in *.
  destruct (empty_s3_buckets_quiet s3_client s2) as ([b2 Hempty] & Hc2 & Hs2).
  assert (at_step_3' s0 = final (empty_s3_buckets s3_client s2)) as E3
    by reflexivity.
  set (s3 := at_step_3' s0) in *.
  destruct (destroy_or_fall_back_total s3_client lambda_client glue_client
              cf_client subprocess stack_exists s3) as (Hd & Hc3).
  assert (at_step_6' s0 = final (destroy_or_fall_back' stack_exists s3)) as E6.
  { unfold at_step_6. by rewrite Hget. }
  set (s6 := at_step_6' s0) in *.
  destruct (verify_cleanup_run s6) as (results & Hres & Hver & Hc6 & Hs6).
  exists stack_exists, results. split; [done|]. split; [done|].
  unfold run_cleanup.
  rewrite (bind_run (print "AWS CDK Data Pipeline Cleanup" []) _ s0 tt
             eq_refl).
  rewrite (bind_run
             (print "==================================================" [])
             _ _ tt eq_refl).
  rewrite (bind_run _ _ _ stack_exists Hget).
  rewrite (bind_run _ _ _ b1 Hclean).
  rewrite (bind_run _ _ _ b2 Hempty).
  cbn [final result emitted print].
  fold s1. fold s2. rewrite <- E3.
  rewrite (bind_run _ _ _ tt Hd).
  rewrite <- E6.
  rewrite (bind_run _ _ _ (all results) Hver).
  cbn [final result emitted].
  rewrite !fallback_steps_app.
  unfold no_fallback_step in Hget_steps.
  rewrite Hget_steps, Hs1, Hs2, Hs6.
  destruct (all results); cbn; rewrite ?app_nil_r;
    (split; [done|]); (split; [|done]);
    by rewrite Hc6, E6, Hc3, E3, Hc2, Hc1.
Qed.

End whole_run.

Section run_properties.
Context {W : Type}.
Context (athena_client : AthenaClient W) (s3_client : S3Client W)
  (lambda_client : LambdaClient W) (glue_client : GlueClient W)
  (cf_client : CloudFormationClient W) (subprocess : Subprocess W).
Import cleanup_aws.

Lemma at_step_3_config (s0 : DataPipelineCleanup W) :
  config (at_step_3 athena_client s3_client cf_client s0)
  = config (final (get_stack_resources cf_client s0)).
Proof.
  unfold at_step_3.
  destruct (empty_s3_buckets_quiet s3_client
              (final (clean_athena_workgroup athena_client
                        (final (get_stack_resources cf_client s0)))))
    as (_ & -> & _).
  by destruct (clean_athena_workgroup_quiet athena_client
                 (final (get_stack_resources cf_client s0))) as (_ & -> & _).
Qed.

(** C2.  Take a cleanup run in which the deployment record was found, so
    that the delegated destroy is attempted.  If the destroy fails, the run
    takes every fallback step exactly once and in the declared order:
    delete the function, the crawler, the database, each configured
    bucket, then the forced stack deletion, whatever each of these calls
    answers or raises.  If the destroy succeeds, the run takes no fallback
    step and no forced deletion. *)
Theorem fallback_recovery_chain (w : W) (cdk_success : bool) :
  result (get_stack_resources cf_client (new w)) = Ok true ->
  result (run_cdk_destroy subprocess
            (at_step_3 athena_client s3_client cf_client (new w)))
  = Ok cdk_success ->
  let o :=
    run_cleanup athena_client s3_client lambda_client glue_client cf_client
      subprocess (new w) in
  if cdk_success then fallback_steps (emitted o) = []
  else
    exists function_name,
      config (final o) !! "lambda_function_name" = Some function_name /\
      fallback_steps (emitted o) =
        [delete_function_step function_name;
         delete_crawler_step "data-pipeline-crawler";
         delete_database_step "data_pipeline_db"]
        ++ omap (fun bucket_key =>
                   delete_bucket_step <$> config (final o) !! bucket_key)
             ["data_bucket"; "results_bucket"]
        ++ [force_delete_stack_step].
Proof.
  intros Hget Hcdk. cbn zeta.
  destruct (run_cleanup_run athena_client s3_client lambda_client glue_client
              cf_client subprocess (new w))
    as (stack_exists & results & Hget' & _ & _ & Hcfg & ->).
  rewrite Hget in Hget'. injection Hget' as <-.
  destruct (destroy_or_fall_back_run s3_client lambda_client glue_client
              cf_client subprocess _ cdk_success Hcdk) as (_ & _ & ->).
  destruct cdk_success; [done|].
  rewrite at_step_3_config, Hcfg.
  destruct (get_stack_resources_from_defaults cf_client w)
    as (_ & _ & _ & Hdb & Hcr & [function_name Hfn] & _).
  cbn zeta in *. exists function_name. split; [done|].
  unfold declared_fallback. cbn [omap list_omap]. rewrite Hdb, Hcr, Hfn.
  cbn. by repeat case_match.
Qed.

(** C10.  The exit status of [run_cleanup] is decided by the final
    verification alone: whatever the earlier steps did or reported, the
    run answers, and it answers 0 exactly when the five checks made on the
    object as step 6 finds it all pass, and 1 otherwise. *)
Theorem exit_status_is_the_verdict (self : DataPipelineCleanup W) :
  exists stack_ok buckets_ok functions_ok database_ok workgroup_ok,
    result (verification_results athena_client s3_client lambda_client
              glue_client cf_client
              (at_step_6 athena_client s3_client lambda_client glue_client
                 cf_client subprocess self))
    = Ok [stack_ok; buckets_ok; functions_ok; database_ok; workgroup_ok] /\
    result (run_cleanup athena_client s3_client lambda_client glue_client
              cf_client subprocess self)
    = Ok (if stack_ok && buckets_ok && functions_ok && database_ok
             && workgroup_ok then 0 else 1)%Z /\
    (result (run_cleanup athena_client s3_client lambda_client glue_client
               cf_client subprocess self) = Ok 0%Z <->
     stack_ok = true /\ buckets_ok = true /\ functions_ok = true /\
     database_ok = true /\ workgroup_ok = true).
Proof.
  destruct (run_cleanup_run athena_client s3_client lambda_client glue_client
              cf_client subprocess self)
    as (stack_exists & results & _ & Hres & Hrun & _).
  destruct (verification_results_five athena_client s3_client lambda_client
              glue_client cf_client
              (at_step_6 athena_client s3_client lambda_client glue_client
                 cf_client subprocess self))
    as (b1 & b2 & b3 & b4 & b5 & Hfive).
  rewrite Hfive in Hres. injection Hres as <-.
  exists b1, b2, b3, b4, b5. split; [done|].
  rewrite Hrun. unfold all. cbn.
  by destruct b1, b2, b3, b4, b5; cbn; (split; [done|]); split;
    try done; try (intros (? & ? & ? & ? & ?); done).
Qed.

End run_properties.

Lemma fallback_recovery_chain_witness :
  exists function_name,
    cleanup_aws.config (final degraded_run) !! "lambda_function_name"
    = Some function_name /\
    fallback_steps (emitted degraded_run) =
      [delete_function_step function_name;
       delete_crawler_step "data-pipeline-crawler";
       delete_database_step "data_pipeline_db"]
      ++ omap (fun bucket_key =>
                 delete_bucket_step
                 <$> cleanup_aws.config (final degraded_run) !! bucket_key)
           ["data_bucket"; "results_bucket"]
      ++ [force_delete_stack_step].
Proof.
  exact (fallback_recovery_chain
           (athena_double (Ok []) (Ok tt))
           (s3_double access_denied ([], None) access_denied access_denied
              (Ok []))
           (lambda_double access_denied access_denied (Ok []))
           (glue_double access_denied access_denied access_denied
              access_denied (Ok []))
           (cf_script record_gone_after_two_reads (Ok tt) (Ok tt))
           (subprocess_double (Ok (CompletedProcess 1 "destroy failed")))
           0 false eq_refl eq_refl).
Defined.

(** A run whose delegated destroy fails, and whose direct deletions all
    fail, still exits with 0 once the verification finds nothing left. *)
Example degraded_run_exits_with_0 :
  result degraded_run = Ok 0%Z /\
  In (Print "CDK destroy failed:" []) (emitted degraded_run).
Proof. split; [reflexivity|]. vm_compute. tauto. Qed.

(** * The verification *)

Section verification.
Context {W : Type}.
Context (athena_client : AthenaClient W) (s3_client : S3Client W)
  (lambda_client : LambdaClient W) (glue_client : GlueClient W)
  (cf_client : CloudFormationClient W).
Import cleanup_aws.

Lemma check_stack_reports (self : DataPipelineCleanup W) stack_name :
  config self !! "stack_name" = Some stack_name ->
  reports_stack (describe_stacks cf_client stack_name (world self)).1
    (check_stack cf_client self).
Proof.
  intros E. unfold reports_stack, check_stack, config_get, aws. run.
  rewrite E. cbn.
  destruct (describe_stacks cf_client stack_name (world self))
    as [[[|stack stacks]|e] w']; cbn; try done.
  destruct (contains "DELETE_COMPLETE" (StackStatus stack)); cbn; auto.
Qed.

Lemma check_buckets_reports (self : DataPipelineCleanup W) :
  reports (list_buckets s3_client (world self)).1
    (filter (fun name => contains "data-pipeline" name = true))
    "S3: Found buckets: {}" "S3: Error checking buckets: {}"
    (check_buckets s3_client self).
Proof.
  unfold reports, check_buckets, aws. run.
  destruct (list_buckets s3_client (world self)) as [[names|e] w']; cbn;
    [|auto].
  destruct (filter _ names); cbn; auto.
Qed.

Lemma check_functions_reports (self : DataPipelineCleanup W) :
  reports (list_functions lambda_client (world self)).1
    (filter (fun name => contains "data-pipeline" name = true))
    "Lambda: Found functions: {}" "Lambda: Error checking functions: {}"
    (check_functions lambda_client self).
Proof.
  unfold reports, check_functions, aws. run.
  destruct (list_functions lambda_client (world self)) as [[names|e] w']; cbn;
    [|auto].
  destruct (filter _ names); cbn; auto.
Qed.

Lemma check_database_reports (self : DataPipelineCleanup W) database_name :
  config self !! "database_name" = Some database_name ->
  reports (get_databases glue_client (world self)).1
    (filter (fun name => name = database_name))
    "Glue: Found database: {}" "Glue: Error checking database: {}"
    (check_database glue_client self).
Proof.
  intros E. unfold reports, check_database, config_get, aws. run.
  destruct (get_databases glue_client (world self)) as [[[|n names]|e] w'];
    cbn -[filter]; [done| |auto].
  rewrite E. cbn -[filter].
  destruct (filter (fun name => name = database_name) (n :: names));
    cbn; auto.
Qed.

Lemma check_workgroup_reports (self : DataPipelineCleanup W) workgroup_name :
  config self !! "workgroup_name" = Some workgroup_name ->
  reports (list_work_groups athena_client (world self)).1
    (filter (fun name => name = workgroup_name))
    "Athena: Found workgroup: {}" "Athena: Error checking workgroup: {}"
    (check_workgroup athena_client self).
Proof.
  intros E. unfold reports, check_workgroup, config_get, aws. run.
  destruct (list_work_groups athena_client (world self))
    as [[[|n names]|e] w']; cbn -[filter]; [done| |auto].
  rewrite E. cbn -[filter].
  destruct (filter (fun name => name = workgroup_name) (n :: names));
    cbn; auto.
Qed.

End verification.

(** C6.  When the read of the deployment record fails, or finds no stack,
    the check of the stack passes: it prints that the stack was not found
    and the first verification result is [True]. *)
Theorem absent_stack_record_passes {W : Type}
  (athena_client : AthenaClient W) (s3_client : S3Client W)
  (lambda_client : LambdaClient W) (glue_client : GlueClient W)
  (cf_client : CloudFormationClient W)
  (self : cleanup_aws.DataPipelineCleanup W) (stack_name : string) :
  cleanup_aws.config self !! "stack_name" = Some stack_name ->
  (exists e,
     (describe_stacks cf_client stack_name (cleanup_aws.world self)).1
     = Raise e) \/
  (describe_stacks cf_client stack_name (cleanup_aws.world self)).1 = Ok [] ->
  result (cleanup_aws.check_stack cf_client self) = Ok true /\
  emitted (cleanup_aws.check_stack cf_client self)
  = [Call (DescribeStacks stack_name);
     Print "CloudFormation: Stack not found" []] /\
  exists buckets_ok functions_ok database_ok workgroup_ok,
    result (cleanup_aws.verification_results athena_client s3_client
              lambda_client glue_client cf_client self)
    = Ok [true; buckets_ok; functions_ok; database_ok; workgroup_ok].
Proof.
  intros E Habsent.
  assert (result (cleanup_aws.check_stack cf_client self) = Ok true /\
          emitted (cleanup_aws.check_stack cf_client self)
          = [Call (DescribeStacks stack_name);
             Print "CloudFormation: Stack not found" []]) as [Hr He].
  { unfold cleanup_aws.check_stack, cleanup_aws.config_get, cleanup_aws.aws.
    run. rewrite E. cbn.
    destruct (describe_stacks cf_client stack_name (cleanup_aws.world self))
      as [r w']. cbn in *.
    by destruct Habsent as [[e ->]| ->]. }
  split; [done|]. split; [done|].
  destruct (verification_results_five athena_client s3_client lambda_client
              glue_client cf_client self)
    as (b1 & b2 & b3 & b4 & b5 & Hfive).
  exists b2, b3, b4, b5. rewrite Hfive. do 2 f_equal.
  revert Hfive. unfold cleanup_aws.verification_results.
  rewrite (bind_run (print "Step 6: Verifying cleanup" []) _ self tt eq_refl).
  cbn [result final emitted print].
  rewrite (bind_run _ _ self true Hr). cbn [result final emitted].
  step_with (check_buckets_quiet s3_client).
  step_with (check_functions_quiet lambda_client).
  step_with (check_database_quiet glue_client).
  step_with (check_workgroup_quiet athena_client).
  cbn. congruence.
Qed.

Lemma absent_stack_record_passes_witness :
  result check_of_unreachable_record = Ok true.
Proof.
  exact (proj1 (absent_stack_record_passes
                  (athena_double (Ok []) (Ok tt))
                  (s3_double (Ok tt) ([], None) (Ok tt) (Ok tt) (Ok []))
                  (lambda_double (Ok "Active") (Ok tt) (Ok []))
                  (glue_double (Ok "READY") (Ok tt) (Ok tt) (Ok tt) (Ok []))
                  unreachable_record (cleanup_aws.new 0) "DataPipelineStack"
                  eq_refl
                  (or_introl
                     (ex_intro _
                        (Exn ClientError "Unable to locate credentials")
                        eq_refl)))).
Defined.


(** * Emptying a bucket *)

Lemma deleted_keys_app bucket_name tr1 tr2 :
  deleted_keys bucket_name (tr1 ++ tr2)
  = deleted_keys bucket_name tr1 ++ deleted_keys bucket_name tr2.
Proof. unfold deleted_keys. by rewrite omap_app, concat_app. Qed.

Section emptying.
Context {W : Type} (s3_client : S3Client W) (bucket_name : string).
Context (deletes : forall keys w,
           (delete_objects s3_client bucket_name keys w).1 = Ok tt).
Import cleanup_aws.

Lemma delete_page_run delete_count p (self : DataPipelineCleanup W) :
  let o := delete_page s3_client bucket_name delete_count p self in
  result o = Ok (delete_count + length (page_keys p)) /\
  deleted_keys bucket_name (emitted o) = page_keys p /\
  config (final o) = config self.
Proof.
  cbn zeta. unfold delete_page, page_keys, aws.
  destruct (Contents p) as [contents|]; cbn; [|by rewrite Nat.add_0_r].
  destruct (map Key contents) as [|key keys] eqn:E; cbn;
    [by rewrite Nat.add_0_r|].
  run. pose proof (deletes (key :: keys) (world self)) as Hd.
  destruct (delete_objects s3_client bucket_name (key :: keys) (world self))
    as [r w']. cbn in Hd. subst r. cbn.
  unfold deleted_keys. cbn. rewrite String.eqb_refl. cbn.
  by rewrite app_nil_r.
Qed.

Lemma delete_pages_run pages : forall delete_count (self : DataPipelineCleanup W),
  let o := for_fold pages delete_count (delete_page s3_client bucket_name)
             self in
  result o = Ok (delete_count + length (concat (map page_keys pages))) /\
  deleted_keys bucket_name (emitted o) = concat (map page_keys pages) /\
  config (final o) = config self.
Proof.
  induction pages as [|p pages IH]; intros delete_count self; cbn zeta.
  - cbn. by rewrite Nat.add_0_r.
  - cbn [for_fold map concat].
    pose proof (delete_page_run delete_count p self) as (Hr & Hk & Hc).
    cbn zeta in *. rewrite (bind_run _ _ _ _ Hr). cbn [result final emitted].
    destruct (IH (delete_count + length (page_keys p))
                (final (delete_page s3_client bucket_name delete_count p self)))
      as (Hr' & Hk' & Hc').
    rewrite Hr', deleted_keys_app, Hk, Hk', Hc', Hc, length_app.
    repeat split; try done. f_equal. lia.
Qed.

End emptying.



(** * Tracking the queries *)

#[local] Instance no_submission_additive :
  Additive (fun tr => submissions tr = []).
Proof. apply omap_nil_additive. Qed.

Lemma submissions_app tr1 tr2 :
  submissions (tr1 ++ tr2) = submissions tr1 ++ submissions tr2.
Proof. apply omap_app. Qed.

Section tracker_rules.
Context {W : Type} (athena_client : AthenaClient W).
Import test_pipeline.

Lemma show_results_submits_nothing q id :
  emits (fun tr => submissions tr = []) (show_results athena_client q id).
Proof.
  unfold show_results.
  walk ltac:(first [ apply emits_ret; apply _
                   | apply emits_bind; [apply _| |intros]
                   | apply emits_print; reflexivity
                   | apply emits_frame_aws; reflexivity
                   | apply emits_item; apply _
                   | apply emits_var_char_value; apply _
                   | apply emits_for_each; [apply _|intros] ]).
Qed.

Lemma fail_query_submits_nothing :
  emits (fun tr => submissions tr = []) (fail_query (W:=W)).
Proof. by intros fr. Qed.

Lemma wait_for_query_submits_nothing q id attempts :
  emits (fun tr => submissions tr = [])
    (wait_for_query athena_client q id attempts).
Proof.
  induction attempts as [|attempts IH]; cbn [wait_for_query].
  - apply emits_bind; [apply _|by apply emits_print|intros].
    apply fail_query_submits_nothing.
  - walk ltac:(first [ apply show_results_submits_nothing
                     | apply fail_query_submits_nothing
                     | apply IH
                     | apply emits_print; reflexivity
                     | apply emits_sleep; reflexivity
                     | apply emits_frame_aws; reflexivity
                     | apply emits_bind; [apply _| |intros] ]).
Qed.

Lemma wait_for_query_keeps_executions q id attempts :
  keeps query_executions (wait_for_query athena_client q id attempts).
Proof.
  induction attempts as [|attempts IH]; cbn [wait_for_query].
  - apply keeps_bind; [apply keeps_print|by intros ? ?].
  - walk ltac:(first [ apply show_results_keeps_executions
                     | apply IH
                     | apply keeps_print
                     | apply keeps_sleep
                     | apply keeps_executions_aws
                     | (by intros ?)
                     | apply keeps_bind; [|intros] ]).
Qed.

End tracker_rules.

Section tracker.
Context (submit : nat -> res string)
  (status : string -> nat -> res query_status)
  (rows : string -> res query_results).
Import test_pipeline.

Abbreviation sim := (athena_script submit status rows).

Lemma show_results_keeps_world q id :
  keeps (fun fr => world fr) (show_results sim q id).
Proof.
  unfold show_results.
  walk ltac:(first [ (by intros ?)
                   | apply keeps_ret | apply keeps_print
                   | apply keeps_item | apply keeps_var_char_value
                   | apply keeps_for_each; intros
                   | apply keeps_bind; [|intros] ]).
Qed.

Lemma show_results_ok q id (fr : frame athena_sim) :
  summarisable q (rows id) = true ->
  result (show_results sim q id fr) = Ok tt.
Proof.
  intros Hsum.
  unfold show_results, summarisable in *.
  rewrite (bind_run (aws _ _) _ fr
             (match rows id with Ok r => r | Raise _ => None end));
    [|unfold aws; cbn; by destruct (rows id)].
  cbn [result final emitted].
  destruct (rows id) as [[rws|]|e]; [| done | done].
  destruct (1 <? length rws); [|done].
  destruct (String.prefix "count_rows" (name q)).
  - unfold item. unfold row, datum in *.
    destruct (rws !! 1) as [[|[v|] rest]|] eqn:E; try done.
  - match goal with
    | |- result (?m ?s) = Ok tt =>
        assert (total m) as Ht; [|by destruct (Ht s) as [[] ->]]
    end.
    walk ltac:(first [ apply total_ret | apply total_print
                     | apply total_for_each; intros
                     | apply total_bind; [|intros] ]).
Qed.

Lemma wait_for_query_keeps_submitted q id attempts :
  keeps (fun fr => submitted (world fr)) (wait_for_query sim q id attempts).
Proof.
  induction attempts as [|attempts IH]; cbn [wait_for_query].
  - apply keeps_bind; [apply keeps_print|by intros ? ?].
  - apply keeps_bind; [by intros ?|intros result].
    cbn zeta.
    destruct (String.eqb (State result) "SUCCEEDED").
    { apply keeps_bind; [apply keeps_print|intros _].
      intros fr. by rewrite show_results_keeps_world. }
    destruct (String.eqb (State result) "FAILED").
    { apply keeps_bind; [apply keeps_print|by intros ? ?]. }
    destruct (String.eqb (State result) "CANCELLED").
    { apply keeps_bind; [apply keeps_print|by intros ? ?]. }
    apply keeps_bind; [apply keeps_sleep|intros _; apply IH].
Qed.

(** A query that reaches [SUCCEEDED] within the budget and whose rows can
    be summed up leaves [all_queries_passed] as it was. *)
Lemma wait_for_query_passes q id s flag execs :
  reaches_succeeded (status id) 30 ->
  summarisable q (rows id) = true ->
  let o := wait_for_query sim q id 30 (Frame (AthenaSim s 0) flag execs) in
  result o = Ok tt /\ all_queries_passed (final o) = flag.
Proof.
  intros (k & Hk & Hpending & st & Hst & Hsucc) Hsum. cbn zeta.
  rewrite (wait_for_query_pending submit status rows q id k)
    by (try lia; done).
  cbn [result final].
  destruct (30 - k) as [|m] eqn:E; [lia|].
  destruct (wait_for_query_succeeded submit status rows q id m s (0 + k)
              flag execs st Hst Hsucc) as (_ & _ & _ & -> & -> & _).
  split; [by apply show_results_ok|].
  by rewrite show_results_keeps_flag.
Qed.

(** One round of the loop over the queries: the query is submitted; if
    the submission is accepted the execution is recorded with its query;
    and the round ends without raising, whatever fails. *)
Lemma run_query_run workgroup results_bucket i q n p flag execs :
  let o := run_query sim workgroup results_bucket (i, q)
             (Frame (AthenaSim n p) flag execs) in
  result o = Ok tt /\
  submissions (emitted o)
  = [StartQueryExecution (sql q) workgroup (result_location results_bucket q)]
  /\
  submitted (world (final o)) = S n /\
  query_executions (final o) = execs ++ tracked submit n [q] /\
  (forall id,
     submit n = Ok id -> reaches_succeeded (status id) 30 ->
     summarisable q (rows id) = true ->
     all_queries_passed (final o) = flag).
Proof.
  cbn zeta. unfold run_query, tracked, result_location. cbn [fst snd].
  destruct (submit n) as [id|e] eqn:Hsub.
  - pose proof (wait_for_query_submits_nothing sim q id 30
                  (Frame (AthenaSim (S n) 0) flag
                     (execs ++ [QueryExecution id q]))) as Hs.
    pose proof (wait_for_query_keeps_executions sim q id 30
                  (Frame (AthenaSim (S n) 0) flag
                     (execs ++ [QueryExecution id q]))) as He.
    pose proof (wait_for_query_keeps_submitted q id 30
                  (Frame (AthenaSim (S n) 0) flag
                     (execs ++ [QueryExecution id q]))) as Hn.
    pose proof (wait_for_query_passes q id (S n) flag
                  (execs ++ [QueryExecution id q])) as Hpass.
    cbn zeta in Hpass.
    unfold try_except, bind, aws, print, append_execution.
    cbn -[wait_for_query]. rewrite Hsub. cbn -[wait_for_query].
    destruct (wait_for_query sim q id 30 _) as [[[]|e] fr' tr'];
      cbn in *; unfold submissions in *; cbn; rewrite ?omap_app, ?Hs; cbn.
    + repeat split; try done. intros id' [= <-] Hreach Hsum.
      by destruct (Hpass Hreach Hsum).
    + repeat split; try done. intros id' [= <-] Hreach Hsum.
      by destruct (Hpass Hreach Hsum).
  - unfold try_except, bind, aws, print, append_execution.
    cbn -[wait_for_query]. rewrite Hsub. cbn -[wait_for_query].
    rewrite app_nil_r. repeat split; done.
Qed.

Lemma tracked_cons q qs n :
  tracked submit n (q :: qs) = tracked submit n [q] ++ tracked submit (S n) qs.
Proof. unfold tracked. cbn. by destruct (submit n). Qed.

(** The loop over the queries. *)
Lemma run_queries_run workgroup results_bucket qs :
  forall i n p flag execs,
  let o := for_each (zip (seq i (length qs)) qs)
             (run_query sim workgroup results_bucket)
             (Frame (AthenaSim n p) flag execs) in
  result o = Ok tt /\
  submissions (emitted o)
  = map (fun q => StartQueryExecution (sql q) workgroup
                    (result_location results_bucket q)) qs /\
  query_executions (final o) = execs ++ tracked submit n qs /\
  ((forall j q, qs !! j = Some q ->
      exists id, submit (n + j) = Ok id /\
                 reaches_succeeded (status id) 30 /\
                 summarisable q (rows id) = true) ->
   all_queries_passed (final o) = flag).
Proof.
  induction qs as [|q qs IH]; intros i n p flag execs; cbn zeta.
  - cbn. by rewrite app_nil_r.
  - change (zip (seq i (length (q :: qs))) (q :: qs))
      with ((i, q) :: zip (seq (S i) (length qs)) qs).
    cbn [for_each map].
    destruct (run_query_run workgroup results_bucket i q n p flag execs)
      as (Hr & Hs & Hn & He & Hpass).
    cbn zeta in *. rewrite (bind_run _ _ _ tt Hr).
    cbn [result final emitted].
    destruct (run_query sim workgroup results_bucket (i, q)
                (Frame (AthenaSim n p) flag execs))
      as [r [[n' p'] flag' execs'] tr].
    cbn [result final emitted world submitted query_executions
         all_queries_passed] in *.
    subst n' execs'.
    destruct (IH (S i) (S n) p' flag' (execs ++ tracked submit n [q]))
      as (Hr' & Hs' & He' & Hpass').
    cbn zeta in *.
    rewrite Hr', submissions_app, Hs, Hs', He', (tracked_cons q qs n),
      app_assoc.
    repeat split; try done.
    intros Hall. rewrite Hpass'.
    + destruct (Hall 0 q eq_refl) as (id & Hid & Hreach & Hsum).
      rewrite Nat.add_0_r in Hid. by apply (Hpass id).
    + intros j q' Hq'. destruct (Hall (S j) q' Hq') as (id & Hid & ?).
      exists id. by replace (S n + j) with (n + S j) by lia.
Qed.

End tracker.

Section tracker_result.
Context (submit : nat -> res string)
  (status : string -> nat -> res query_status)
  (rows : string -> res query_results).
Import test_pipeline.

(** The report printed after the loop changes nothing. *)
Lemma mapping_report_run results_bucket (fr : frame athena_sim) :
  let o :=
    (if all_queries_passed fr then
       print "All Athena queries completed successfully" [] ;;
       print "Query Execution ID Mapping:" [] ;;
       for_each (query_executions fr) (fun exec_info =>
         let exec_id := execution_id exec_info in
         let query_info := query_info exec_info in
         print "{}: {}" [AStr (description query_info); AStr exec_id] ;;
         print "CSV: s3://{}/query-results/{}.csv"
               [AStr results_bucket; AStr exec_id] ;;
         print "Metadata: s3://{}/query-results/{}.csv.metadata"
               [AStr results_bucket; AStr exec_id])
     else
       print "Some Athena queries failed" []) fr in
  result o = Ok tt /\ final o = fr /\ submissions (emitted o) = [].
Proof.
  cbn zeta.
  match goal with
  | |- result (?m fr) = _ /\ _ =>
      assert (total m /\ keeps (fun fr => fr) m
              /\ emits (fun tr => submissions tr = []) m) as (Ht & Hk & He)
  end.
  { destruct (all_queries_passed fr); (split; [|split]).
    - walk ltac:(first [ apply total_print | apply total_for_each; intros
                       | apply total_bind; [|intros] ]).
    - walk ltac:(first [ apply keeps_print | apply keeps_for_each; intros
                       | apply keeps_bind; [|intros] ]).
    - walk ltac:(first [ apply emits_print; reflexivity
                       | apply emits_for_each; [apply _|intros]
                       | apply emits_bind; [apply _| |intros] ]).
    - apply total_print.
    - apply keeps_print.
    - by apply emits_print. }
  destruct (Ht fr) as [[] Hr]. split; [done|]. split; [apply Hk|apply He].
Qed.

(** C8, amended.  The three queries are named [count_rows], [users] and
    [users_by_city] (each followed by the time stamp).  Whatever fails,
    each of them is submitted, in this order, with a result location keyed
    by its name, and the records returned are those of the accepted
    submissions, each pairing the execution identifier the service answered
    with the query it was answered for.  When every submission is
    accepted, every execution reaches [SUCCEEDED] within thirty status
    reads and its rows can be fetched and summed up, exactly three records
    come back, with the flag [True]. *)
Theorem query_execution_tracking
  (timestamp workgroup database_name table_name results_bucket : string) :
  let qs := queries timestamp database_name table_name in
  let o :=
    test_athena_query (athena_script submit status rows) timestamp workgroup
      database_name table_name results_bucket (AthenaSim 0 0) in
  map name qs
  = ["count_rows_" +:+ timestamp; "users_" +:+ timestamp;
     "users_by_city_" +:+ timestamp] /\
  submissions (emitted o)
  = map (fun q => StartQueryExecution (sql q) workgroup
                    (result_location results_bucket q)) qs /\
  (exists flag, result o = Ok (flag, tracked submit 0 qs)) /\
  ((forall j q, qs !! j = Some q ->
      exists id, submit j = Ok id /\
                 reaches_succeeded (status id) 30 /\
                 summarisable q (rows id) = true) ->
   exists id0 id1 id2 q0 q1 q2,
     qs = [q0; q1; q2] /\
     submit 0 = Ok id0 /\ submit 1 = Ok id1 /\ submit 2 = Ok id2 /\
     result o
     = Ok (true, [QueryExecution id0 q0; QueryExecution id1 q1;
                  QueryExecution id2 q2])).
Proof.
  cbn zeta. split; [reflexivity|].
  unfold test_athena_query. cbn [result final emitted].
  set (qs := queries timestamp database_name table_name).
  rewrite (bind_run (print "Testing Athena queries" []) _ _ tt eq_refl).
  cbn [result final emitted print].
  destruct (run_queries_run submit status rows workgroup results_bucket qs
              1 0 0 true []) as (Hr & Hs & He & Hpass).
  cbn zeta in *. fold (enumerate qs 1) in *.
  rewrite (bind_run _ _ _ tt Hr). cbn [result final emitted].
  match goal with
  | |- context [for_each (enumerate qs 1) ?body ?s0] =>
      set (looped := for_each (enumerate qs 1) body s0) in *
  end.
  destruct (mapping_report_run results_bucket (final looped))
    as (Hr' & Hf' & Hs').
  cbn zeta in *. rewrite Hr', Hf', !submissions_app, Hs, Hs', He.
  cbn [app]. rewrite app_nil_r.
  split; [done|]. split; [by eexists|].
  intros Hall. rewrite (Hpass Hall).
  destruct (Hall 0 _ eq_refl) as (id0 & H0 & _).
  destruct (Hall 1 _ eq_refl) as (id1 & H1 & _).
  destruct (Hall 2 _ eq_refl) as (id2 & H2 & _).
  eexists id0, id1, id2, _, _, _. split; [reflexivity|].
  repeat split; try done.
  unfold tracked, qs, queries. cbn. by rewrite H0, H1, H2.
Qed.

End tracker_result.

Lemma running_then_succeeded_reaches :
  reaches_succeeded (fun k => Ok (running_then "SUCCEEDED" k)) 30.
Proof.
  exists 1. split; [lia|]. split.
  - intros j Hj. assert (j = 0) as -> by lia. by eexists.
  - by eexists.
Qed.

Lemma query_execution_tracking_witness :
  exists id0 id1 id2 q0 q1 q2,
    test_pipeline.queries "09:30" "data_pipeline_db" "raw_data"
    = [q0; q1; q2] /\
    accepted 0 = Ok id0 /\ accepted 1 = Ok id1 /\ accepted 2 = Ok id2 /\
    result three_queries_run
    = Ok (true, [test_pipeline.QueryExecution id0 q0;
                 test_pipeline.QueryExecution id1 q1;
                 test_pipeline.QueryExecution id2 q2]).
Proof.
  apply (proj2 (proj2 (proj2
    (query_execution_tracking accepted
       (fun _ k => Ok (running_then "SUCCEEDED" k)) one_count_row
       "09:30" "data-pipeline-workgroup" "data_pipeline_db" "raw_data"
       "data-pipeline-athena-results-jsonplaceholder")))).
  intros j q Hq. eexists. split; [reflexivity|].
  split; [apply running_then_succeeded_reaches|].
  destruct j as [|[|[|j]]]; cbn in Hq; [injection Hq as <-..|discriminate Hq];
    reflexivity.
Defined.

(** C8 fails as it is stated: three queries that are accepted and reach
    [SUCCEEDED] give the flag [False] when their rows cannot be fetched.
    Each of them is announced as succeeded and the three records are
    answered all the same. *)
Lemma succeeded_queries_without_rows_fail :
  (forall j, j < 3 ->
     exists id,
       accepted j = Ok id /\
       reaches_succeeded (fun k => Ok (running_then "SUCCEEDED" k)) 30) /\
  poll_results (emitted three_queries_without_rows_run)
  = [Succeeded; Succeeded; Succeeded] /\
  (exists id0 id1 id2 q0 q1 q2,
     test_pipeline.queries "09:30" "data_pipeline_db" "raw_data"
     = [q0; q1; q2] /\
     accepted 0 = Ok id0 /\ accepted 1 = Ok id1 /\ accepted 2 = Ok id2 /\
     result three_queries_without_rows_run
     = Ok (false, [test_pipeline.QueryExecution id0 q0;
                   test_pipeline.QueryExecution id1 q1;
                   test_pipeline.QueryExecution id2 q2])) /\
  ~ (exists execs, result three_queries_without_rows_run = Ok (true, execs)).
Proof.
  split; [|split; [|split]].
  - intros j _. eexists. split; [reflexivity|].
    apply running_then_succeeded_reaches.
  - reflexivity.
  - eexists _, _, _, _, _, _. repeat split; reflexivity.
  - intros [execs H]. vm_compute in H. discriminate H.
Qed.

(** * Further properties of the cleanup *)

Lemma calls_app tr1 tr2 : calls (tr1 ++ tr2) = calls tr1 ++ calls tr2.
Proof. apply omap_app. Qed.

Lemma calls_call r tr : calls (Call r :: tr) = r :: calls tr.
Proof. reflexivity. Qed.

Lemma head_buckets_app tr1 tr2 :
  head_buckets (tr1 ++ tr2) = head_buckets tr1 ++ head_buckets tr2.
Proof. apply omap_app. Qed.

(** X1.  [clean_athena_workgroup] asks for the deletion of the workgroup
    only after finding its name in the listing, and then once and
    recursively.  A workgroup that is not listed counts as cleaned with no
    further call; a listing or a deletion that raises gives [False]. *)
Theorem workgroup_is_deleted_only_if_listed {W : Type}
  (athena_client : AthenaClient W) (self : cleanup_aws.DataPipelineCleanup W)
  (workgroup_name : string) :
  cleanup_aws.config self !! "workgroup_name" = Some workgroup_name ->
  let o := cleanup_aws.clean_athena_workgroup athena_client self in
  match list_work_groups athena_client (cleanup_aws.world self) with
  | (Raise _, _) =>
      result o = Ok false /\ calls (emitted o) = [ListWorkGroups]
  | (Ok listed, w') =>
      if bool_decide (workgroup_name ∈ listed) then
        calls (emitted o)
        = [ListWorkGroups; DeleteWorkGroup workgroup_name true] /\
        match (delete_work_group athena_client workgroup_name true w').1 with
        | Ok _ => result o = Ok true
        | Raise _ => result o = Ok false
        end
      else
        calls (emitted o) = [ListWorkGroups] /\
        result o = Ok true /\
        final o = cleanup_aws.Self w' (cleanup_aws.config self)
  end.
Proof.
  intros E. cbn zeta.
  unfold cleanup_aws.clean_athena_workgroup, cleanup_aws.aws,
    cleanup_aws.config_get.
  run.
  destruct (list_work_groups athena_client (cleanup_aws.world self))
    as [[listed|e] w']; cbn; [|done].
  rewrite E. cbn.
  destruct (bool_decide (workgroup_name ∈ listed)); cbn; [|done].
  by destruct (delete_work_group athena_client workgroup_name true w')
    as [[[]|e] w'']; cbn.
Qed.

Lemma workgroup_is_deleted_only_if_listed_witness :
  calls (emitted cleaning_absent_workgroup) = [ListWorkGroups] /\
  result cleaning_absent_workgroup = Ok true /\
  final cleaning_absent_workgroup
  = cleanup_aws.Self tt (cleanup_aws.config (cleanup_aws.new tt)).
Proof.
  exact (workgroup_is_deleted_only_if_listed
           (athena_double (Ok ["primary"]) (Ok tt)) (cleanup_aws.new tt)
           "data-pipeline-workgroup" eq_refl).
Defined.

#[local] Instance no_probe_additive :
  Additive (fun tr => head_buckets tr = []).
Proof. apply omap_nil_additive. Qed.

(** Traces whose removals are all deletions of objects. *)
#[local] Instance only_objects_additive :
  Additive (fun tr =>
              Forall (fun r => exists b keys, r = DeleteObjects b keys)
                     (removals tr)).
Proof.
  split; [constructor|]. intros tr1 tr2 H1 H2.
  unfold removals. rewrite omap_app. by apply Forall_app.
Qed.

Section probing.
Context {W : Type} (s3_client : S3Client W).
Import cleanup_aws.

Lemma after_the_probe bucket_name :
  emits (fun tr => head_buckets tr = [])
    (pages <- paginate s3_client bucket_name ;;
     delete_count <-
       for_fold pages.1 0 (delete_page s3_client bucket_name) ;;
     match pages.2 with
     | Some e => raise e
     | None =>
         print "Emptied bucket: {} ({} objects)"
               [AStr bucket_name; ANat delete_count]
     end).
Proof. unfold delete_page. no_steps. Qed.

Lemma empty_bucket_probe bucket_name (self : DataPipelineCleanup W) :
  head_buckets (emitted (empty_bucket s3_client bucket_name self))
  = [bucket_name].
Proof.
  unfold empty_bucket, try_except, bind at 1, aws.
  destruct (head_bucket s3_client bucket_name (world self)) as [[[]|e] w'].
  - pose proof (after_the_probe bucket_name (Self w' (config self))) as H.
    destruct (bind _ _ _) as [[a|e] s1 tr1]; cbn [emitted] in H.
    + cbn. f_equal. exact H.
    + destruct (exn_kind e); unfold print; cbn [emitted app];
        change (head_buckets (Call (HeadBucket bucket_name) :: ?l))
          with (bucket_name :: head_buckets l);
        rewrite head_buckets_app, H; done.
  - by destruct (exn_kind e).
Qed.

Lemma empty_buckets_probes buckets : forall self : DataPipelineCleanup W,
  head_buckets (emitted (for_each buckets (empty_bucket s3_client) self))
  = buckets.
Proof.
  induction buckets as [|b buckets IH]; intros self; [done|].
  cbn [for_each].
  destruct (empty_bucket_quiet s3_client b self) as ([[] Hr] & _).
  rewrite (bind_run _ _ _ tt Hr). cbn [emitted].
  by rewrite head_buckets_app, empty_bucket_probe, IH.
Qed.

Lemma empty_bucket_removes_objects_only bucket_name :
  emits (fun tr =>
           Forall (fun r => exists b keys, r = DeleteObjects b keys)
                  (removals tr))
    (empty_bucket s3_client bucket_name).
Proof.
  unfold empty_bucket, delete_page.
  walk ltac:(first
    [ apply emits_ret; apply _
    | apply emits_raise; apply _
    | apply emits_print; constructor
    | apply emits_aws; repeat econstructor
    | apply emits_paginate; constructor
    | apply emits_for_fold; [apply _|intros]
    | apply emits_bind; [apply _| |intros]
    | apply emits_try; [apply _| |intros] ]).
Qed.

End probing.

(** X2.  [empty_s3_buckets] probes each bucket once: the buckets it probes
    are, without repetition, the configured data and results buckets
    together with the two default names, also when the configured names
    are the default ones.  It answers [True] whatever happens to the
    buckets, and the only removals it asks for are deletions of objects:
    it never deletes a bucket. *)
Theorem each_bucket_is_probed_once {W : Type} (s3_client : S3Client W)
  (self : cleanup_aws.DataPipelineCleanup W) :
  let o := cleanup_aws.empty_s3_buckets s3_client self in
  result o = Ok true /\
  NoDup (head_buckets (emitted o)) /\
  (forall b,
     b ∈ head_buckets (emitted o) <->
     b ∈ cleanup_aws.buckets_to_empty (cleanup_aws.config self)) /\
  Forall (fun r => exists b keys, r = DeleteObjects b keys)
         (removals (emitted o)).
Proof.
  cbn zeta. unfold cleanup_aws.empty_s3_buckets.
  set (buckets :=
         elements (list_to_set
                     (cleanup_aws.buckets_to_empty (cleanup_aws.config self))
                   : gset string)).
  rewrite (bind_run (print "Step 2: Emptying S3 buckets" []) _ self tt eq_refl).
  cbn [result final emitted print].
  destruct (performs_for_each buckets (cleanup_aws.empty_bucket s3_client)
              (empty_bucket_quiet s3_client) self) as ([[] Hr] & _).
  match goal with
  | |- context [bind ?m ?k self] => rewrite (bind_run m k self tt Hr)
  end.
  cbn [result final emitted ret].
  rewrite app_nil_r.
  pose proof (empty_buckets_probes s3_client buckets self) as Hp.
  fold buckets. rewrite head_buckets_app, Hp.
  split; [done|]. split; [|split].
  - apply NoDup_elements.
  - intros b.
    change (b ∈ buckets <->
            b ∈ cleanup_aws.buckets_to_empty (cleanup_aws.config self)).
    unfold buckets.
    by rewrite elem_of_elements, elem_of_list_to_set.
  - change (Forall (fun r => exists b keys, r = DeleteObjects b keys)
              (removals ([Print "Step 2: Emptying S3 buckets" []]
                         ++ emitted (for_each buckets
                                       (cleanup_aws.empty_bucket s3_client)
                                       self)))).
    apply (additive_app
             (Q := fun tr =>
                     Forall (fun r => exists b keys, r = DeleteObjects b keys)
                            (removals tr))); [constructor|].
    apply (emits_for_each _ buckets
             (cleanup_aws.empty_bucket s3_client)
             (empty_bucket_removes_objects_only s3_client) self).
Qed.

Section listing_order.
Context {W : Type} (s3_client : S3Client W) (bucket_name : string).
Import cleanup_aws.

Lemma deletions_due_cons p pages :
  deletions_due bucket_name (p :: pages)
  = match page_keys p with
    | [] => deletions_due bucket_name pages
    | keys => DeleteObjects bucket_name keys :: deletions_due bucket_name pages
    end.
Proof.
  unfold deletions_due. cbn [map]. destruct (page_keys p) eqn:E.
  - by rewrite filter_cons_False by (intros H; by apply H).
  - by rewrite filter_cons_True by done.
Qed.

Lemma delete_pages_calls pages :
  forall delete_count (self : DataPipelineCleanup W),
    calls (emitted (for_fold pages delete_count
                      (delete_page s3_client bucket_name) self))
    = take (deletions_attempted s3_client bucket_name pages (world self))
        (deletions_due bucket_name pages).
Proof.
  induction pages as [|p pages IH]; intros delete_count self.
  - done.
  - cbn [for_fold deletions_attempted]. rewrite deletions_due_cons.
    unfold bind, delete_page, page_keys.
    destruct (Contents p) as [[|object contents]|]; cbn [default map].
    + specialize (IH delete_count self).
      unfold ret at 1. destruct (for_fold _ _ _ _). cbn in *. done.
    + unfold aws, bind, ret at 1.
      destruct (delete_objects s3_client bucket_name _ (world self))
        as [[[]|e] w'] eqn:Hdelete.
      * specialize (IH (delete_count
                        + length (Key object :: map Key contents))
                       (Self w' (config self))).
        destruct (for_fold _ _ _ _). cbn in *.
        by rewrite Hdelete, IH.
      * cbn in *. by rewrite Hdelete.
    + specialize (IH delete_count self).
      unfold ret at 1. destruct (for_fold _ _ _ _). cbn in *. done.
Qed.

End listing_order.

(** X3.  Emptying a bucket never raises, and what it asks of the storage
    service follows the listing.  When the probe of the bucket raises,
    nothing more is asked: no listing and no deletion.  Otherwise the
    bucket is listed once, and the deletions requested are, in order, the
    deletions the pages call for (one request per page that lists objects)
    up to the first one the service refuses, that one included: no key is
    deleted that was not listed, no page is skipped before a refusal, and
    nothing is requested after a refused deletion. *)
Theorem objects_are_deleted_in_listing_order {W : Type}
  (s3_client : S3Client W) (bucket_name : string)
  (self : cleanup_aws.DataPipelineCleanup W) :
  let o := cleanup_aws.empty_bucket s3_client bucket_name self in
  result o = Ok tt /\
  match head_bucket s3_client bucket_name (cleanup_aws.world self) with
  | (Raise _, _) => calls (emitted o) = [HeadBucket bucket_name]
  | (Ok _, w1) =>
      let listing := paginate_list_objects_v2 s3_client bucket_name w1 in
      calls (emitted o)
      = HeadBucket bucket_name :: PaginateListObjectsV2 bucket_name
        :: take (deletions_attempted s3_client bucket_name listing.1.1
                   listing.2)
             (deletions_due bucket_name listing.1.1)
  end.
Proof.
  cbn zeta. split.
  { destruct (empty_bucket_quiet s3_client bucket_name self) as ([[] Hr] & _).
    exact Hr. }
  destruct (head_bucket s3_client bucket_name (cleanup_aws.world self))
    as [[[]|e] w1] eqn:Hhead;
    unfold cleanup_aws.empty_bucket, try_except, bind at 1, cleanup_aws.aws;
    rewrite Hhead; [|destruct (exn_kind e); reflexivity].
  unfold bind at 1, cleanup_aws.paginate. cbn [cleanup_aws.world].
  destruct (paginate_list_objects_v2 s3_client bucket_name w1)
    as [[pages err] w2]. cbn [fst snd].
  unfold bind at 1.
  pose proof (delete_pages_calls s3_client bucket_name pages 0
                (cleanup_aws.Self w2 (cleanup_aws.config self))) as Hn.
  cbn [cleanup_aws.world] in Hn.
  destruct (for_fold pages 0 _ _) as [[delete_count|e] s tr];
    cbn [emitted] in Hn.
  - destruct err as [e|]; unfold print, raise; cbn [emitted app fst snd];
      [destruct (exn_kind e)|]; cbn [emitted app];
      rewrite ?app_nil_r, ?calls_call, ?calls_app, Hn; cbn [calls omap];
      by rewrite ?app_nil_r.
  - destruct (exn_kind e); unfold print; cbn [emitted app];
      rewrite ?calls_call, ?calls_app, Hn; cbn [calls omap];
      by rewrite ?app_nil_r.
Qed.

(** X4.  Take a bucket that exists and whose listing breaks off with an
    exception after the pages [pages], deletions being accepted.  The
    objects listed before the failure are deleted all the same, and the
    bucket gets the line of the exception in place of the count of
    deleted objects. *)
Theorem broken_listing_deletes_what_was_listed {W : Type}
  (s3_client : S3Client W) (bucket_name : string)
  (self : cleanup_aws.DataPipelineCleanup W)
  (pages : list page) (e : exn) (w1 w2 : W) :
  head_bucket s3_client bucket_name (cleanup_aws.world self) = (Ok tt, w1) ->
  paginate_list_objects_v2 s3_client bucket_name w1 = ((pages, Some e), w2) ->
  (forall keys w, (delete_objects s3_client bucket_name keys w).1 = Ok tt) ->
  let o := cleanup_aws.empty_bucket s3_client bucket_name self in
  result o = Ok tt /\
  deleted_keys bucket_name (emitted o) = concat (map page_keys pages) /\
  last (emitted o)
  = Some (match exn_kind e with
          | NoSuchBucket =>
              Print "Bucket not found: {} (already deleted)"
                [AStr bucket_name]
          | _ =>
              Print "Error with bucket {}: {}"
                [AStr bucket_name; AStr (exn_text e)]
          end).
Proof.
  intros Hhead Hpages Hdel. cbn zeta.
  set (line := match exn_kind e with
               | NoSuchBucket =>
                   Print "Bucket not found: {} (already deleted)"
                     [AStr bucket_name]
               | _ =>
                   Print "Error with bucket {}: {}"
                     [AStr bucket_name; AStr (exn_text e)]
               end).
  set (deleting := for_fold pages 0
                     (cleanup_aws.delete_page s3_client bucket_name)
                     (cleanup_aws.Self w2 (cleanup_aws.config self))).
  destruct (delete_pages_run s3_client bucket_name Hdel pages 0
              (cleanup_aws.Self w2 (cleanup_aws.config self)))
    as (Hr & Hk & _).
  fold deleting in Hr, Hk.
  assert (cleanup_aws.empty_bucket s3_client bucket_name self
          = Outcome (Ok tt) (final deleting)
              ([Call (HeadBucket bucket_name);
                Call (PaginateListObjectsV2 bucket_name)]
               ++ emitted deleting ++ [line])) as ->.
  { unfold cleanup_aws.empty_bucket, try_except, bind at 1, cleanup_aws.aws.
    rewrite Hhead.
    unfold bind at 1, cleanup_aws.paginate. cbn [cleanup_aws.world].
    rewrite Hpages. cbn [fst snd].
    unfold bind at 1. cbn [cleanup_aws.world cleanup_aws.config].
    fold deleting.
    destruct deleting as [r s tr]. cbn in Hr. subst r.
    unfold raise, print, line. cbn [emitted result final app fst snd].
    destruct (exn_kind e); cbn [emitted result final app];
      by rewrite app_nil_r. }
  cbn [result emitted]. split; [done|]. split.
  - rewrite !deleted_keys_app, Hk. unfold line.
    destruct (exn_kind e); cbn; by rewrite app_nil_r.
  - by rewrite !app_assoc, last_snoc.
Qed.

Lemma broken_listing_deletes_what_was_listed_witness :
  result emptying_broken_listing = Ok tt /\
  deleted_keys "data-pipeline-bucket" (emitted emptying_broken_listing)
  = ["raw-data/users.csv"; "raw-data/posts.csv"] /\
  last (emitted emptying_broken_listing)
  = Some (Print "Error with bucket {}: {}"
            [AStr "data-pipeline-bucket"; AStr "RequestTimeout"]).
Proof.
  exact (broken_listing_deletes_what_was_listed broken_listing
           "data-pipeline-bucket" (cleanup_aws.new tt) _ _ tt tt
           eq_refl eq_refl (fun _ _ => eq_refl)).
Defined.

(** X5.  [run_cdk_destroy] runs the destroy command once, with a limit of
    300 seconds, and never raises: it answers [True] exactly when the
    command ran to its end with exit code 0, and [False] when the code is
    another one, when the command timed out and when it could not be run.
    The configuration is left as it was. *)
Theorem cdk_destroy_verdict {W : Type} (subprocess : Subprocess W)
  (self : cleanup_aws.DataPipelineCleanup W) :
  let argv := ["npx"; "cdk"; "destroy"; "--force"] in
  let o := cleanup_aws.run_cdk_destroy subprocess self in
  calls (emitted o) = [SubprocessRun argv 300] /\
  cleanup_aws.config (final o) = cleanup_aws.config self /\
  result o
  = Ok (match (subprocess_run subprocess argv 300
                 (cleanup_aws.world self)).1 with
        | Ok completed => (returncode completed =? 0)%Z
        | Raise _ => false
        end).
Proof.
  cbn zeta. unfold cleanup_aws.run_cdk_destroy, cleanup_aws.aws. run.
  destruct (subprocess_run subprocess _ 300 (cleanup_aws.world self))
    as [[completed|e] w']; cbn.
  - by destruct (returncode completed =? 0)%Z.
  - by destruct (exn_kind e).
Qed.

(** X6.  The forced deletion of the stack asks for the deletion only after
    reading the record and finding a stack in it, and waits only for a
    deletion that was accepted.  It never raises.  It answers [True] when
    the record lists no stack and when all its calls go through; when one
    of them raises it stops there and answers [True] exactly if the
    exception is a client error whose text says that the stack does not
    exist. *)
Theorem stack_is_deleted_only_if_recorded {W : Type}
  (cf_client : CloudFormationClient W)
  (self : cleanup_aws.DataPipelineCleanup W) (stack_name : string) :
  cleanup_aws.config self !! "stack_name" = Some stack_name ->
  let o := cleanup_aws.delete_cloudformation_stack cf_client self in
  match describe_stacks cf_client stack_name (cleanup_aws.world self) with
  | (Raise e, _) =>
      calls (emitted o) = [DescribeStacks stack_name] /\
      result o = Ok (says_does_not_exist e)
  | (Ok [], _) =>
      calls (emitted o) = [DescribeStacks stack_name] /\ result o = Ok true
  | (Ok (_ :: _), w1) =>
      match delete_stack cf_client stack_name w1 with
      | (Raise e, _) =>
          calls (emitted o)
          = [DescribeStacks stack_name; DeleteStack stack_name] /\
          result o = Ok (says_does_not_exist e)
      | (Ok _, w2) =>
          calls (emitted o)
          = [DescribeStacks stack_name; DeleteStack stack_name;
             WaitStackDeleteComplete stack_name 15 40] /\
          result o
          = Ok (match (wait_stack_delete_complete cf_client stack_name 15 40
                         w2).1 with
                | Ok _ => true
                | Raise e => says_does_not_exist e
                end)
      end
  end.
Proof.
  intros E. cbn zeta.
  unfold cleanup_aws.delete_cloudformation_stack, cleanup_aws.config_get,
    cleanup_aws.aws, says_does_not_exist.
  run. rewrite E. cbn.
  destruct (describe_stacks cf_client stack_name (cleanup_aws.world self))
    as [[[|stack stacks]|e] w1]; cbn.
  - done.
  - rewrite E. cbn.
    destruct (delete_stack cf_client stack_name w1) as [[[]|e] w2]; cbn.
    + destruct (wait_stack_delete_complete cf_client stack_name 15 40 w2)
        as [[[]|e] w3]; cbn; [done|].
      by destruct (is_client_error e),
           (contains "does not exist" (exn_text e)).
    + by destruct (is_client_error e),
           (contains "does not exist" (exn_text e)).
  - by destruct (is_client_error e),
         (contains "does not exist" (exn_text e)).
Qed.

Lemma stack_is_deleted_only_if_recorded_witness :
  calls (emitted deleting_vanished_stack)
  = [DescribeStacks "DataPipelineStack"; DeleteStack "DataPipelineStack"] /\
  result deleting_vanished_stack = Ok true.
Proof.
  exact (stack_is_deleted_only_if_recorded vanished_stack (cleanup_aws.new tt)
           "DataPipelineStack" eq_refl).
Defined.

Section recording.
Context {W : Type} (cf_client : CloudFormationClient W).
Import cleanup_aws.

Lemma last_output_cons output_key key value outputs :
  last_output output_key ((key, value) :: outputs)
  = match last_output output_key outputs with
    | Some later => Some later
    | None => if String.eqb key output_key then Some value else None
    end.
Proof.
  unfold last_output. cbn [omap list_omap fst snd].
  destruct (String.eqb key output_key);
    [by rewrite last_cons | by destruct (last _)].
Qed.

Lemma record_output_run key value (s : DataPipelineCleanup W) :
  exists cfg,
    record_output (key, value) s = Outcome (Ok tt) (Self (world s) cfg) [] /\
    (forall k output_key,
       (k, output_key) ∈ recorded_outputs ->
       cfg !! k = if String.eqb key output_key then Some value
                  else config s !! k) /\
    (forall k,
       k ∉ recorded_outputs.*1 -> cfg !! k = config s !! k).
Proof.
  destruct s as [w cfg0]. unfold record_output, config_set, ret.
  cbn [fst snd world config].
  destruct (String.eqb_spec key "DataBucketName") as [->|H1];
    [|destruct (String.eqb_spec key "AthenaResultsBucketName") as [->|H2];
      [|destruct (String.eqb_spec key "LambdaFunctionName") as [->|H3]]];
    eexists; (split; [reflexivity|]); split.
  all: try (intros k output_key Hin; unfold recorded_outputs in Hin;
            repeat (apply elem_of_cons in Hin as [[= -> ->]|Hin]);
            [..|by apply elem_of_nil in Hin]; cbn;
            rewrite ?(proj2 (String.eqb_neq _ _)) by done).
  all: try done.
  all: try by simplify_map_eq.
  all: intros k Hk; cbn in Hk;
    repeat (apply not_elem_of_cons in Hk as [? Hk]); cbn [config];
    by simplify_map_eq.
Qed.

Lemma record_outputs_last outputs : forall s : DataPipelineCleanup W,
  let o := for_each outputs record_output s in
  (forall k output_key,
     (k, output_key) ∈ recorded_outputs ->
     config (final o) !! k = recorded (config s) outputs k output_key) /\
  (forall k, k ∉ recorded_outputs.*1 -> config (final o) !! k = config s !! k).
Proof.
  induction outputs as [|[key value] outputs IH]; intros s; cbn zeta.
  { by split. }
  cbn [for_each]. unfold bind.
  destruct (record_output_run key value s) as (cfg & -> & Hrec & Hother).
  destruct (IH (Self (world s) cfg)) as [IH1 IH2]. cbn zeta in *.
  destruct (for_each outputs record_output (Self (world s) cfg))
    as [r s' tr]. cbn [final config] in *.
  split.
  - intros k output_key Hin. rewrite (IH1 k output_key Hin).
    unfold recorded. rewrite last_output_cons.
    destruct (last_output output_key outputs); [done|].
    rewrite (Hrec k output_key Hin). by destruct (String.eqb key output_key).
  - intros k Hk. by rewrite IH2, Hother.
Qed.

End recording.

(** X7.  [get_stack_resources] answers [True] exactly when the record
    lists a stack whose status does not contain [DELETE].  In that case
    the configuration takes the bucket names and the function name from
    the outputs of the first stack listed, the last output of a key
    winning, and keeps what it held for a name the outputs do not give and
    under every other key.  In every other case (the read raises, no stack
    is listed, the stack is being deleted) the configuration is left as it
    was. *)
Theorem recorded_outputs_override_defaults {W : Type}
  (cf_client : CloudFormationClient W)
  (self : cleanup_aws.DataPipelineCleanup W) (stack_name : string) :
  cleanup_aws.config self !! "stack_name" = Some stack_name ->
  let o := cleanup_aws.get_stack_resources cf_client self in
  let cfg := cleanup_aws.config (final o) in
  match (describe_stacks cf_client stack_name (cleanup_aws.world self)).1 with
  | Ok (stack :: _) =>
      if contains "DELETE" (StackStatus stack) then
        result o = Ok false /\ cfg = cleanup_aws.config self
      else
        let outputs := default [] (Outputs stack) in
        result o = Ok true /\
        (forall key output_key,
           (key, output_key) ∈ recorded_outputs ->
           cfg !! key
           = recorded (cleanup_aws.config self) outputs key output_key) /\
        (forall key,
           key ∉ recorded_outputs.*1 ->
           cfg !! key = cleanup_aws.config self !! key)
  | _ => result o = Ok false /\ cfg = cleanup_aws.config self
  end.
Proof.
  intros E. cbn zeta.
  unfold cleanup_aws.get_stack_resources, cleanup_aws.config_get,
    cleanup_aws.aws, try_except, bind, print, ret, raise.
  rewrite E.
  destruct (describe_stacks cf_client stack_name (cleanup_aws.world self))
    as [[[|stack stacks]|e] w1]; cbn [fst]; [done|..|done].
  destruct (contains "DELETE" (StackStatus stack)); [done|].
  pose proof (record_outputs (default [] (Outputs stack))
                (cleanup_aws.Self w1 (cleanup_aws.config self)))
    as (Hr & _).
  pose proof (record_outputs_last (default [] (Outputs stack))
                (cleanup_aws.Self w1 (cleanup_aws.config self)))
    as (H1 & H2).
  cbn zeta in *. cbn [cleanup_aws.config] in *.
  destruct (for_each _ _ _) as [r s tr]. cbn in Hr. subst r. done.
Qed.

Lemma recorded_outputs_override_defaults_witness :
  result reading_renamed_bucket = Ok true /\
  cleanup_aws.config (final reading_renamed_bucket) !! "data_bucket"
  = Some "data-pipeline-bucket-v2" /\
  cleanup_aws.config (final reading_renamed_bucket) !! "lambda_function_name"
  = Some "data-pipeline-data-extractor" /\
  cleanup_aws.config (final reading_renamed_bucket) !! "results_bucket"
  = None.
Proof.
  pose proof (recorded_outputs_override_defaults renamed_bucket_record
                (cleanup_aws.new tt) "DataPipelineStack" eq_refl)
    as (Hr & Hrec & _).
  split; [exact Hr|]. split; [|split].
  - exact (Hrec "data_bucket" "DataBucketName" ltac:(repeat constructor)).
  - exact (Hrec "lambda_function_name" "LambdaFunctionName"
             ltac:(repeat constructor)).
  - exact (Hrec "results_bucket" "AthenaResultsBucketName"
             ltac:(repeat constructor)).
Defined.

#[local] Instance leaves_stack_alone_additive : Additive leaves_stack_alone.
Proof. apply and_additive; apply omap_nil_additive. Qed.

Section run_observed.
Context {W : Type}.
Context (athena_client : AthenaClient W) (s3_client : S3Client W)
  (lambda_client : LambdaClient W) (glue_client : GlueClient W)
  (cf_client : CloudFormationClient W) (subprocess : Subprocess W).
Import cleanup_aws.

(** A run answers [False] for the record only where it leaves the
    configuration as it was. *)
Lemma get_stack_resources_false (s : DataPipelineCleanup W) :
  result (get_stack_resources cf_client s) = Ok false ->
  config (final (get_stack_resources cf_client s)) = config s.
Proof.
  unfold get_stack_resources, config_get, aws, try_except, bind, print, ret,
    raise.
  destruct (config s !! "stack_name") as [stack_name|]; [|done].
  destruct (describe_stacks cf_client stack_name (world s))
    as [[[|stack stacks]|e] w1]; [done|..|done].
  destruct (contains "DELETE" (StackStatus stack)); [done|].
  pose proof (record_outputs (default [] (Outputs stack))
                (Self w1 (config s))) as (Hr & _).
  cbn zeta in Hr. destruct (for_each _ _ _) as [r s' tr]. cbn in Hr.
  by subst r.
Qed.

(** What a run emits, stage by stage, for an observer that does not look
    at printed lines. *)
Lemma run_cleanup_observed {B} (f : event -> option B)
  (s0 : DataPipelineCleanup W) :
  (forall template args, f (Print template args) = None) ->
  exists stack_exists,
    result (get_stack_resources cf_client s0) = Ok stack_exists /\
    let s1 := final (get_stack_resources cf_client s0) in
    let s2 := final (clean_athena_workgroup athena_client s1) in
    let s3 := at_step_3 athena_client s3_client cf_client s0 in
    let s6 :=
      at_step_6 athena_client s3_client lambda_client glue_client cf_client
        subprocess s0 in
    omap f (emitted (run_cleanup athena_client s3_client lambda_client
                       glue_client cf_client subprocess s0))
    = omap f (emitted (get_stack_resources cf_client s0))
      ++ omap f (emitted (clean_athena_workgroup athena_client s1))
      ++ omap f (emitted (empty_s3_buckets s3_client s2))
      ++ omap f (emitted (destroy_or_fall_back s3_client lambda_client
                            glue_client cf_client subprocess stack_exists s3))
      ++ omap f (emitted (verify_cleanup athena_client s3_client lambda_client
                            glue_client cf_client s6)).
Proof.
  intros Hprint.
  destruct (get_stack_resources_total cf_client s0) as [stack_exists Hget].
  exists stack_exists. split; [done|]. cbn zeta.
  set (s1 := final (get_stack_resources cf_client s0)).
  destruct (clean_athena_workgroup_quiet athena_client s1)
    as ([b1 Hclean] & _).
  set (s2 := final (clean_athena_workgroup athena_client s1)) in *.
  destruct (empty_s3_buckets_quiet s3_client s2) as ([b2 Hempty] & _).
  assert (at_step_3 athena_client s3_client cf_client s0
          = final (empty_s3_buckets s3_client s2)) as E3 by reflexivity.
  set (s3 := at_step_3 athena_client s3_client cf_client s0) in *.
  destruct (destroy_or_fall_back_total s3_client lambda_client glue_client
              cf_client subprocess stack_exists s3) as (Hd & _).
  assert (at_step_6 athena_client s3_client lambda_client glue_client
            cf_client subprocess s0
          = final (destroy_or_fall_back s3_client lambda_client glue_client
                     cf_client subprocess stack_exists s3)) as E6.
  { unfold at_step_6. by rewrite Hget. }
  set (s6 := at_step_6 athena_client s3_client lambda_client glue_client
               cf_client subprocess s0) in *.
  destruct (verify_cleanup_run athena_client s3_client lambda_client
              glue_client cf_client s6) as (results & _ & Hver & _).
  unfold run_cleanup.
  rewrite (bind_run (print "AWS CDK Data Pipeline Cleanup" []) _ s0 tt
             eq_refl).
  rewrite (bind_run
             (print "==================================================" [])
             _ _ tt eq_refl).
  rewrite (bind_run _ _ _ stack_exists Hget).
  rewrite (bind_run _ _ _ b1 Hclean).
  rewrite (bind_run _ _ _ b2 Hempty).
  cbn [final result emitted print].
  fold s1. fold s2. rewrite <- E3.
  rewrite (bind_run _ _ _ tt Hd).
  rewrite <- E6.
  rewrite (bind_run _ _ _ (cleanup_aws.all results) Hver).
  cbn [final result emitted].
  rewrite !omap_app.
  destruct (cleanup_aws.all results); cbn [emitted bind print ret app];
    cbn [omap list_omap app]; rewrite !Hprint; cbn [app];
    by rewrite ?app_nil_r.
Qed.

Lemma get_stack_resources_leaves_stack_alone :
  emits leaves_stack_alone (get_stack_resources (W:=W) cf_client).
Proof.
  unfold get_stack_resources.
  walk ltac:(first
    [ apply emits_ret; apply _
    | apply emits_bind; [apply _| |intros]
    | apply emits_try; [apply _| |intros]
    | apply emits_print; split; reflexivity
    | apply emits_aws; split; reflexivity
    | apply emits_config_get; apply _
    | apply emits_for_each; [apply _|intros] ]).
  intros self. unfold record_output, config_set, ret.
  by repeat case_match.
Qed.

Ltac alone :=
  walk ltac:(first
    [ apply emits_ret; apply _
    | apply emits_raise; apply _
    | apply emits_bind; [apply _| |intros]
    | apply emits_try; [apply _| |intros]
    | apply emits_print; split; reflexivity
    | apply emits_aws; split; reflexivity
    | apply emits_paginate; split; reflexivity
    | apply emits_config_get; apply _
    | apply emits_config_has; apply _
    | apply emits_for_each; [apply _|intros]
    | apply emits_for_fold; [apply _|intros] ]).

Lemma clean_athena_workgroup_leaves_stack_alone :
  emits leaves_stack_alone (clean_athena_workgroup athena_client).
Proof. unfold clean_athena_workgroup. alone. Qed.

Lemma empty_s3_buckets_leaves_stack_alone :
  emits leaves_stack_alone (empty_s3_buckets s3_client).
Proof.
  unfold empty_s3_buckets.
  apply emits_bind; [apply _|apply emits_print; by split|intros _].
  apply emits_bind; [apply _| |intros _; apply emits_ret; apply _].
  intros s. apply emits_for_each; [apply _|]. intros bucket_name.
  unfold empty_bucket, delete_page. alone.
Qed.

Lemma manual_resource_cleanup_leaves_stack_alone :
  emits leaves_stack_alone
    (manual_resource_cleanup s3_client lambda_client glue_client).
Proof.
  unfold manual_resource_cleanup.
  apply emits_bind; [apply _|apply emits_print; by split|intros _].
  apply emits_bind; [apply _|unfold delete_lambda_function; alone|intros _].
  apply emits_bind; [apply _|unfold delete_glue_crawler; alone|intros _].
  apply emits_bind; [apply _|unfold delete_glue_database; alone|intros _].
  apply emits_for_each; [apply _|]. intros bucket_key.
  unfold delete_bucket_of. alone.
Qed.

Lemma verify_cleanup_leaves_stack_alone :
  emits leaves_stack_alone
    (verify_cleanup athena_client s3_client lambda_client glue_client
       cf_client).
Proof.
  unfold verify_cleanup, verification_results, check_stack, check_buckets,
    check_functions, check_database, check_workgroup.
  alone.
Qed.

End run_observed.

(** X8.  Take a cleanup run that does not find the deployment record.  It
    never runs the destroy command and never asks for the deletion of the
    stack; it goes straight to the direct deletions, made once each with
    the built-in names of the function, the crawler and the database.  No
    bucket is deleted, since no bucket name is configured without the
    record: the buckets are emptied only. *)
Theorem run_without_record_uses_built_in_names {W : Type}
  (athena_client : AthenaClient W) (s3_client : S3Client W)
  (lambda_client : LambdaClient W) (glue_client : GlueClient W)
  (cf_client : CloudFormationClient W) (subprocess : Subprocess W) (w : W) :
  result (cleanup_aws.get_stack_resources cf_client (cleanup_aws.new w))
  = Ok false ->
  let o :=
    cleanup_aws.run_cleanup athena_client s3_client lambda_client glue_client
      cf_client subprocess (cleanup_aws.new w) in
  subprocess_runs (emitted o) = [] /\
  stack_deletions (emitted o) = [] /\
  fallback_steps (emitted o)
  = [delete_function_step "data-pipeline-data-extractor";
     delete_crawler_step "data-pipeline-crawler";
     delete_database_step "data_pipeline_db"].
Proof.
  intros Hget. cbn zeta.
  pose proof (get_stack_resources_false cf_client _ Hget) as Hcfg.
  assert (forall {B} (f : event -> option B),
            (forall template args, f (Print template args) = None) ->
            (forall {S A} (m : M S A) s, leaves_stack_alone (emitted (m s)) ->
               omap f (emitted (m s)) = []) ->
            omap f (emitted (cleanup_aws.run_cleanup athena_client s3_client
                               lambda_client glue_client cf_client subprocess
                               (cleanup_aws.new w))) = []) as Hnone.
  { intros B f Hprint Hf.
    destruct (run_cleanup_observed athena_client s3_client lambda_client
                glue_client cf_client subprocess f (cleanup_aws.new w) Hprint)
      as (stack_exists & Hget' & ->).
    rewrite Hget in Hget'. injection Hget' as <-.
    rewrite !Hf; [done|..].
    - apply verify_cleanup_leaves_stack_alone.
    - unfold cleanup_aws.destroy_or_fall_back.
      apply emits_bind; [apply _|apply emits_print; by split|intros _].
      apply manual_resource_cleanup_leaves_stack_alone.
    - apply empty_s3_buckets_leaves_stack_alone.
    - apply clean_athena_workgroup_leaves_stack_alone.
    - apply get_stack_resources_leaves_stack_alone. }
  split; [|split].
  - apply Hnone; [done|]. by intros S A m s [? _].
  - apply Hnone; [done|]. by intros S A m s [_ ?].
  - destruct (run_cleanup_run athena_client s3_client lambda_client
                glue_client cf_client subprocess (cleanup_aws.new w))
      as (stack_exists & results & Hget' & _ & _ & _ & ->).
    rewrite Hget in Hget'. injection Hget' as <-.
    destruct (fall_back_without_record s3_client lambda_client glue_client
                cf_client subprocess
                (cleanup_aws.at_step_3 athena_client s3_client cf_client
                   (cleanup_aws.new w))) as (_ & _ & ->).
    by rewrite at_step_3_config, Hcfg.
Qed.

Lemma run_without_record_uses_built_in_names_witness :
  subprocess_runs (emitted run_without_credentials) = [] /\
  stack_deletions (emitted run_without_credentials) = [] /\
  fallback_steps (emitted run_without_credentials)
  = [delete_function_step "data-pipeline-data-extractor";
     delete_crawler_step "data-pipeline-crawler";
     delete_database_step "data_pipeline_db"].
Proof.
  exact (run_without_record_uses_built_in_names
           (athena_double access_denied access_denied)
           (s3_double access_denied ([], None) access_denied access_denied
              access_denied)
           (lambda_double access_denied access_denied access_denied)
           (glue_double access_denied access_denied access_denied
              access_denied access_denied)
           unreachable_record
           (subprocess_double (Ok (CompletedProcess 0 "")))
           0 eq_refl).
Defined.

Section clean_run.
Context {W : Type}.
Context (athena_client : AthenaClient W) (s3_client : S3Client W)
  (lambda_client : LambdaClient W) (glue_client : GlueClient W)
  (cf_client : CloudFormationClient W) (subprocess : Subprocess W).
Import cleanup_aws.

Lemma filter_none {A} (P : A -> Prop) `{!forall x, Decision (P x)} l :
  Forall (fun x => ~ P x) l -> filter P l = [].
Proof.
  induction 1 as [|x l Hx _ IH]; [done|].
  by rewrite filter_cons_False.
Qed.

Lemma verification_of_clean_account (s : DataPipelineCleanup W) :
  clean_account athena_client s3_client lambda_client glue_client cf_client ->
  config s !! "stack_name" = Some "DataPipelineStack" ->
  config s !! "database_name" = Some "data_pipeline_db" ->
  config s !! "workgroup_name" = Some "data-pipeline-workgroup" ->
  result (verification_results athena_client s3_client lambda_client
            glue_client cf_client s)
  = Ok [true; true; true; true; true].
Proof.
  intros [Hstack Hbuckets Hfunctions Hdatabase Hworkgroup] Es Ed Ew.
  unfold verification_results.
  rewrite (bind_run (print "Step 6: Verifying cleanup" []) _ s tt eq_refl).
  cbn [result final emitted print].
  (* the stack *)
  destruct (check_stack_quiet cf_client s) as (_ & Hc1 & _).
  pose proof (check_stack_reports cf_client s _ Es) as H1.
  assert (result (check_stack cf_client s) = Ok true) as R1.
  { unfold reports_stack in H1.
    destruct (Hstack (world s)) as [E|[e E]]; by rewrite E in H1. }
  rewrite (bind_run _ _ s true R1). cbn [result final emitted].
  set (s1 := final (check_stack cf_client s)) in *.
  (* the buckets *)
  destruct (check_buckets_quiet s3_client s1) as (_ & Hc2 & _).
  pose proof (check_buckets_reports s3_client s1) as H2.
  assert (result (check_buckets s3_client s1) = Ok true) as R2.
  { unfold reports in H2.
    destruct (Hbuckets (world s1)) as (names & E & Hnames).
    rewrite E in H2. rewrite filter_none in H2; [done|].
    eapply Forall_impl; [exact Hnames|]. cbn. congruence. }
  rewrite (bind_run _ _ s1 true R2). cbn [result final emitted].
  set (s2 := final (check_buckets s3_client s1)) in *.
  (* the functions *)
  destruct (check_functions_quiet lambda_client s2) as (_ & Hc3 & _).
  pose proof (check_functions_reports lambda_client s2) as H3.
  assert (result (check_functions lambda_client s2) = Ok true) as R3.
  { unfold reports in H3.
    destruct (Hfunctions (world s2)) as (names & E & Hnames).
    rewrite E in H3. rewrite filter_none in H3; [done|].
    eapply Forall_impl; [exact Hnames|]. cbn. congruence. }
  rewrite (bind_run _ _ s2 true R3). cbn [result final emitted].
  set (s3 := final (check_functions lambda_client s2)) in *.
  (* the database *)
  destruct (check_database_quiet glue_client s3) as (_ & Hc4 & _).
  assert (config s3 !! "database_name" = Some "data_pipeline_db") as Ed3.
  { by rewrite Hc3, Hc2, Hc1. }
  pose proof (check_database_reports glue_client s3 _ Ed3) as H4.
  assert (result (check_database glue_client s3) = Ok true) as R4.
  { unfold reports in H4.
    destruct (Hdatabase (world s3)) as (names & E & Hnames).
    rewrite E in H4. rewrite filter_none in H4; [done|].
    apply Forall_forall. intros name Hin ->. done. }
  rewrite (bind_run _ _ s3 true R4). cbn [result final emitted].
  set (s4 := final (check_database glue_client s3)) in *.
  (* the workgroup *)
  assert (config s4 !! "workgroup_name" = Some "data-pipeline-workgroup")
    as Ew4.
  { by rewrite Hc4, Hc3, Hc2, Hc1. }
  pose proof (check_workgroup_reports athena_client s4 _ Ew4) as H5.
  assert (result (check_workgroup athena_client s4) = Ok true) as R5.
  { unfold reports in H5.
    destruct (Hworkgroup (world s4)) as (names & E & Hnames).
    rewrite E in H5. rewrite filter_none in H5; [done|].
    apply Forall_forall. intros name Hin ->. done. }
  rewrite (bind_run _ _ s4 true R5). reflexivity.
Qed.

End clean_run.

(** X9.  Cleaning an account that holds nothing of the pipeline succeeds:
    when no stack is recorded and no listing shows a bucket, a function, a
    database or a workgroup of the pipeline, [run_cleanup] answers the exit
    status 0, whatever the deletions it attempts on the way answer or
    raise. *)
Theorem clean_account_exits_0 {W : Type}
  (athena_client : AthenaClient W) (s3_client : S3Client W)
  (lambda_client : LambdaClient W) (glue_client : GlueClient W)
  (cf_client : CloudFormationClient W) (subprocess : Subprocess W) (w : W) :
  clean_account athena_client s3_client lambda_client glue_client cf_client ->
  result (cleanup_aws.run_cleanup athena_client s3_client lambda_client
            glue_client cf_client subprocess (cleanup_aws.new w))
  = Ok 0%Z.
Proof.
  intros Hclean.
  destruct (run_cleanup_run athena_client s3_client lambda_client glue_client
              cf_client subprocess (cleanup_aws.new w))
    as (stack_exists & results & Hget & Hres & -> & _).
  destruct (get_stack_resources_from_defaults cf_client w)
    as (_ & Hs & Hw & Hd & _). cbn zeta in *.
  assert (cleanup_aws.config
            (cleanup_aws.at_step_6 athena_client s3_client lambda_client
               glue_client cf_client subprocess (cleanup_aws.new w))
          = cleanup_aws.config
              (final (cleanup_aws.get_stack_resources cf_client
                        (cleanup_aws.new w)))) as Hcfg.
  { unfold cleanup_aws.at_step_6. rewrite Hget.
    destruct (destroy_or_fall_back_total s3_client lambda_client glue_client
                cf_client subprocess stack_exists
                (cleanup_aws.at_step_3 athena_client s3_client cf_client
                   (cleanup_aws.new w))) as (_ & ->).
    apply at_step_3_config. }
  rewrite (verification_of_clean_account athena_client s3_client
             lambda_client glue_client cf_client _ Hclean) in Hres;
    [|by rewrite Hcfg..].
  by injection Hres as <-.
Qed.

Lemma clean_account_exits_0_witness :
  result run_on_clean_account = Ok 0%Z.
Proof.
  apply (clean_account_exits_0 (W:=nat)).
  split; intros w; cbn.
  - right. by eexists.
  - eexists. split; [reflexivity|]. repeat constructor.
  - eexists. split; [reflexivity|]. repeat constructor.
  - eexists. split; [reflexivity|].
    apply not_elem_of_cons. split; [done|apply not_elem_of_nil].
  - eexists. split; [reflexivity|].
    apply not_elem_of_cons. split; [done|apply not_elem_of_nil].
Defined.

(** * The wait for the function, under any client *)

Section waiting.
Context {W : Type} (lambda_client : LambdaClient W).
Import deploy_lambda.

(** One round of the loop. *)
Lemma wait_attempts_step name max_attempts attempt remaining w :
  wait_attempts lambda_client name max_attempts attempt (S remaining) w
  = match get_function lambda_client name w with
    | (Ok state, w') =>
        if String.eqb state "Active" then
          Outcome (Ok true) w'
            [Call (GetFunction name); Print "Lambda function is ready" []]
        else if String.eqb state "Pending" then
          let o := wait_attempts lambda_client name max_attempts (S attempt)
                     remaining w' in
          Outcome (result o) (final o)
            ([Call (GetFunction name);
              Print "Status: {} (attempt {}/{})"
                [AStr state; ANat (attempt + 1); ANat max_attempts];
              Sleep 2] ++ emitted o)
        else
          Outcome (Ok false) w'
            [Call (GetFunction name);
             Print "Unexpected Lambda state: {}" [AStr state]]
    | (Raise e, w') =>
        Outcome (Ok false) w'
          [Call (GetFunction name);
           Print "Error checking Lambda status: {}" [AStr (exn_text e)]]
    end.
Proof.
  cbn [wait_attempts]. unfold try_except, bind at 1, bind at 1, call.
  destruct (get_function lambda_client name w) as [[state|e] w']; [|done].
  destruct (String.eqb state "Active"); [done|].
  destruct (String.eqb state "Pending"); [|done].
  run. by destruct (wait_attempts _ _ _ _ _ _).
Qed.

Lemma wait_attempts_bounded name max_attempts remaining :
  forall attempt w,
  let o := wait_attempts lambda_client name max_attempts attempt remaining w in
  exists slept,
    sleeps (emitted o) = replicate slept 2 /\
    (result o = Ok true <-> poll_results (emitted o) = [Succeeded]) /\
    ((slept = remaining /\ result o = Ok false /\
      status_fetches (emitted o) = replicate remaining (GetFunction name)) \/
     (slept < remaining /\ (exists b, result o = Ok b) /\
      status_fetches (emitted o) = replicate (S slept) (GetFunction name))).
Proof.
  induction remaining as [|remaining IH]; intros attempt w; cbn zeta.
  - exists 0. cbn. split; [done|]. split; [by split|]. by left.
  - rewrite wait_attempts_step.
    destruct (get_function lambda_client name w) as [[state|e] w'].
    + destruct (String.eqb state "Active") eqn:Ea.
      { exists 0. split; [done|]. split; [by split|].
        right. split; [lia|]. split; [by eexists|done]. }
      destruct (String.eqb state "Pending") eqn:Ep.
      * destruct (IH (S attempt) w') as (slept & Hs & Hp & Hf).
        cbn zeta in *. exists (S slept). cbn [result emitted].
        rewrite sleeps_app, poll_results_app, status_fetches_app, Hs.
        split; [done|]. split; [exact Hp|].
        destruct Hf as [(-> & -> & Hf)|(Hlt & Hb & Hf)]; rewrite Hf.
        -- by left.
        -- right. split; [lia|]. done.
      * exists 0. split; [done|].
        split; [by split|].
        right. split; [lia|]. split; [by eexists|done].
    + exists 0. split; [done|]. split; [by split|]. right.
      split; [lia|]. split; [by eexists|done].
Qed.

End waiting.

(** X10.  Whatever the function service answers, the wait for the function
    ends: it never raises, reads the state at most [max_attempts] times
    and sleeps two seconds at a time, only after a read.  Either it has
    used all its attempts, sleeping after each, and answers [False]; or it
    stops at a read that it does not sleep on.  It answers [True] exactly
    when it announces that the function is ready. *)
Theorem wait_for_function_is_bounded {W : Type}
  (lambda_client : LambdaClient W) (function_name : string)
  (max_attempts : nat) (w : W) :
  let o :=
    deploy_lambda.wait_for_function_ready lambda_client function_name
      max_attempts w in
  exists slept,
    sleeps (emitted o) = replicate slept 2 /\
    (result o = Ok true <-> poll_results (emitted o) = [Succeeded]) /\
    ((slept = max_attempts /\ result o = Ok false /\
      status_fetches (emitted o)
      = replicate max_attempts (GetFunction function_name)) \/
     (slept < max_attempts /\ (exists b, result o = Ok b) /\
      status_fetches (emitted o)
      = replicate (S slept) (GetFunction function_name))).
Proof.
  cbn zeta. unfold deploy_lambda.wait_for_function_ready.
  rewrite (bind_run (print "Waiting for Lambda function to be ready..." [])
             _ w tt eq_refl).
  cbn [result final emitted print].
  destruct (wait_attempts_bounded lambda_client function_name max_attempts
              max_attempts 0 w) as (slept & Hs & Hp & Hf).
  exists slept. cbn zeta in *.
  by rewrite sleeps_app, poll_results_app, status_fetches_app.
Qed.

Section failing_reads.
Context (states : nat -> res string).
Import deploy_lambda.

Lemma wait_attempts_pending_reads name max_attempts k :
  forall attempt remaining n,
  (forall j, j < k -> states (n + j) = Ok "Pending") ->
  k <= remaining ->
  exists pre,
    let o := wait_attempts (lambda_script states) name max_attempts
               (attempt + k) (remaining - k) (n + k) in
    wait_attempts (lambda_script states) name max_attempts attempt remaining n
    = Outcome (result o) (final o) (pre ++ emitted o) /\
    calls pre = replicate k (GetFunction name) /\
    sleeps pre = replicate k 2 /\
    poll_results pre = [].
Proof.
  induction k as [|k IH]; intros attempt remaining n Hp Hk.
  - exists []. cbn zeta. rewrite Nat.sub_0_r, !Nat.add_0_r.
    by destruct (wait_attempts _ _ _ _ _ _).
  - destruct remaining as [|remaining]; [lia|].
    pose proof (Hp 0 ltac:(lia)) as H0. rewrite Nat.add_0_r in H0.
    destruct (IH (S attempt) remaining (S n)) as (pre & Heq & H1 & H2 & H3).
    { intros j Hj. replace (S n + j) with (n + S j) by lia. apply Hp. lia. }
    { lia. }
    exists ([Call (GetFunction name);
             Print "Status: {} (attempt {}/{})"
               [AStr "Pending"; ANat (attempt + 1); ANat max_attempts];
             Sleep 2] ++ pre).
    cbn zeta in *. split; [|split; [|split]].
    + rewrite wait_attempts_step.
      cbn [get_function lambda_script]. rewrite H0. cbn [String.eqb].
      cbn zeta. rewrite Heq. cbn [result final emitted].
      replace (attempt + S k) with (S attempt + k) by lia.
      replace (n + S k) with (S n + k) by lia.
      cbn [Nat.sub]. by rewrite <- app_assoc.
    + rewrite calls_app, H1. done.
    + rewrite sleeps_app, H2. done.
    + rewrite poll_results_app, H3. done.
Qed.

End failing_reads.

(** X11.  A read of the function state that raises ends the wait at once:
    after [k] reads that found the function [Pending], a read that raises
    makes the wait answer [False] without sleeping again or reading
    further, and the last line it prints carries the text of the exception.
    Such an end is not announced as one of the outcomes of a poll. *)
Theorem failed_read_ends_the_wait (states : nat -> res string)
  (function_name : string) (max_attempts k : nat) (e : exn) :
  k < max_attempts ->
  (forall j, j < k -> states j = Ok "Pending") ->
  states k = Raise e ->
  let o :=
    deploy_lambda.wait_for_function_ready (lambda_script states) function_name
      max_attempts 0 in
  result o = Ok false /\
  calls (emitted o) = replicate (S k) (GetFunction function_name) /\
  sleeps (emitted o) = replicate k 2 /\
  last (emitted o)
  = Some (Print "Error checking Lambda status: {}" [AStr (exn_text e)]) /\
  poll_results (emitted o) = [].
Proof.
  intros Hk Hp He. cbn zeta.
  destruct (wait_attempts_pending_reads states function_name max_attempts k
              0 max_attempts 0) as (pre & Heq & H1 & H2 & H3); [done|lia|].
  cbn zeta in *.
  unfold deploy_lambda.wait_for_function_ready.
  rewrite (bind_run (print "Waiting for Lambda function to be ready..." [])
             _ 0 tt eq_refl).
  cbn [result final emitted print]. rewrite Heq. clear Heq.
  destruct (max_attempts - k) as [|m] eqn:E; [lia|].
  rewrite wait_attempts_step. cbn [get_function lambda_script Nat.add].
  rewrite He. cbn [result emitted].
  rewrite !calls_app, !sleeps_app, !poll_results_app, H1, H2, H3.
  split; [done|].
  split; [exact (replicate_snoc _ _)|].
  split; [apply app_nil_r|]. split; [|done].
  replace (pre ++ [Call (GetFunction function_name);
                   Print "Error checking Lambda status: {}"
                     [AStr (exn_text e)]])
    with ((pre ++ [Call (GetFunction function_name)])
          ++ [Print "Error checking Lambda status: {}" [AStr (exn_text e)]])
    by (by rewrite <- app_assoc).
  rewrite app_assoc. apply last_snoc.
Qed.

Lemma failed_read_ends_the_wait_witness :
  result waiting_for_throttled_function = Ok false /\
  calls (emitted waiting_for_throttled_function)
  = [GetFunction "data-pipeline-data-extractor";
     GetFunction "data-pipeline-data-extractor"] /\
  sleeps (emitted waiting_for_throttled_function) = [2] /\
  last (emitted waiting_for_throttled_function)
  = Some (Print "Error checking Lambda status: {}"
            [AStr "TooManyRequestsException"]) /\
  poll_results (emitted waiting_for_throttled_function) = [].
Proof.
  apply (failed_read_ends_the_wait throttled_after_one_read
           "data-pipeline-data-extractor" 30 1
           (Exn ClientError "TooManyRequestsException")).
  - repeat constructor.
  - intros [|j] Hj; [reflexivity|].
    exfalso. inversion Hj as [|? Hj']. inversion Hj'.
  - reflexivity.
Defined.

(** * The query test, under any client *)

Section maintaining.
Context {S : Type} (P : S -> Prop).

Lemma maintains_ret {A} (a : A) : maintains P (ret (S:=S) a).
Proof. by intros s. Qed.

Lemma maintains_print template args :
  maintains P (print (S:=S) template args).
Proof. by intros s. Qed.

Lemma maintains_sleep n : maintains P (sleep (S:=S) n).
Proof. by intros s. Qed.

Lemma maintains_bind {A B} (m : M S A) (k : A -> M S B) :
  maintains P m -> (forall a, maintains P (k a)) -> maintains P (bind m k).
Proof.
  intros Hm Hk s Hs. unfold bind. specialize (Hm s Hs).
  destruct (m s) as [[a|e] s1 tr1]; cbn in *; [|done].
  specialize (Hk a s1 Hm). by destruct (k a s1).
Qed.

Lemma maintains_keeps {A T} (f : S -> T) (m : M S A) :
  (forall s s', f s' = f s -> P s -> P s') -> keeps f m -> maintains P m.
Proof. intros HP Hk s Hs. by apply (HP s), Hs. Qed.

End maintaining.

Section any_athena.
Context {W : Type} (athena_client : AthenaClient W).
Import test_pipeline.

Lemma failed_by_flag (fr fr' : frame W) :
  all_queries_passed fr' = all_queries_passed fr -> failed fr -> failed fr'.
Proof. unfold failed. congruence. Qed.

Lemma fail_query_fails : maintains failed (fail_query (W:=W)).
Proof. by intros fr _. Qed.

(** One round of the loop. *)
Lemma wait_for_query_step q id attempts (fr : frame W) :
  wait_for_query athena_client q id (S attempts) fr
  = match get_query_execution athena_client id (world fr) with
    | (Raise e, w') =>
        Outcome (Raise e)
          (Frame w' (all_queries_passed fr) (query_executions fr))
          [Call (GetQueryExecution id)]
    | (Ok status, w') =>
        let fr' := Frame w' (all_queries_passed fr) (query_executions fr) in
        if String.eqb (State status) "SUCCEEDED" then
          let o := show_results athena_client q id fr' in
          Outcome (result o) (final o)
            ([Call (GetQueryExecution id); Print "Status: SUCCESS" []]
             ++ emitted o)
        else if String.eqb (State status) "FAILED" then
          Outcome (Ok tt) (Frame w' false (query_executions fr))
            [Call (GetQueryExecution id);
             Print "Status: FAILED - {}"
               [AStr (default "Unknown error" (StateChangeReason status))]]
        else if String.eqb (State status) "CANCELLED" then
          Outcome (Ok tt) (Frame w' false (query_executions fr))
            [Call (GetQueryExecution id); Print "Status: CANCELLED" []]
        else
          let o := wait_for_query athena_client q id attempts fr' in
          Outcome (result o) (final o)
            ([Call (GetQueryExecution id); Sleep 2] ++ emitted o)
    end.
Proof.
  cbn [wait_for_query]. unfold bind at 1, aws.
  destruct (get_query_execution athena_client id (world fr))
    as [[status|e] w']; [|done].
  destruct (String.eqb (State status) "SUCCEEDED").
  { unfold bind, print. cbn zeta. by destruct (show_results _ _ _ _). }
  destruct (String.eqb (State status) "FAILED"); [done|].
  destruct (String.eqb (State status) "CANCELLED"); [done|].
  unfold bind, sleep. cbn zeta. by destruct (wait_for_query _ _ _ _ _).
Qed.

Lemma wait_for_query_stays_failed q id attempts :
  maintains failed (wait_for_query athena_client q id attempts).
Proof.
  induction attempts as [|attempts IH]; intros fr Hfr.
  - done.
  - rewrite wait_for_query_step.
    destruct (get_query_execution athena_client id (world fr))
      as [[status|e] w']; [|done].
    cbn zeta.
    destruct (String.eqb (State status) "SUCCEEDED").
    { cbn [final]. unfold failed.
      by rewrite (show_results_keeps_flag athena_client q id _). }
    destruct (String.eqb (State status) "FAILED"); [done|].
    destruct (String.eqb (State status) "CANCELLED"); [done|].
    cbn [final]. by apply IH.
Qed.

Lemma wait_for_query_reads q id attempts : forall fr : frame W,
  length (status_fetches
            (emitted (wait_for_query athena_client q id attempts fr)))
  <= attempts.
Proof.
  induction attempts as [|attempts IH]; intros fr.
  - cbn. lia.
  - rewrite wait_for_query_step.
    destruct (get_query_execution athena_client id (world fr))
      as [[status|e] w']; [|cbn; lia].
    cbn zeta.
    destruct (String.eqb (State status) "SUCCEEDED").
    { cbn [emitted]. rewrite status_fetches_app.
      destruct (show_results_silent athena_client q id
                  (Frame w' (all_queries_passed fr) (query_executions fr)))
        as (_ & -> & _).
      cbn. lia. }
    destruct (String.eqb (State status) "FAILED"); [cbn; lia|].
    destruct (String.eqb (State status) "CANCELLED"); [cbn; lia|].
    cbn [emitted]. rewrite status_fetches_app, length_app.
    specialize (IH (Frame w' (all_queries_passed fr) (query_executions fr))).
    cbn. lia.
Qed.

(** One query of the loop. *)
Lemma run_query_step workgroup results_bucket i q (fr : frame W) :
  let location := result_location results_bucket q in
  let heading :=
    Print "Query {}: {} ({})" [ANat i; AStr (description q); AStr (name q)] in
  let submission := StartQueryExecution (sql q) workgroup location in
  run_query athena_client workgroup results_bucket (i, q) fr
  = match start_query_execution athena_client (sql q) workgroup location
            (world fr) with
    | (Raise e, w') =>
        Outcome (Ok tt) (Frame w' false (query_executions fr))
          [heading; Call submission;
           Print "Status: ERROR - {}" [AStr (exn_text e)]]
    | (Ok id, w') =>
        let o :=
          wait_for_query athena_client q id 30
            (Frame w' (all_queries_passed fr)
               (query_executions fr ++ [QueryExecution id q])) in
        match result o with
        | Ok _ =>
            Outcome (Ok tt) (final o)
              ([heading; Call submission; Print "Execution ID: {}" [AStr id]]
               ++ emitted o)
        | Raise e =>
            Outcome (Ok tt)
              (Frame (world (final o)) false (query_executions (final o)))
              ([heading; Call submission; Print "Execution ID: {}" [AStr id]]
               ++ emitted o
               ++ [Print "Status: ERROR - {}" [AStr (exn_text e)]])
        end
    end.
Proof.
  cbn zeta. unfold run_query, result_location.
  cbn [fst snd]. unfold bind at 1, print at 1, try_except, bind at 1, aws.
  destruct (start_query_execution athena_client (sql q) workgroup _
              (world fr)) as [[id|e] w']; [|done].
  unfold bind, print, append_execution.
  cbn [world all_queries_passed query_executions].
  destruct (wait_for_query athena_client q id 30 _) as [[[]|e] fr' tr];
    cbn; by rewrite ?app_nil_r.
Qed.

Lemma run_query_any workgroup results_bucket i q (fr : frame W) :
  let o := run_query athena_client workgroup results_bucket (i, q) fr in
  result o = Ok tt /\
  submissions (emitted o)
  = [StartQueryExecution (sql q) workgroup
       (result_location results_bucket q)] /\
  length (status_fetches (emitted o)) <= 30 /\
  (failed fr -> failed (final o)) /\
  (failed (final o) \/
   exists id,
     query_executions (final o)
     = query_executions fr ++ [QueryExecution id q]) /\
  query_segment workgroup results_bucket 30 (i, q) (emitted o).
Proof.
  cbn zeta. rewrite run_query_step. cbn zeta. unfold query_segment.
  destruct (start_query_execution athena_client (sql q) workgroup _
              (world fr)) as [[id|e] w'].
  2: { cbn [result final emitted]. split; [done|]. split; [done|].
       split; [cbn; lia|]. split; [done|]. split; [by left|].
       eexists. split; [reflexivity|]. split; [done|]. cbn. lia. }
  set (fr1 := Frame w' (all_queries_passed fr)
                (query_executions fr ++ [QueryExecution id q])).
  pose proof (wait_for_query_submits_nothing athena_client q id 30 fr1) as Hs.
  pose proof (wait_for_query_keeps_executions athena_client q id 30 fr1)
    as Hk.
  pose proof (wait_for_query_reads q id 30 fr1) as Hreads.
  pose proof (wait_for_query_stays_failed q id 30 fr1) as Hfailed.
  cbn beta in Hs.
  destruct (wait_for_query athena_client q id 30 fr1) as [[[]|e] fr' tr];
    cbn [result final emitted query_executions] in *.
  - rewrite submissions_app, status_fetches_app, Hs.
    split; [done|]. split; [done|]. split; [exact Hreads|].
    split; [exact Hfailed|].
    split; [right; exists id; by rewrite Hk|].
    eexists. split; [reflexivity|]. split; [exact Hs|exact Hreads].
  - rewrite submissions_app, status_fetches_app, submissions_app,
      status_fetches_app, Hs, length_app, length_app.
    split; [done|]. split; [done|]. split; [cbn; lia|]. split; [done|].
    split; [by left|].
    exists (Print "Execution ID: {}" [AStr id]
            :: tr ++ [Print "Status: ERROR - {}" [AStr (exn_text e)]]).
    split; [reflexivity|]. split.
    + change (submissions
                (tr ++ [Print "Status: ERROR - {}" [AStr (exn_text e)]])
              = []).
      by rewrite submissions_app, Hs.
    + change (length
                (status_fetches
                   (tr ++ [Print "Status: ERROR - {}" [AStr (exn_text e)]]))
              <= 30).
      rewrite status_fetches_app, length_app. cbn. lia.
Qed.

Lemma run_queries_any workgroup results_bucket qs : forall i (fr : frame W),
  let o := for_each (zip (seq i (length qs)) qs)
             (run_query athena_client workgroup results_bucket) fr in
  result o = Ok tt /\
  submissions (emitted o)
  = map (fun q => StartQueryExecution (sql q) workgroup
                    (result_location results_bucket q)) qs /\
  length (status_fetches (emitted o)) <= 30 * length qs /\
  (failed fr -> failed (final o)) /\
  (failed (final o) \/
   exists ids,
     length ids = length qs /\
     query_executions (final o) = query_executions fr ++ executions_of ids qs)
  /\
  exists segments,
    emitted o = concat segments /\
    Forall2 (query_segment workgroup results_bucket 30)
      (zip (seq i (length qs)) qs) segments.
Proof.
  induction qs as [|q qs IH]; intros i fr; cbn zeta.
  - cbn. split; [done|]. split; [done|]. split; [lia|]. split; [done|].
    split; [right; exists []; by rewrite app_nil_r|].
    exists []. split; [done|constructor].
  - cbn [length seq zip zip_with for_each map].
    destruct (run_query_any workgroup results_bucket i q fr)
      as (Hr & Hs & Hreads & Hfailed & Hexecs & Hsegment).
    cbn zeta in *. rewrite (bind_run _ _ _ tt Hr).
    cbn [result final emitted].
    set (fr1 := final (run_query athena_client workgroup results_bucket
                         (i, q) fr)) in *.
    destruct (IH (S i) fr1)
      as (Hr' & Hs' & Hreads' & Hfailed' & Hexecs' & segments & Hcat & Hall).
    cbn zeta in *. fold (zip (seq (S i) (length qs)) qs) in *.
    rewrite submissions_app, status_fetches_app, length_app, Hs, Hs'.
    split; [done|]. split; [done|]. split; [lia|]. split; [by auto|].
    split.
    + destruct Hexecs as [Hfail|[id Hid]]; [left; by auto|].
      destruct Hexecs' as [Hfail|(ids & Hlen & Hids)]; [by left|].
      right. exists (id :: ids). split; [cbn; by rewrite Hlen|].
      rewrite Hids, Hid, <- app_assoc. done.
    + eexists (_ :: segments). split; [cbn [concat]; by rewrite Hcat|].
      by constructor.
Qed.

Lemma mapping_report_any results_bucket (fr : frame W) :
  let o :=
    (if all_queries_passed fr then
       print "All Athena queries completed successfully" [] ;;
       print "Query Execution ID Mapping:" [] ;;
       for_each (query_executions fr) (fun exec_info =>
         let exec_id := execution_id exec_info in
         let query_info := query_info exec_info in
         print "{}: {}" [AStr (description query_info); AStr exec_id] ;;
         print "CSV: s3://{}/query-results/{}.csv"
               [AStr results_bucket; AStr exec_id] ;;
         print "Metadata: s3://{}/query-results/{}.csv.metadata"
               [AStr results_bucket; AStr exec_id])
     else
       print "Some Athena queries failed" []) fr in
  result o = Ok tt /\ final o = fr /\
  submissions (emitted o) = [] /\ status_fetches (emitted o) = [].
Proof.
  cbn zeta.
  match goal with
  | |- result (?m fr) = _ /\ _ =>
      assert (total m /\ keeps (fun fr => fr) m
              /\ emits (fun tr => submissions tr = []) m
              /\ emits (fun tr => status_fetches tr = []) m)
        as (Ht & Hk & He & He')
  end.
  { pose proof (omap_nil_additive
                  (fun e => match e with
                            | Call r =>
                                if is_status_fetch r then Some r else None
                            | _ => None
                            end)) as Hadd.
    destruct (all_queries_passed fr); (split; [|split; [|split]]).
    - walk ltac:(first [ apply total_print | apply total_for_each; intros
                       | apply total_bind; [|intros] ]).
    - walk ltac:(first [ apply keeps_print | apply keeps_for_each; intros
                       | apply keeps_bind; [|intros] ]).
    - walk ltac:(first [ apply emits_print; reflexivity
                       | apply emits_for_each; [apply _|intros]
                       | apply emits_bind; [apply _| |intros] ]).
    - walk ltac:(first [ apply emits_print; reflexivity
                       | apply emits_for_each; [exact Hadd|intros]
                       | apply emits_bind; [exact Hadd| |intros] ]).
    - apply total_print.
    - apply keeps_print.
    - by apply emits_print.
    - by apply emits_print. }
  destruct (Ht fr) as [[] Hr]. split; [done|].
  split; [apply Hk|]. split; [apply He|apply He'].
Qed.

End any_athena.

(** X12.  Whatever the query service answers or raises, the query test
    ends without raising.  After its first line its trace is made of one
    segment for each of the three queries, in order, and a report.  The
    segment of a query starts with its heading and its submission, with
    its own result location, and holds no other submission and at most
    thirty status reads; the report holds neither.  So the three queries
    are submitted in order and no more than thirty status reads are made
    for a query, ninety in all.  When the flag answered is [True] the
    records answered are those of three executions, paired in order with
    the three queries. *)
Theorem query_test_under_any_service {W : Type}
  (athena_client : AthenaClient W)
  (timestamp workgroup database_name table_name results_bucket : string)
  (w : W) :
  let qs := test_pipeline.queries timestamp database_name table_name in
  let o :=
    test_pipeline.test_athena_query athena_client timestamp workgroup
      database_name table_name results_bucket w in
  (exists segments report,
     emitted o
     = Print "Testing Athena queries" [] :: concat segments ++ report /\
     Forall2 (query_segment workgroup results_bucket 30)
       (test_pipeline.enumerate qs 1) segments /\
     submissions report = [] /\ status_fetches report = []) /\
  submissions (emitted o)
  = map (fun q => StartQueryExecution (test_pipeline.sql q) workgroup
                    (result_location results_bucket q)) qs /\
  length (status_fetches (emitted o)) <= 90 /\
  exists flag execs,
    result o = Ok (flag, execs) /\
    (flag = true ->
     exists id0 id1 id2, execs = executions_of [id0; id1; id2] qs).
Proof.
  cbn zeta. unfold test_pipeline.test_athena_query.
  cbn [result final emitted].
  set (qs := test_pipeline.queries timestamp database_name table_name).
  rewrite (bind_run (print "Testing Athena queries" []) _ _ tt eq_refl).
  cbn [result final emitted print].
  destruct (run_queries_any athena_client workgroup results_bucket qs 1
              (test_pipeline.Frame w true []))
    as (Hr & Hs & Hreads & _ & Hexecs & segments & Hcat & Hall).
  cbn zeta in *. fold (test_pipeline.enumerate qs 1) in *.
  rewrite (bind_run _ _ _ tt Hr). cbn [result final emitted].
  match goal with
  | |- context [for_each (test_pipeline.enumerate qs 1) ?body ?s0] =>
      set (looped := for_each (test_pipeline.enumerate qs 1) body s0) in *
  end.
  destruct (mapping_report_any results_bucket (final looped))
    as (Hr' & Hf' & Hs' & Hreads').
  cbn zeta in *. split.
  { eexists segments, _. rewrite Hcat. cbn [app].
    split; [reflexivity|]. split; [exact Hall|]. by split. }
  rewrite Hr', Hf', !submissions_app, !status_fetches_app, Hs, Hs', Hreads'.
  cbn [app]. rewrite !app_nil_r.
  split; [done|]. split; [exact Hreads|].
  eexists _, _. split; [reflexivity|]. intros Hflag.
  destruct Hexecs as [Hfail|(ids & Hlen & Hids)].
  { unfold failed in Hfail. congruence. }
  destruct ids as [|id0 [|id1 [|id2 [|id3 ids]]]]; try discriminate Hlen.
  exists id0, id1, id2. exact Hids.
Qed.

(** * Sessions *)

Lemma bind_after {S A B} (m : M S A) (k : A -> M S B) s a :
  result (m s) = Ok a ->
  bind m k s = after (emitted (m s)) (k a (final (m s))).
Proof.
  intros H. unfold bind, after. destruct (m s) as [r s1 tr1]. cbn in *.
  subst r. by destruct (k a s1).
Qed.

Lemma bind_raise {S A B} (m : M S A) (k : A -> M S B) s e :
  result (m s) = Raise e ->
  bind m k s = Outcome (Raise e) (final (m s)) (emitted (m s)).
Proof.
  intros H. unfold bind. destruct (m s) as [r s1 tr1]. cbn in *. by subst r.
Qed.

Lemma after_after {S A} tr1 tr2 (o : outcome S A) :
  after tr1 (after tr2 o) = after (tr1 ++ tr2) o.
Proof. unfold after. cbn. by rewrite app_assoc. Qed.

Ltac run_session :=
  unfold through, zoom, ask, of_res, try_except, bind, call, print, sleep,
    ret, raise; cbn.

Lemma through_run {W A} (m : M W A) (s : session W) :
  through m s
  = Outcome (result (m (remote s)))
      (Session (final (m (remote s))) (journal s))
      (emitted (m (remote s))).
Proof. unfold through, zoom. by destruct (m (remote s)). Qed.

Lemma for_each_prints {S A} (xs : list A) (line : A -> event)
  (body : A -> M S unit) (s : S) :
  (forall x s, body x s = Outcome (Ok tt) s [line x]) ->
  for_each xs body s = Outcome (Ok tt) s (map line xs).
Proof.
  intros Hbody. induction xs as [|x xs IH]; [done|].
  cbn [for_each map]. unfold bind. by rewrite Hbody, IH.
Qed.

(** X13.  [get_lambda_function_name] reads the deployment record once and
    never raises.  It answers the value of the first output named
    [LambdaFunctionName] of the first stack listed, and [None] when there
    is no such output, when the stack has no outputs, when no stack is
    listed and when the read raises. *)
Theorem first_function_name_wins {W : Type}
  (cf_client : CloudFormationClient W) (w : W) :
  let o := lambda_deployment.get_lambda_function_name cf_client w in
  calls (emitted o) = [DescribeStacks "DataPipelineStack"] /\
  result o
  = Ok (match (describe_stacks cf_client "DataPipelineStack" w).1 with
        | Ok (stack :: _) =>
            outputs ← Outputs stack;
            first_output "LambdaFunctionName" outputs
        | _ => None
        end).
Proof.
  cbn zeta.
  assert (forall outputs (w' : W),
            calls (emitted (lambda_deployment.find_function_name outputs w'))
            = [] /\
            result (lambda_deployment.find_function_name outputs w')
            = Ok (first_output "LambdaFunctionName" outputs)) as Hfind.
  { intros outputs w'. unfold first_output.
    induction outputs as [|[key value] outputs IH]; [done|].
    cbn [lambda_deployment.find_function_name omap list_omap fst snd].
    destruct (String.eqb key "LambdaFunctionName"); [done|]. exact IH. }
  unfold lambda_deployment.get_lambda_function_name,
    lambda_deployment.outputs_of.
  unfold try_except, bind, print, call, ret, raise.
  destruct (describe_stacks cf_client "DataPipelineStack" w)
    as [[[|stack stacks]|e] w']; cbn [fst]; [done| |done].
  destruct (Outputs stack) as [outputs|]; [|done].
  destruct (Hfind outputs w') as [Hc Hr].
  destruct (lambda_deployment.find_function_name outputs w') as [r s tr].
  cbn [result emitted] in *. subst r. cbn [mbind option_bind].
  split; [|done]. cbn [app emitted].
  change (DescribeStacks "DataPipelineStack" :: calls tr
          = [DescribeStacks "DataPipelineStack"]).
  by rewrite Hc.
Qed.

Section tests.
Context {W : Type}.
Context (lambda_client : Invoker W) (s3_client : ObjectLister W)
  (catalog : Catalog W).
Import pipeline_tests.

Lemma take_length_min {A} (l : list A) n :
  length (take n l) = n `min` length l.
Proof. apply length_take. Qed.

End tests.

(** X14.  [test_lambda_function] invokes the function once, with the
    bucket name as payload, and never raises.  It answers [True] exactly
    when the invocation is answered with status code 200 and a payload
    that can be read: the payload is read before the status is looked at,
    so that an unreadable payload makes the test fail whatever the
    status. *)
Theorem lambda_test_verdict {W : Type} (lambda_client : Invoker W)
  (function_name bucket_name : string) (s : session W) :
  let o :=
    pipeline_tests.test_lambda_function lambda_client function_name
      bucket_name s in
  journal (final o) = journal s ++ [Invoke function_name bucket_name] /\
  result o
  = Ok (match (invoke lambda_client function_name bucket_name (remote s)).1
        with
        | Ok response =>
            match Payload response with
            | Ok _ => StatusCode response =? 200
            | Raise _ => false
            end
        | Raise _ => false
        end).
Proof.
  cbn zeta. unfold pipeline_tests.test_lambda_function. run_session.
  destruct (invoke lambda_client function_name bucket_name (remote s))
    as [[[code [payload|e]]|e] w']; cbn; try done.
  by destruct (code =? 200).
Qed.

(** X15.  [check_s3_data] lists the objects under [raw-data/] of the
    bucket once and never raises.  It answers [True] exactly when the
    listing comes back with at least one object; it then prints the number
    of objects listed and a line for each of the first five, and for no
    other. *)
Theorem s3_check_shows_five_objects {W : Type} (s3_client : ObjectLister W)
  (bucket_name : string) (s : session W) :
  let o := pipeline_tests.check_s3_data s3_client bucket_name s in
  journal (final o) = journal s ++ [ListObjectsV2 bucket_name "raw-data/"] /\
  match (list_objects_v2 s3_client bucket_name "raw-data/" (remote s)).1 with
  | Ok response =>
      let contents := default [] (Contents response) in
      result o = Ok (bool_decide (contents <> [])) /\
      (contents <> [] ->
       emitted o
       = [Print "Checking S3 bucket: {}" [AStr bucket_name];
          Print "Found {} objects in S3" [ANat (length contents)]]
         ++ map object_line (take 5 contents))
  | Raise _ => result o = Ok false
  end.
Proof.
  cbn zeta. unfold pipeline_tests.check_s3_data.
  unfold try_except, bind, print, ask, ret.
  destruct (list_objects_v2 s3_client bucket_name "raw-data/" (remote s))
    as [[[[[|obj contents]|]]|e] w']; cbn [fst Contents default];
    [done| |done..].
  cbn [length Nat.ltb Nat.leb].
  rewrite (for_each_prints _ object_line) by done.
  rewrite bool_decide_eq_true_2 by done. cbn [result final emitted journal].
  split; [done|]. split; [done|]. intros _. by rewrite app_nil_r.
Qed.

(** X16.  [check_glue_tables] reads the tables of the database once and
    never raises.  It answers [True] exactly when the catalog lists at
    least one table; it then prints the number of tables and a line for
    every one of them. *)
Theorem catalog_check_shows_every_table {W : Type} (catalog : Catalog W)
  (database_name : string) (s : session W) :
  let o := pipeline_tests.check_glue_tables catalog database_name s in
  journal (final o) = journal s ++ [GetTables database_name] /\
  match (get_tables catalog database_name (remote s)).1 with
  | Ok response =>
      let tables := default [] response in
      result o = Ok (bool_decide (tables <> [])) /\
      (tables <> [] ->
       emitted o
       = [Print "Checking Glue tables in database: {}" [AStr database_name];
          Print "Found {} table(s)" [ANat (length tables)]]
         ++ map table_line tables)
  | Raise _ => result o = Ok false
  end.
Proof.
  cbn zeta. unfold pipeline_tests.check_glue_tables.
  unfold try_except, bind, print, ask, ret.
  destruct (get_tables catalog database_name (remote s))
    as [[[[|t tables]|]|e] w']; cbn [fst default from_option id];
    [done| |done..].
  rewrite (for_each_prints _ table_line) by done.
  rewrite bool_decide_eq_true_2 by done. cbn [result final emitted journal].
  split; [done|]. split; [done|]. intros _. by rewrite app_nil_r.
Qed.

(** * [main] of the test script *)

Section session_rules.
Context {W : Type}.

Lemma emits_ask {A} Q `{!Additive Q} r (f : op W A) : emits Q (ask r f).
Proof. intros s. unfold ask. destruct (f (remote s)). apply additive_nil. Qed.

Lemma emits_through {A} Q (m : M W A) : emits Q m -> emits Q (through m).
Proof. intros H s. rewrite through_run. apply H. Qed.

Lemma emits_of_res {S A} Q `{!Additive Q} (x : res A) :
  emits (S:=S) Q (of_res x).
Proof. destruct x; [apply emits_ret | apply emits_raise]; done. Qed.

Lemma total_through {A} (m : M W A) : total m -> total (through m).
Proof. intros H s. rewrite through_run. apply H. Qed.

Lemma keeps_journal_through {A} (m : M W A) : keeps journal (through m).
Proof. intros s. by rewrite through_run. Qed.

Lemma enters_ret {A} (a : A) : enters (W:=W) (ret a) [].
Proof. intros s. split; [by eexists|]. by rewrite app_nil_r. Qed.

Lemma enters_print template args : enters (W:=W) (print template args) [].
Proof. intros s. split; [by eexists|]. by rewrite app_nil_r. Qed.

Lemma enters_sleep n : enters (W:=W) (sleep n) [].
Proof. intros s. split; [by eexists|]. by rewrite app_nil_r. Qed.

Lemma enters_bind {A B} (m : M (session W) A) (k : A -> M (session W) B)
  rs1 rs2 :
  enters m rs1 -> (forall a, enters (k a) rs2) -> enters (bind m k) (rs1 ++ rs2).
Proof.
  intros Hm Hk s. unfold bind. destruct (Hm s) as ([a Ha] & Hj).
  destruct (m s) as [r s1 tr1]. cbn in *. subst r.
  destruct (Hk a s1) as ([b Hb] & Hj'). destruct (k a s1) as [r s2 tr2].
  cbn in *. subst r. split; [by eexists|]. by rewrite Hj', Hj, app_assoc.
Qed.

Lemma enters_through {A} (m : M W A) : total m -> enters (through m) [].
Proof.
  intros H s. rewrite through_run. cbn. split; [apply H|].
  by rewrite app_nil_r.
Qed.

Lemma enters_for_each {A} (xs : list A) (body : A -> M (session W) unit) :
  (forall x, enters (body x) []) -> enters (for_each xs body) [].
Proof.
  intros H. induction xs as [|x xs IH]; [apply enters_ret|].
  cbn [for_each]. apply (enters_bind _ _ [] []); [apply H|]. by intros _.
Qed.

(** A guarded request: the request is made first, and neither what
    follows it nor the handler makes another. *)
Lemma enters_guarded {A B} r (f : op W A) (k : A -> M (session W) B) h :
  (forall a, keeps journal (k a)) ->
  (forall e, enters (h e) []) ->
  enters (try_except (bind (ask r f) k) h) [r].
Proof.
  intros Hk Hh s. unfold try_except, bind, ask.
  destruct (f (remote s)) as [[a|e] w'].
  - specialize (Hk a (Session w' (journal s ++ [r]))).
    destruct (k a _) as [[b|e] s2 tr2]; cbn in *.
    + split; [by eexists|done].
    + destruct (Hh e s2) as ([b Hb] & Hj). destruct (h e s2) as [r' s3 tr3].
      cbn in *. subst r'. split; [by eexists|].
      by rewrite Hj, Hk, app_nil_r.
  - destruct (Hh e (Session w' (journal s ++ [r]))) as ([b Hb] & Hj).
    destruct (h e _) as [r' s3 tr3]. cbn in *. subst r'.
    split; [by eexists|]. by rewrite Hj, app_nil_r.
Qed.

End session_rules.

Ltac same_journal :=
  walk ltac:(first
    [ apply keeps_ret
    | apply keeps_raise
    | apply keeps_bind; [|intros]
    | apply keeps_try; [|intros]
    | apply keeps_print
    | apply keeps_sleep
    | apply keeps_journal_through
    | apply keeps_for_each; intros
    | (by destruct (Payload _)) ]).

Ltac enters_nothing :=
  walk ltac:(first
    [ apply enters_ret
    | apply enters_print
    | apply enters_sleep
    | apply (enters_bind _ _ [] []); [|intros] ]).

Section test_stages.
Context {W : Type}.
Context (lambda_client : Invoker W) (s3_client : ObjectLister W)
  (glue_client : GlueClient W) (catalog : Catalog W)
  (athena_client : AthenaClient W) (cf_client : CloudFormationClient W).
Import pipeline_tests.

Lemma keeps_of_res {S A T} (f : S -> T) (x : res A) : keeps f (of_res x).
Proof. destruct x; [apply keeps_ret | apply keeps_raise]. Qed.

Lemma test_lambda_function_enters function_name bucket_name :
  enters (test_lambda_function lambda_client function_name bucket_name)
    [Invoke function_name bucket_name].
Proof.
  unfold test_lambda_function.
  apply (enters_bind _ _ [] [_]); [apply enters_print|intros _].
  apply enters_guarded; [intros response|intros e; enters_nothing].
  apply keeps_bind; [apply keeps_of_res|intros payload].
  destruct (StatusCode response =? 200); same_journal.
Qed.

Lemma check_s3_data_enters bucket_name :
  enters (check_s3_data s3_client bucket_name)
    [ListObjectsV2 bucket_name "raw-data/"].
Proof.
  unfold check_s3_data.
  apply (enters_bind _ _ [] [_]); [apply enters_print|intros _].
  apply enters_guarded; [intros response|intros e; enters_nothing].
  same_journal.
Qed.

Lemma check_glue_tables_enters database_name :
  enters (check_glue_tables catalog database_name) [GetTables database_name].
Proof.
  unfold check_glue_tables.
  apply (enters_bind _ _ [] [_]); [apply enters_print|intros _].
  apply enters_guarded; [intros response|intros e; enters_nothing].
  cbn zeta. same_journal.
Qed.

End test_stages.

Section outputs.
Context {W : Type} (cf_client : CloudFormationClient W).
Import test_pipeline.

Lemma get_stack_outputs_run (w : W) :
  get_stack_outputs cf_client w
  = match describe_stacks cf_client "DataPipelineStack" w with
    | (Ok (stack :: _), w') =>
        match Outputs stack with
        | Some outputs =>
            Outcome (Ok (Some (foldl extract_output default_outputs outputs)))
              w' [Call (DescribeStacks "DataPipelineStack")]
        | None =>
            Outcome (Ok None) w'
              [Call (DescribeStacks "DataPipelineStack");
               Print "Could not get stack outputs: {}" [AStr "Outputs"];
               Print "Make sure the DataPipelineStack is deployed" []]
        end
    | (Ok [], w') =>
        Outcome (Ok None) w'
          [Call (DescribeStacks "DataPipelineStack");
           Print "Could not get stack outputs: {}"
             [AStr "list index out of range"];
           Print "Make sure the DataPipelineStack is deployed" []]
    | (Raise e, w') =>
        Outcome (Ok None) w'
          [Call (DescribeStacks "DataPipelineStack");
           Print "Could not get stack outputs: {}" [AStr (exn_text e)];
           Print "Make sure the DataPipelineStack is deployed" []]
    end.
Proof.
  unfold get_stack_outputs. run.
  destruct (describe_stacks cf_client "DataPipelineStack" w)
    as [[[|stack stacks]|e] w']; cbn; [done| |done].
  by destruct (Outputs stack).
Qed.

Lemma extract_output_other key value cfg k output_key :
  (k, output_key) ∈ required_outputs ->
  key <> output_key ->
  extract_output cfg (key, value) !! k = cfg !! k.
Proof.
  intros Hin Hne. unfold extract_output. cbn [fst snd].
  unfold required_outputs in Hin.
  repeat (apply elem_of_cons in Hin as [[= -> ->]|Hin]);
    [..|by apply elem_of_nil in Hin];
    repeat case_match; try done;
    repeat match goal with
           | H : String.eqb _ _ = true |- _ => apply String.eqb_eq in H
           end; subst; by simplify_map_eq.
Qed.

Lemma extract_outputs_missing outputs : forall cfg k output_key,
  (k, output_key) ∈ required_outputs ->
  output_key ∉ outputs.*1 ->
  foldl extract_output cfg outputs !! k = cfg !! k.
Proof.
  induction outputs as [|[key value] outputs IH];
    intros cfg k output_key Hin Hout; [done|].
  cbn [foldl]. cbn in Hout. apply not_elem_of_cons in Hout as [Hne Hout].
  rewrite (IH _ k output_key Hin Hout).
  by apply (extract_output_other _ _ _ _ output_key).
Qed.

Lemma extracted_outputs_not_empty outputs :
  foldl extract_output default_outputs outputs ≠ ∅.
Proof.
  intros H.
  assert (foldl extract_output default_outputs outputs
          !! "glue_database_name" = Some "data_pipeline_db") as E.
  { by rewrite extract_outputs_keep_defaults. }
  by rewrite H in E.
Qed.

End outputs.

(** X17.  Without a complete configuration [main] of the test script runs
    no test.  When the read of the deployment record fails, lists no stack
    or no outputs, or lacks one of the outputs [LambdaFunctionName],
    [DataBucketName] and [AthenaResultsBucketName], [main] returns after
    that read: it makes no other call, enters no request in the journal
    and does not sleep. *)
Theorem no_test_without_configuration {W : Type}
  (lambda_client : Invoker W) (s3_client : ObjectLister W)
  (glue_client : GlueClient W) (catalog : Catalog W)
  (athena_client : AthenaClient W) (cf_client : CloudFormationClient W)
  (timestamp : string) (s : session W) :
  incomplete_record
    (describe_stacks cf_client "DataPipelineStack" (remote s)).1 ->
  let o :=
    pipeline_tests.main lambda_client s3_client glue_client catalog
      athena_client cf_client timestamp s in
  result o = Ok tt /\
  journal (final o) = journal s /\
  calls (emitted o) = [DescribeStacks "DataPipelineStack"] /\
  sleeps (emitted o) = [].
Proof.
  intros Hrecord. cbn zeta. unfold pipeline_tests.main.
  rewrite (bind_run (print "Starting Data Pipeline Tests" []) _ s tt eq_refl).
  rewrite (bind_run
             (print "==================================================" [])
             _ _ tt eq_refl).
  cbn [result final emitted print].
  unfold bind. rewrite through_run, get_stack_outputs_run.
  unfold incomplete_record in Hrecord.
  destruct (describe_stacks cf_client "DataPipelineStack" (remote s))
    as [[[|stack stacks]|e] w']; cbn [fst] in Hrecord; [done| |done].
  destruct (Outputs stack) as [outputs|]; [|done].
  cbn [result final emitted].
  rewrite bool_decide_eq_false_2 by apply extracted_outputs_not_empty.
  destruct Hrecord as (output_key & Hreq & Hmissing).
  assert (exists k, (k, output_key) ∈ required_outputs) as [k Hk].
  { apply list_elem_of_fmap in Hreq as ([k ok] & -> & Hin). by exists k. }
  assert (k ∈ pipeline_tests.missing_keys
                (foldl test_pipeline.extract_output default_outputs outputs))
    as Hin.
  { unfold pipeline_tests.missing_keys. apply list_elem_of_filter. split.
    - rewrite (extract_outputs_missing _ _ _ _ Hk Hmissing).
      unfold required_outputs in Hk.
      by repeat (apply elem_of_cons in Hk as [[= -> ->]|Hk]);
        [..|by apply elem_of_nil in Hk].
    - unfold required_outputs in Hk.
      repeat (apply elem_of_cons in Hk as [[= -> ->]|Hk]);
        [..|by apply elem_of_nil in Hk]; repeat constructor. }
  destruct (pipeline_tests.missing_keys _) as [|missing rest];
    [by apply elem_of_nil in Hin|].
  done.
Qed.

Lemma no_test_without_configuration_witness :
  result tests_without_results_bucket = Ok tt /\
  journal (final tests_without_results_bucket) = [] /\
  calls (emitted tests_without_results_bucket)
  = [DescribeStacks "DataPipelineStack"] /\
  sleeps (emitted tests_without_results_bucket) = [].
Proof.
  apply (no_test_without_configuration (W:=unit)).
  exists "AthenaResultsBucketName". split.
  - repeat constructor.
  - cbn. intros Hin.
    repeat (apply elem_of_cons in Hin as [Hin|Hin]; [discriminate Hin|]).
    by apply elem_of_nil in Hin.
Defined.

Section test_main.
Context {W : Type}.
Context (lambda_client : Invoker W) (s3_client : ObjectLister W)
  (glue_client : GlueClient W) (catalog : Catalog W)
  (athena_client : AthenaClient W) (cf_client : CloudFormationClient W).
Import pipeline_tests.

Lemma bind_item_of {A} config key value (k : string -> M (session W) A) s :
  config !! key = Some value ->
  bind (item_of config key) k s = k value s.
Proof.
  intros E. unfold bind, item_of. rewrite E. cbn. by destruct (k value s).
Qed.

Lemma total_test_glue_crawler crawler_name :
  total (test_pipeline.test_glue_crawler glue_client crawler_name).
Proof.
  unfold test_pipeline.test_glue_crawler.
  apply total_bind; [apply total_print|intros _].
  apply total_try. intros e.
  apply total_bind; [apply total_print|intros _]. apply total_ret.
Qed.

Lemma total_test_athena_query timestamp workgroup database_name table_name
  results_bucket :
  total (test_pipeline.test_athena_query athena_client timestamp workgroup
           database_name table_name results_bucket).
Proof.
  intros w. unfold test_pipeline.test_athena_query. cbn [result].
  set (qs := test_pipeline.queries timestamp database_name table_name).
  rewrite (bind_run (print "Testing Athena queries" []) _ _ tt eq_refl).
  cbn [result final emitted print].
  destruct (run_queries_any athena_client workgroup results_bucket qs 1
              (test_pipeline.Frame w true [])) as (Hr & _).
  cbn zeta in *. fold (test_pipeline.enumerate qs 1) in *.
  rewrite (bind_run _ _ _ tt Hr). cbn [result final emitted].
  match goal with
  | |- context [for_each (test_pipeline.enumerate qs 1) ?body ?s0] =>
      set (looped := for_each (test_pipeline.enumerate qs 1) body s0) in *
  end.
  destruct (mapping_report_any results_bucket (final looped)) as (Hr' & _).
  cbn zeta in *. rewrite Hr'. by eexists.
Qed.

Lemma total_show_query_result_files results_bucket query_executions :
  total (show_query_result_files s3_client results_bucket query_executions).
Proof.
  unfold show_query_result_files.
  apply total_bind; [apply total_print|intros _].
  destruct query_executions; [apply total_print|].
  apply total_try. intros e. apply total_print.
Qed.

Lemma total_main_test_5 timestamp config tables_success :
  total (main_test_5 s3_client catalog athena_client timestamp config
           tables_success).
Proof.
  unfold main_test_5. destruct tables_success.
  - apply total_bind; [apply total_print|intros _].
    apply total_bind; [apply total_print|intros _].
    apply total_try. intros e.
    apply total_bind; [apply total_print|intros _]. apply total_ret.
  - apply total_bind; [apply total_print|intros _]. apply total_ret.
Qed.

Lemma pause_run (success : bool) line seconds (s : session W) :
  (if success then print line [] ;; sleep seconds else ret tt) s
  = Outcome (Ok tt) s (pause success line seconds).
Proof. by destruct success. Qed.

(** The five stages of [main]: none raises, and each starts from the state
    the one before it left. *)
Lemma run_tests_stages timestamp config function_name bucket_name
  (s : session W) :
  config !! "lambda_function_name" = Some function_name ->
  config !! "data_bucket_name" = Some bucket_name ->
  config !! "glue_crawler_name" = Some "data-pipeline-crawler" ->
  config !! "glue_database_name" = Some "data_pipeline_db" ->
  let o1 := test_lambda_function lambda_client function_name bucket_name s in
  let o2 := check_s3_data s3_client bucket_name (final o1) in
  let o3 :=
    through (test_pipeline.test_glue_crawler glue_client
               "data-pipeline-crawler") (final o2) in
  let o4 := check_glue_tables catalog "data_pipeline_db" (final o3) in
  exists b1 b2 b3 b4 b5,
    result o1 = Ok b1 /\ result o2 = Ok b2 /\ result o3 = Ok b3 /\
    result o4 = Ok b4 /\
    result (main_test_5 s3_client catalog athena_client timestamp config b4
              (final o4)) = Ok b5 /\
    run_tests lambda_client s3_client glue_client catalog athena_client
      timestamp config s
    = Outcome (Ok (five_tests b1 b2 b3 b4 b5))
        (final (main_test_5 s3_client catalog athena_client timestamp config
                  b4 (final o4)))
        (test_heading "1. Testing Lambda Function" ++ emitted o1
         ++ pause b1 "Waiting 10 seconds for data upload..." 10
         ++ test_heading "2. Checking S3 Data" ++ emitted o2
         ++ test_heading "3. Testing Glue Crawler" ++ emitted o3
         ++ pause b3 "Waiting 60 seconds for crawler to process data..." 60
         ++ test_heading "4. Checking Glue Catalog" ++ emitted o4
         ++ emitted (main_test_5 s3_client catalog athena_client timestamp
                       config b4 (final o4))).
Proof.
  intros E1 E2 E3 E4. cbn zeta.
  destruct (test_lambda_function_enters lambda_client function_name
              bucket_name s) as ([b1 Hr1] & _).
  set (o1 := test_lambda_function lambda_client function_name bucket_name s)
    in *.
  destruct (check_s3_data_enters s3_client bucket_name (final o1))
    as ([b2 Hr2] & _).
  set (o2 := check_s3_data s3_client bucket_name (final o1)) in *.
  destruct (total_through _ (total_test_glue_crawler "data-pipeline-crawler")
              (final o2)) as [b3 Hr3].
  set (o3 := through (test_pipeline.test_glue_crawler glue_client
                        "data-pipeline-crawler") (final o2)) in *.
  destruct (check_glue_tables_enters catalog "data_pipeline_db" (final o3))
    as ([b4 Hr4] & _).
  set (o4 := check_glue_tables catalog "data_pipeline_db" (final o3)) in *.
  destruct (total_main_test_5 timestamp config b4 (final o4)) as [b5 Hr5].
  set (o5 := main_test_5 s3_client catalog athena_client timestamp config b4
               (final o4)) in *.
  exists b1, b2, b3, b4, b5. do 5 (split; [assumption|]).
  unfold run_tests.
  (* Test 1 *)
  rewrite (bind_after (print "1. Testing Lambda Function" []) _ s tt eq_refl).
  rewrite (bind_after (print "------------------------------" []) _ _ tt
             eq_refl).
  cbn [result final emitted print].
  rewrite (bind_item_of _ _ _ _ _ E1), (bind_item_of _ _ _ _ _ E2).
  rewrite (bind_after _ _ _ _ Hr1). fold o1.
  rewrite (bind_after _ _ _ tt (f_equal result (pause_run b1 _ _ (final o1)))),
    pause_run.
  cbn [result final emitted].
  (* Test 2 *)
  rewrite (bind_after (print "2. Checking S3 Data" []) _ _ tt eq_refl).
  rewrite (bind_after (print "------------------------------" []) _ _ tt
             eq_refl).
  cbn [result final emitted print].
  rewrite (bind_item_of _ _ _ _ _ E2).
  rewrite (bind_after _ _ _ _ Hr2). fold o2.
  (* Test 3 *)
  rewrite (bind_after (print "3. Testing Glue Crawler" []) _ _ tt eq_refl).
  rewrite (bind_after (print "------------------------------" []) _ _ tt
             eq_refl).
  cbn [result final emitted print].
  rewrite (bind_item_of _ _ _ _ _ E3).
  rewrite (bind_after _ _ _ _ Hr3). fold o3.
  rewrite (bind_after _ _ _ tt (f_equal result (pause_run b3 _ _ (final o3)))),
    pause_run.
  cbn [result final emitted].
  (* Test 4 *)
  rewrite (bind_after (print "4. Checking Glue Catalog" []) _ _ tt eq_refl).
  rewrite (bind_after (print "------------------------------" []) _ _ tt
             eq_refl).
  cbn [result final emitted print].
  rewrite (bind_item_of _ _ _ _ _ E4).
  rewrite (bind_after _ _ _ _ Hr4). fold o4.
  (* Test 5 *)
  rewrite (bind_after _ _ _ _ Hr5). fold o5.
  rewrite !after_after. unfold after, ret. cbn [result final emitted].
  unfold test_heading. rewrite app_nil_r, <- !app_assoc. reflexivity.
Qed.

End test_main.

Section test_summary.
Context {W : Type}.
Import pipeline_tests.

Lemma summary_run tests (s : session W) :
  summary tests s
  = Outcome (Ok tt) s
      ([Print "==================================================" [];
        Print "Test Summary" [];
        Print "==================================================" []]
       ++ map test_line tests
       ++ [Print "Results: {}/{} tests passed"
             [ANat (passed tests); ANat (length tests)];
           verdict_line (passed tests =? length tests)]).
Proof.
  unfold summary, bind, print. cbn zeta.
  rewrite (for_each_prints _ test_line) by done.
  unfold verdict_line. by destruct (passed tests =? length tests).
Qed.

Lemma five_tests_passed b1 b2 b3 b4 b5 :
  (passed (five_tests b1 b2 b3 b4 b5) =? length (five_tests b1 b2 b3 b4 b5))
  = b1 && b2 && b3 && b4 && b5.
Proof. by destruct b1, b2, b3, b4, b5. Qed.

End test_summary.

Section configured.
Context {W : Type} (cf_client : CloudFormationClient W).
Import test_pipeline.

Lemma extract_output_keeps_present cfg output k :
  is_Some (cfg !! k) -> is_Some (extract_output cfg output !! k).
Proof.
  intros [v Hv]. unfold extract_output.
  repeat case_match; try (by eexists);
    by destruct (decide (k = "lambda_function_name")),
         (decide (k = "data_bucket_name")),
         (decide (k = "athena_results_bucket_name")); simplify_map_eq.
Qed.

Lemma extract_outputs_present outputs : forall cfg k output_key,
  (k, output_key) ∈ required_outputs ->
  is_Some (cfg !! k) \/ output_key ∈ outputs.*1 ->
  is_Some (foldl extract_output cfg outputs !! k).
Proof.
  induction outputs as [|[key value] outputs IH];
    intros cfg k output_key Hin [Hsome|Hout].
  - done.
  - by apply elem_of_nil in Hout.
  - cbn [foldl]. apply (IH _ _ output_key Hin). left.
    by apply extract_output_keeps_present.
  - cbn [foldl]. apply (IH _ _ output_key Hin).
    cbn in Hout. apply elem_of_cons in Hout as [->|Hout]; [left|by right].
    unfold required_outputs in Hin. unfold extract_output. cbn [fst snd].
    repeat (apply elem_of_cons in Hin as [[= -> ->]|Hin]);
      [..|by apply elem_of_nil in Hin]; cbn; by simplify_map_eq.
Qed.

End configured.

(** Finds a line of the report that ends a trace. *)
Ltac in_the_report :=
  repeat first [ by left | right | apply in_or_app; right ].

(** X18.  Whatever the services answer or raise, [main] of the test script
    returns without raising.  Either the deployment record is incomplete,
    or the five stages of [main] are run, whatever the earlier ones
    answered: the function test, the check of the stored data, the crawler
    test, the check of the catalog and the fifth stage (the query test,
    guarded by the answer of the catalog check), in this order, each from
    the state the stage before it left.  None of them raises, and [main]
    ends in the state the fifth stage leaves.  It then reports the five
    answers: one line for each, the number of answers that are [True] out
    of five, and a last line that says that all tests passed exactly when
    the five answers are all [True]. *)
Theorem test_main_always_returns {W : Type}
  (lambda_client : Invoker W) (s3_client : ObjectLister W)
  (glue_client : GlueClient W) (catalog : Catalog W)
  (athena_client : AthenaClient W) (cf_client : CloudFormationClient W)
  (timestamp : string) (s : session W) :
  let record := describe_stacks cf_client "DataPipelineStack" (remote s) in
  let o :=
    pipeline_tests.main lambda_client s3_client glue_client catalog
      athena_client cf_client timestamp s in
  result o = Ok tt /\
  (incomplete_record record.1 \/
   exists config function_name bucket_name,
     result (test_pipeline.get_stack_outputs cf_client (remote s))
     = Ok (Some config) /\
     config !! "lambda_function_name" = Some function_name /\
     config !! "data_bucket_name" = Some bucket_name /\
     let o1 :=
       pipeline_tests.test_lambda_function lambda_client function_name
         bucket_name (Session record.2 (journal s)) in
     let o2 := pipeline_tests.check_s3_data s3_client bucket_name (final o1) in
     let o3 :=
       through (test_pipeline.test_glue_crawler glue_client
                  "data-pipeline-crawler") (final o2) in
     let o4 :=
       pipeline_tests.check_glue_tables catalog "data_pipeline_db"
         (final o3) in
     exists lambda_success s3_success crawler_success tables_success
       athena_success,
       let o5 :=
         pipeline_tests.main_test_5 s3_client catalog athena_client
           timestamp config tables_success (final o4) in
       let tests :=
         five_tests lambda_success s3_success crawler_success tables_success
           athena_success in
       result o1 = Ok lambda_success /\
       result o2 = Ok s3_success /\
       result o3 = Ok crawler_success /\
       result o4 = Ok tables_success /\
       result o5 = Ok athena_success /\
       final o = final o5 /\
       (forall test, In test tests -> In (test_line test) (emitted o)) /\
       In (Print "Results: {}/{} tests passed"
             [ANat (pipeline_tests.passed tests); ANat 5]) (emitted o) /\
       last (emitted o)
       = Some (verdict_line (lambda_success && s3_success && crawler_success
                             && tables_success && athena_success))).
Proof.
  cbn zeta.
  destruct (pipeline_tests.main _ _ _ _ _ _ _ _) as [r s' tr] eqn:Hmain.
  cbn [result final emitted]. revert Hmain. unfold pipeline_tests.main.
  rewrite (bind_after (print "Starting Data Pipeline Tests" []) _ s tt
             eq_refl).
  rewrite (bind_after
             (print "==================================================" [])
             _ _ tt eq_refl).
  cbn [result final emitted print]. rewrite after_after. cbn [app].
  unfold bind at 1. rewrite through_run, get_stack_outputs_run.
  unfold incomplete_record.
  destruct (describe_stacks cf_client "DataPipelineStack" (remote s))
    as [[[|stack stacks]|e] w']; cbn [fst snd];
    [intros [= <- <- <-]; by auto| |intros [= <- <- <-]; by auto].
  destruct (Outputs stack) as [outputs|]; [|intros [= <- <- <-]; by auto].
  cbn [result final emitted].
  rewrite bool_decide_eq_false_2 by apply extracted_outputs_not_empty.
  set (config := foldl test_pipeline.extract_output default_outputs outputs).
  destruct (pipeline_tests.missing_keys config) as [|missing rest] eqn:Hmiss.
  - assert (forall k, k ∈ ["lambda_function_name"; "data_bucket_name";
                           "athena_results_bucket_name"] ->
                      is_Some (config !! k)) as Hkeys.
    { intros k Hk. destruct (config !! k) eqn:E; [by eexists|].
      assert (k ∈ pipeline_tests.missing_keys config) as Hin
        by (by apply list_elem_of_filter).
      rewrite Hmiss in Hin. by apply elem_of_nil in Hin. }
    destruct (Hkeys "lambda_function_name" ltac:(repeat constructor))
      as [function_name E1].
    destruct (Hkeys "data_bucket_name" ltac:(repeat constructor))
      as [bucket_name E2].
    destruct (run_tests_stages lambda_client s3_client glue_client catalog
                athena_client timestamp config function_name bucket_name
                (Session w' (journal s)) E1 E2)
      as (b1 & b2 & b3 & b4 & b5 & Hr1 & Hr2 & Hr3 & Hr4 & Hr5 & Htests).
    { unfold config. by rewrite extract_outputs_keep_defaults. }
    { unfold config. by rewrite extract_outputs_keep_defaults. }
    rewrite (bind_after _ _ _ _ (f_equal result Htests)), Htests.
    cbn [result final emitted]. rewrite summary_run.
    unfold after. cbn [result final emitted].
    intros [= <- <- <-]. split; [done|]. right.
    exists config, function_name, bucket_name.
    split; [reflexivity|]. split; [exact E1|]. split; [exact E2|].
    exists b1, b2, b3, b4, b5. cbn zeta. rewrite five_tests_passed.
    do 5 (split; [assumption|]). split; [done|].
    split; [|split].
    + intros test Htest.
      repeat (destruct Htest as [<-|Htest]); [..|done]; in_the_report.
    + in_the_report.
    + repeat (rewrite ?app_comm_cons, last_app). reflexivity.
  - intros [= <- <- <-]. split; [done|]. left.
    assert (missing ∈ pipeline_tests.missing_keys config) as Hin
      by (rewrite Hmiss; left).
    apply list_elem_of_filter in Hin as [Hnone Hin].
    assert (exists output_key, (missing, output_key) ∈ required_outputs)
      as [output_key Hreq].
    { repeat (apply elem_of_cons in Hin as [->|Hin]);
        [..|by apply elem_of_nil in Hin]; eexists; repeat constructor. }
    exists output_key. split.
    + apply list_elem_of_fmap. by exists (missing, output_key).
    + intros Hout.
      destruct (extract_outputs_present outputs default_outputs missing
                  output_key Hreq (or_intror Hout)) as [v Hv].
      fold config in Hv. congruence.
Qed.

Lemma emits_call {W A} Q r (f : op W A) : Q [Call r] -> emits Q (call r f).
Proof. intros H w. unfold call. by destruct (f w). Qed.

Ltac no_submission :=
  walk ltac:(first
    [ apply emits_ret; apply _
    | apply emits_raise; apply _
    | apply emits_bind; [apply _| |intros]
    | apply emits_try; [apply _| |intros]
    | apply emits_print; reflexivity
    | apply emits_sleep; reflexivity
    | apply emits_call; reflexivity
    | apply emits_ask; apply _
    | apply emits_of_res; apply _
    | apply emits_through
    | apply emits_for_each; [apply _|intros] ]).

#[local] Instance no_call_additive : Additive (fun tr => calls tr = []).
Proof. apply omap_nil_additive. Qed.

Section gating.
Context {W : Type}.
Context (lambda_client : Invoker W) (s3_client : ObjectLister W)
  (glue_client : GlueClient W) (catalog : Catalog W)
  (athena_client : AthenaClient W) (cf_client : CloudFormationClient W).
Import pipeline_tests.

Lemma test_lambda_function_submits_nothing function_name bucket_name :
  emits (fun tr => submissions tr = [])
    (test_lambda_function lambda_client function_name bucket_name).
Proof. unfold test_lambda_function. no_submission. Qed.

Lemma check_s3_data_submits_nothing bucket_name :
  emits (fun tr => submissions tr = []) (check_s3_data s3_client bucket_name).
Proof. unfold check_s3_data. no_submission. Qed.

Lemma check_glue_tables_submits_nothing database_name :
  emits (fun tr => submissions tr = [])
    (check_glue_tables catalog database_name).
Proof. unfold check_glue_tables. cbn zeta. no_submission. Qed.

Lemma test_glue_crawler_submits_nothing crawler_name :
  emits (fun tr => submissions tr = [])
    (test_pipeline.test_glue_crawler glue_client crawler_name).
Proof. unfold test_pipeline.test_glue_crawler. no_submission. Qed.

Lemma test_lambda_function_calls_nothing function_name bucket_name :
  emits (fun tr => calls tr = [])
    (test_lambda_function lambda_client function_name bucket_name).
Proof. unfold test_lambda_function. no_submission. Qed.

Lemma check_s3_data_calls_nothing bucket_name :
  emits (fun tr => calls tr = []) (check_s3_data s3_client bucket_name).
Proof. unfold check_s3_data. no_submission. Qed.

Lemma check_glue_tables_calls_nothing database_name :
  emits (fun tr => calls tr = []) (check_glue_tables catalog database_name).
Proof. unfold check_glue_tables. cbn zeta. no_submission. Qed.

(** The crawler test reads the state of the crawler once, and starts the
    crawler or not. *)
Lemma test_glue_crawler_calls crawler_name (w : W) :
  exists started : bool,
    calls (emitted (test_pipeline.test_glue_crawler glue_client crawler_name
                      w))
    = GetCrawler crawler_name
      :: (if started then [StartCrawler crawler_name] else []).
Proof.
  unfold test_pipeline.test_glue_crawler, try_except, bind, print, call, ret.
  destruct (get_crawler glue_client crawler_name w) as [[state|e] w1];
    [|by exists false].
  destruct (String.eqb state "READY").
  - exists true. by destruct (start_crawler glue_client crawler_name w1)
      as [[[]|e] w2].
  - exists false. by destruct (String.eqb state "RUNNING").
Qed.

Lemma check_glue_tables_without_tables database_name (s : session W) :
  without_tables catalog database_name ->
  result (check_glue_tables catalog database_name s) = Ok false.
Proof.
  intros Hnone. specialize (Hnone (remote s)).
  unfold check_glue_tables, try_except, bind, print, ask, ret.
  by destruct (get_tables catalog database_name (remote s))
    as [[[[|t tables]|]|e] w'].
Qed.

Lemma main_test_5_skipped timestamp config (s : session W) :
  main_test_5 s3_client catalog athena_client timestamp config false s
  = Outcome (Ok false) s [Print "5. Skipping Athena Test (no tables found)" []].
Proof. reflexivity. Qed.

(** The tests of [main] when the catalog lists no table. *)
Lemma run_tests_without_tables timestamp config function_name bucket_name
  (s : session W) :
  config !! "lambda_function_name" = Some function_name ->
  config !! "data_bucket_name" = Some bucket_name ->
  config !! "glue_crawler_name" = Some "data-pipeline-crawler" ->
  config !! "glue_database_name" = Some "data_pipeline_db" ->
  without_tables catalog "data_pipeline_db" ->
  let o := run_tests lambda_client s3_client glue_client catalog
             athena_client timestamp config s in
  (exists lambda_success s3_success crawler_success,
     result o
     = Ok (five_tests lambda_success s3_success crawler_success false false))
  /\
  journal (final o)
  = journal s ++ [Invoke function_name bucket_name;
                  ListObjectsV2 bucket_name "raw-data/";
                  GetTables "data_pipeline_db"] /\
  submissions (emitted o) = [] /\
  In (Print "5. Skipping Athena Test (no tables found)" []) (emitted o) /\
  exists started : bool,
    calls (emitted o)
    = GetCrawler "data-pipeline-crawler"
      :: (if started then [StartCrawler "data-pipeline-crawler"] else []).
Proof.
  intros E1 E2 E3 E4 Hnone. cbn zeta.
  destruct (run_tests_stages lambda_client s3_client glue_client catalog
              athena_client timestamp config function_name bucket_name s
              E1 E2 E3 E4)
    as (b1 & b2 & b3 & b4 & b5 & _ & _ & _ & Hr4 & Hr5 & Hrun).
  cbn zeta in Hr4, Hr5, Hrun.
  set (o1 := test_lambda_function lambda_client function_name bucket_name s)
    in *.
  set (o2 := check_s3_data s3_client bucket_name (final o1)) in *.
  set (o3 := through (test_pipeline.test_glue_crawler glue_client
                        "data-pipeline-crawler") (final o2)) in *.
  set (o4 := check_glue_tables catalog "data_pipeline_db" (final o3)) in *.
  assert (b4 = false) as ->.
  { pose proof (check_glue_tables_without_tables "data_pipeline_db"
                  (final o3) Hnone) as Hfalse.
    fold o4 in Hfalse. congruence. }
  clear Hr4.
  rewrite main_test_5_skipped in Hr5, Hrun.
  cbn [result final emitted] in Hr5, Hrun. injection Hr5 as <-.
  rewrite Hrun. cbn [result final emitted].
  split; [by eexists _, _, _|]. split; [|split; [|split]].
  - destruct (test_lambda_function_enters lambda_client function_name
                bucket_name s) as (_ & Hj1).
    destruct (check_s3_data_enters s3_client bucket_name (final o1))
      as (_ & Hj2).
    destruct (enters_through _
                (total_test_glue_crawler glue_client "data-pipeline-crawler")
                (final o2)) as (_ & Hj3).
    destruct (check_glue_tables_enters catalog "data_pipeline_db" (final o3))
      as (_ & Hj4).
    fold o1 in Hj1, Hj2. fold o2 in Hj2, Hj3. fold o3 in Hj3, Hj4.
    fold o4 in Hj4.
    rewrite Hj4, Hj3, Hj2, Hj1, app_nil_r, <- !app_assoc. done.
  - pose proof (test_lambda_function_submits_nothing function_name
                  bucket_name s) as Hs1.
    pose proof (check_s3_data_submits_nothing bucket_name (final o1)) as Hs2.
    pose proof (emits_through _ _
                  (test_glue_crawler_submits_nothing "data-pipeline-crawler")
                  (final o2)) as Hs3.
    pose proof (check_glue_tables_submits_nothing "data_pipeline_db"
                  (final o3)) as Hs4.
    cbn beta in *. fold o1 in Hs1. fold o2 in Hs2. fold o3 in Hs3.
    fold o4 in Hs4.
    rewrite !submissions_app, Hs1, Hs2, Hs3, Hs4. by destruct b1, b3.
  - in_the_report.
  - pose proof (test_lambda_function_calls_nothing function_name bucket_name
                  s) as Hc1.
    pose proof (check_s3_data_calls_nothing bucket_name (final o1)) as Hc2.
    destruct (test_glue_crawler_calls "data-pipeline-crawler"
                (remote (final o2))) as [started Hc3].
    pose proof (check_glue_tables_calls_nothing "data_pipeline_db"
                  (final o3)) as Hc4.
    cbn beta in *. fold o1 in Hc1. fold o2 in Hc2. fold o4 in Hc4.
    exists started.
    rewrite !calls_app, Hc1, Hc2, Hc4. subst o3. rewrite through_run.
    cbn [emitted]. rewrite Hc3. by destruct b1, b3, started.
Qed.

End gating.

(** X19.  The query test is run only if the catalog shows tables.  With a
    complete configuration and a catalog that lists no table, [main] runs
    the first four tests and skips the fifth.  Its calls are one read of
    the deployment record, one read of the state of the crawler and, right
    after it, at most one start of the crawler; its other requests are, in
    order, the invocation of the function, the listing of the raw data and
    one read of the tables of the catalog.  No query is submitted; [main]
    says that it skips the query test, reports it as failed and ends on
    the line that says that some tests failed. *)
Theorem athena_test_needs_tables {W : Type}
  (lambda_client : Invoker W) (s3_client : ObjectLister W)
  (glue_client : GlueClient W) (catalog : Catalog W)
  (athena_client : AthenaClient W) (cf_client : CloudFormationClient W)
  (timestamp : string) (s : session W)
  (config : gmap string string) (function_name bucket_name : string) :
  result (test_pipeline.get_stack_outputs cf_client (remote s))
  = Ok (Some config) ->
  config !! "lambda_function_name" = Some function_name ->
  config !! "data_bucket_name" = Some bucket_name ->
  is_Some (config !! "athena_results_bucket_name") ->
  without_tables catalog "data_pipeline_db" ->
  let o :=
    pipeline_tests.main lambda_client s3_client glue_client catalog
      athena_client cf_client timestamp s in
  journal (final o)
  = journal s ++ [Invoke function_name bucket_name;
                  ListObjectsV2 bucket_name "raw-data/";
                  GetTables "data_pipeline_db"] /\
  (exists started : bool,
     calls (emitted o)
     = DescribeStacks "DataPipelineStack"
       :: GetCrawler "data-pipeline-crawler"
       :: (if started then [StartCrawler "data-pipeline-crawler"] else []))
  /\
  submissions (emitted o) = [] /\
  In (Print "5. Skipping Athena Test (no tables found)" []) (emitted o) /\
  In (test_line ("Athena Query", false)) (emitted o) /\
  last (emitted o) = Some (verdict_line false).
Proof.
  intros Hget E1 E2 [results_bucket E3] Hnone. cbn zeta.
  assert (config !! "glue_crawler_name" = Some "data-pipeline-crawler" /\
          config !! "glue_database_name" = Some "data_pipeline_db")
    as [E4 E5].
  { revert Hget. rewrite get_stack_outputs_run.
    destruct (describe_stacks cf_client "DataPipelineStack" (remote s))
      as [[[|stack stacks]|e] w']; [done| |done].
    destruct (Outputs stack) as [outputs|]; [|done].
    intros [= <-]. by rewrite !extract_outputs_keep_defaults. }
  assert (submissions
            (emitted (test_pipeline.get_stack_outputs cf_client (remote s)))
          = []) as Hsget.
  { rewrite get_stack_outputs_run.
    destruct (describe_stacks cf_client "DataPipelineStack" (remote s))
      as [[[|stack stacks]|e] w']; [done| |done].
    by destruct (Outputs stack). }
  assert (calls
            (emitted (test_pipeline.get_stack_outputs cf_client (remote s)))
          = [DescribeStacks "DataPipelineStack"]) as Hcget.
  { revert Hget. rewrite get_stack_outputs_run.
    destruct (describe_stacks cf_client "DataPipelineStack" (remote s))
      as [[[|stack stacks]|e] w']; [done| |done].
    by destruct (Outputs stack). }
  assert (pipeline_tests.missing_keys config = []) as Hmiss.
  { destruct (pipeline_tests.missing_keys config) as [|k ks] eqn:E; [done|].
    assert (k ∈ pipeline_tests.missing_keys config) as Hin
      by (rewrite E; left).
    apply list_elem_of_filter in Hin as [Hk Hin].
    repeat (apply elem_of_cons in Hin as [->|Hin]);
      [congruence..|by apply elem_of_nil in Hin]. }
  destruct (pipeline_tests.main _ _ _ _ _ _ _ _) as [r s' tr] eqn:Hmain.
  cbn [result final emitted]. revert Hmain. unfold pipeline_tests.main.
  rewrite (bind_after (print "Starting Data Pipeline Tests" []) _ s tt
             eq_refl).
  rewrite (bind_after
             (print "==================================================" [])
             _ _ tt eq_refl).
  cbn [result final emitted print]. rewrite after_after. cbn [app].
  rewrite (bind_after (through _) _ s (Some config))
    by (by rewrite through_run).
  rewrite through_run. cbn [result final emitted].
  rewrite bool_decide_eq_false_2
    by (intros ->; by rewrite lookup_empty in E1).
  rewrite Hmiss.
  destruct (run_tests_without_tables lambda_client s3_client glue_client
              catalog athena_client timestamp config function_name
              bucket_name
              (Session
                 (final (test_pipeline.get_stack_outputs cf_client (remote s)))
                 (journal s)) E1 E2 E4 E5 Hnone)
    as ((b1 & b2 & b3 & Hr) & Hj & Hs & Hskip & started & Hc).
  cbn zeta in *. rewrite (bind_after _ _ _ _ Hr), summary_run.
  unfold after. cbn [result final emitted journal] in *.
  intros [= <- <- <-].
  split; [exact Hj|]. split; [|split; [|split; [|split]]].
  - exists started.
    match goal with
    | |- calls (_ :: _ :: ?l) = ?r => change (calls l = r)
    end.
    rewrite !calls_app, Hcget, Hc. by destruct started.
  - match goal with
    | |- submissions (_ :: _ :: ?l) = [] => change (submissions l = [])
    end.
    rewrite !submissions_app, Hsget, Hs. done.
  - do 2 right. apply in_or_app. right. apply in_or_app. by left.
  - do 2 right. apply in_or_app. right. apply in_or_app. right.
    do 7 right. by left.
  - rewrite !app_comm_cons, !last_app. by destruct b1, b2, b3.
Qed.

Lemma athena_test_needs_tables_witness :
  journal (final tests_before_the_first_crawl)
  = [Invoke "data-pipeline-data-extractor"
       "data-pipeline-bucket-jsonplaceholder";
     ListObjectsV2 "data-pipeline-bucket-jsonplaceholder" "raw-data/";
     GetTables "data_pipeline_db"] /\
  (exists started : bool,
     calls (emitted tests_before_the_first_crawl)
     = DescribeStacks "DataPipelineStack"
       :: GetCrawler "data-pipeline-crawler"
       :: (if started then [StartCrawler "data-pipeline-crawler"] else []))
  /\
  submissions (emitted tests_before_the_first_crawl) = [] /\
  In (Print "5. Skipping Athena Test (no tables found)" [])
     (emitted tests_before_the_first_crawl) /\
  In (test_line ("Athena Query", false))
     (emitted tests_before_the_first_crawl) /\
  last (emitted tests_before_the_first_crawl) = Some (verdict_line false).
Proof.
  apply (athena_test_needs_tables (W:=unit) _ _ _ _ _ _ _ (fresh tt)
           (foldl test_pipeline.extract_output default_outputs
              [("DataBucketName", "data-pipeline-bucket-jsonplaceholder");
               ("AthenaResultsBucketName",
                "data-pipeline-athena-results-jsonplaceholder");
               ("LambdaFunctionName", "data-pipeline-data-extractor")])).
  - reflexivity.
  - reflexivity.
  - reflexivity.
  - by eexists.
  - intros w. exact I.
Defined.

(** * The other steps of the deployment *)

(** X20.  [update_lambda_code] never raises.  It reads the archive first
    and uploads what it read: when the archive cannot be read nothing is
    uploaded.  It answers [True] exactly when the archive was read and the
    upload was accepted. *)
Theorem code_is_uploaded_as_read {W : Type} (updater : CodeUpdater W)
  (files : Files W) (function_name zip_path : string) (s : session W) :
  let o :=
    lambda_deployment.update_lambda_code updater files function_name zip_path
      s in
  match read_bytes files zip_path (remote s) with
  | (Raise _, _) =>
      journal (final o) = journal s ++ [ReadBytes zip_path] /\
      result o = Ok false
  | (Ok zip_content, w1) =>
      journal (final o)
      = journal s ++ [ReadBytes zip_path;
                      UpdateFunctionCode function_name zip_content] /\
      result o
      = Ok (match (update_function_code updater function_name zip_content
                     w1).1 with
            | Ok _ => true
            | Raise _ => false
            end)
  end.
Proof.
  cbn zeta. unfold lambda_deployment.update_lambda_code.
  unfold try_except, bind, print, ask, ret.
  destruct (read_bytes files zip_path (remote s)) as [[zip_content|e] w1];
    cbn [remote journal]; [|by rewrite ?app_nil_r].
  destruct (update_function_code updater function_name zip_content w1)
    as [[response|e] w2]; cbn; by rewrite <- app_assoc.
Qed.

(** X21.  [test_updated_function] reads the deployment record once and
    never raises.  It invokes the function only with a data bucket name
    taken from the record: the value of the first output named
    [DataBucketName] of the first stack listed, if it is not empty.
    Without such a name no invocation is made and the answer is [False].
    Otherwise the answer is [True] exactly when the invocation is answered
    with status code 200 and a payload that can be read. *)
Theorem updated_function_is_tested_on_the_data_bucket {W : Type}
  (cf_client : CloudFormationClient W) (invoker : Invoker W)
  (function_name : string) (s : session W) :
  let o :=
    lambda_deployment.test_updated_function cf_client invoker function_name
      s in
  calls (emitted o) = [DescribeStacks "DataPipelineStack"] /\
  match describe_stacks cf_client "DataPipelineStack" (remote s) with
  | (Ok (stack :: _), w1) =>
      match outputs ← Outputs stack; first_output "DataBucketName" outputs
      with
      | Some (String c name) =>
          let data_bucket_name := String c name in
          journal (final o)
          = journal s ++ [Invoke function_name data_bucket_name] /\
          result o
          = Ok (match (invoke invoker function_name data_bucket_name w1).1
                with
                | Ok response =>
                    (StatusCode response =? 200)
                    && match Payload response with
                       | Ok _ => true
                       | Raise _ => false
                       end
                | Raise _ => false
                end)
      | _ => journal (final o) = journal s /\ result o = Ok false
      end
  | _ => journal (final o) = journal s /\ result o = Ok false
  end.
Proof.
  cbn zeta.
  unfold lambda_deployment.test_updated_function,
    lambda_deployment.outputs_of.
  unfold try_except, bind, print, through, zoom, call, ask, of_res, ret, raise.
  destruct (describe_stacks cf_client "DataPipelineStack" (remote s))
    as [[[|stack stacks]|e] w1]; cbn [remote journal]; [done| |done].
  destruct (Outputs stack) as [outputs|]; cbn [mbind option_bind]; [|done].
  destruct (first_output "DataBucketName" outputs) as [[|c name]|];
    [done| |done].
  cbn [remote journal].
  destruct (invoke invoker function_name (String c name) w1)
    as [[[code [payload|e]]|e] w2]; cbn [fst StatusCode Payload];
    [by destruct (code =? 200)..|done].
Qed.

(** X22.  [cleanup_temp_files] never raises.  It removes the archive only
    after finding that it exists: the path is looked up once, and the
    removal is asked for exactly when the lookup answers [True]. *)
Theorem archive_is_removed_if_present {W : Type} (files : Files W)
  (zip_path : string) (s : session W) :
  let o := lambda_deployment.cleanup_temp_files files zip_path s in
  result o = Ok tt /\
  journal (final o)
  = journal s
    ++ PathExists zip_path
       :: match (path_exists files zip_path (remote s)).1 with
          | Ok true => [Unlink zip_path]
          | _ => []
          end.
Proof.
  cbn zeta. unfold lambda_deployment.cleanup_temp_files.
  unfold try_except, bind, print, ask, ret.
  destruct (path_exists files zip_path (remote s)) as [[[]|e] w1];
    cbn [remote journal fst]; [|by rewrite ?app_nil_r..].
  destruct (unlink files zip_path w1) as [[[]|e] w2]; cbn;
    by rewrite <- app_assoc.
Qed.

(** * [main] of the deployment *)

Lemma in_session_run {W A} (m : M (session W) A)
  (fr : lambda_deployment.frame W) :
  lambda_deployment.in_session m fr
  = Outcome (result (m (lambda_deployment.in_frame fr)))
      (lambda_deployment.Frame (final (m (lambda_deployment.in_frame fr)))
         (lambda_deployment.zip_path fr))
      (emitted (m (lambda_deployment.in_frame fr))).
Proof.
  unfold lambda_deployment.in_session, zoom. by destruct (m _).
Qed.

Lemma try_except_ok {S A} (m : M S A) h s a :
  result (m s) = Ok a -> try_except m h s = m s.
Proof.
  intros H. unfold try_except. destruct (m s) as [r s1 tr]. cbn in H.
  by subst r.
Qed.

Section deployment.
Context {W : Type}.
Context (cf_client : CloudFormationClient W) (lambda_client : LambdaClient W)
  (updater : CodeUpdater W) (invoker : Invoker W) (files : Files W).
Import lambda_deployment.

Lemma total_get_lambda_function_name :
  total (get_lambda_function_name cf_client).
Proof.
  unfold get_lambda_function_name.
  apply total_bind; [apply total_print|intros _].
  apply total_try. intros e.
  apply total_bind; [apply total_print|intros _]. apply total_ret.
Qed.

Lemma update_lambda_code_steps function_name zip_path (s : session W) :
  let o := update_lambda_code updater files function_name zip_path s in
  exists zip_content,
    (result o = Ok false /\
     [ReadBytes zip_path] `prefix_of`
       [ReadBytes zip_path; UpdateFunctionCode function_name zip_content] /\
     (journal (final o) = journal s ++ [ReadBytes zip_path] \/
      journal (final o)
      = journal s ++ [ReadBytes zip_path;
                      UpdateFunctionCode function_name zip_content])) \/
    (result o = Ok true /\
     journal (final o)
     = journal s ++ [ReadBytes zip_path;
                     UpdateFunctionCode function_name zip_content]).
Proof.
  cbn zeta. unfold update_lambda_code.
  unfold try_except, bind, print, ask, ret.
  destruct (read_bytes files zip_path (remote s)) as [[zip_content|e] w1];
    cbn [remote journal].
  - exists zip_content.
    destruct (update_function_code updater function_name zip_content w1)
      as [[response|e] w2]; cbn; rewrite <- app_assoc.
    + by right.
    + left. split; [done|]. split; [by eexists|by right].
  - exists "". left. cbn.
    split; [done|]. split; [by eexists|left; by rewrite ?app_nil_r].
Qed.

Lemma test_updated_function_steps function_name (s : session W) :
  let o := test_updated_function cf_client invoker function_name s in
  exists data_bucket_name,
    (result o = Ok false /\
     (journal (final o) = journal s \/
      journal (final o)
      = journal s ++ [Invoke function_name data_bucket_name])) \/
    (result o = Ok true /\
     journal (final o)
     = journal s ++ [Invoke function_name data_bucket_name]).
Proof.
  cbn zeta. unfold test_updated_function, outputs_of.
  unfold try_except, bind, print, through, zoom, call, ask, of_res, ret, raise.
  destruct (describe_stacks cf_client "DataPipelineStack" (remote s))
    as [[[|stack stacks]|e] w1]; cbn [remote journal];
    [exists ""; left; by auto| |exists ""; left; by auto].
  destruct (Outputs stack) as [outputs|]; [|exists ""; left; by auto].
  destruct (first_output "DataBucketName" outputs) as [[|c name]|];
    [exists ""; left; by auto| |exists ""; left; by auto].
  exists (String c name). cbn [remote journal].
  destruct (invoke invoker function_name (String c name) w1)
    as [[[code [payload|e]]|e] w2]; cbn [fst StatusCode Payload].
  - destruct (code =? 200); cbn; [right|left]; by auto.
  - destruct (code =? 200); cbn; left; by auto.
  - cbn. left. by auto.
Qed.

Lemma wait_for_function_ready_fetches function_name max_attempts (w : W) :
  let o :=
    deploy_lambda.wait_for_function_ready lambda_client function_name
      max_attempts w in
  (exists ready, result o = Ok ready) /\
  (result o = Ok true ->
   In (GetFunction function_name) (status_fetches (emitted o))).
Proof.
  cbn zeta. unfold deploy_lambda.wait_for_function_ready.
  rewrite (bind_run (print "Waiting for Lambda function to be ready..." [])
             _ w tt eq_refl).
  cbn [result final emitted print].
  destruct (wait_attempts_bounded lambda_client function_name max_attempts
              max_attempts 0 w) as (slept & _ & _ & Hf).
  cbn zeta in Hf. rewrite status_fetches_app.
  destruct Hf as [(_ & Hr & _)|(_ & Hr & ->)].
  - split; [by eexists|]. rewrite Hr. by intros [=].
  - split; [done|]. intros _. by left.
Qed.

(** The [try] block of [main] once the archive is built: its steps are
    run in order, and the first one that fails ends it. *)
Lemma deployment_steps_run (create_lambda_package : M (session W) (option string))
  zip_path (fr : frame W) :
  result (create_lambda_package (in_frame fr)) = Ok (Some zip_path) ->
  let built := create_lambda_package (in_frame fr) in
  let named := through (get_lambda_function_name cf_client) (final built) in
  let o :=
    deployment_steps cf_client lambda_client updater invoker files
      create_lambda_package fr in
  exists function_name,
    result named = Ok function_name /\
    match function_name with
    | Some (String c rest) =>
        let name := String c rest in
        let updated :=
          update_lambda_code updater files name zip_path (final named) in
        let waited :=
          through (deploy_lambda.wait_for_function_ready lambda_client name
                     30) (final updated) in
        let tested :=
          test_updated_function cf_client invoker name (final waited) in
        exists code_updated ready tested_ok : bool,
          result updated = Ok code_updated /\
          result waited = Ok ready /\
          result tested = Ok tested_ok /\
          result o
          = Ok (if code_updated && ready && tested_ok then 0%Z else 1%Z) /\
          final o
          = Frame (final (if negb code_updated then updated
                          else if negb ready then waited else tested))
              (Some zip_path) /\
          (result o = Ok 0%Z ->
           In (GetFunction name) (status_fetches (emitted o)))
    | _ => result o = Ok 1%Z /\ final o = Frame (final named) (Some zip_path)
    end.
Proof.
  intros Hbuilt. cbn zeta.
  destruct (deployment_steps _ _ _ _ _ _ _) as [r fr' tr] eqn:Hsteps.
  cbn [result final emitted]. revert Hsteps. unfold deployment_steps.
  rewrite (bind_after (in_session create_lambda_package) _ fr (Some zip_path))
    by (by rewrite in_session_run).
  rewrite in_session_run. cbn [result final emitted].
  set (built := create_lambda_package (in_frame fr)) in *.
  rewrite (bind_after (set_zip_path _) _ _ tt eq_refl).
  cbn [result final emitted set_zip_path in_frame].
  (* Step 2 *)
  destruct (total_through _ total_get_lambda_function_name (final built))
    as [function_name Hname].
  rewrite (bind_after (in_session _) _ _ function_name)
    by (by rewrite in_session_run).
  rewrite in_session_run.
  cbn [result final emitted in_frame lambda_deployment.zip_path].
  set (named := through (get_lambda_function_name cf_client) (final built))
    in *.
  intros Hsteps. exists function_name. split; [exact Hname|]. revert Hsteps.
  destruct function_name as [[|c function_name]|].
  1, 3: rewrite ?after_after; unfold after at 1, ret;
    cbn [result final emitted]; by intros [= <- <- <-].
  set (name := String c function_name) in *.
  (* The steps that follow answer, whatever the services do. *)
  set (updated := update_lambda_code updater files name zip_path
                    (final named)).
  assert (exists b, result updated = Ok b) as [b3 Hr3].
  { destruct (update_lambda_code_steps name zip_path (final named))
      as (zip_content & [(H & _)|(H & _)]); by eexists. }
  set (waited := through
                   (deploy_lambda.wait_for_function_ready lambda_client name
                      30) (final updated)).
  assert (exists b,
            result waited = Ok b /\
            (b = true ->
             In (GetFunction name) (status_fetches (emitted waited))))
    as (b4 & Hr4 & Hfetch).
  { destruct (wait_for_function_ready_fetches name 30
                (remote (final updated))) as ([ready Hready] & Hf).
    cbn zeta in *. exists ready. unfold waited. rewrite through_run.
    cbn [result emitted]. split; [exact Hready|]. intros ->. by apply Hf. }
  set (tested := test_updated_function cf_client invoker name (final waited)).
  assert (exists b, result tested = Ok b) as [b5 Hr5].
  { destruct (test_updated_function_steps name (final waited))
      as (data_bucket_name & [(H & _)|(H & _)]); by eexists. }
  intros Hsteps. cbn zeta. exists b3, b4, b5. do 3 (split; [assumption|]).
  revert Hsteps.
  (* Step 3 *)
  rewrite (bind_after (in_session _) _ _ b3)
    by (by rewrite in_session_run).
  rewrite in_session_run.
  cbn [result final emitted in_frame lambda_deployment.zip_path].
  fold updated. destruct b3; cbn [negb andb].
  2: { rewrite ?after_after; unfold after at 1, ret;
         cbn [result final emitted].
       intros [= <- <- <-]. split; [done|]. split; [done|]. by intros [=]. }
  (* Step 4 *)
  rewrite (bind_after (in_session _) _ _ b4)
    by (by rewrite in_session_run).
  rewrite in_session_run.
  cbn [result final emitted in_frame lambda_deployment.zip_path].
  fold waited. destruct b4; cbn [negb andb].
  2: { rewrite ?after_after; unfold after at 1, ret;
         cbn [result final emitted].
       intros [= <- <- <-]. split; [done|]. split; [done|]. by intros [=]. }
  (* Step 5 *)
  rewrite (bind_after (in_session _) _ _ b5)
    by (by rewrite in_session_run).
  rewrite in_session_run.
  cbn [result final emitted in_frame lambda_deployment.zip_path].
  fold tested. destruct b5; cbn [negb andb].
  2: { rewrite ?after_after; unfold after at 1, bind, print, ret;
         cbn [result final emitted].
       intros [= <- <- <-]. split; [done|]. split; [done|]. by intros [=]. }
  rewrite ?after_after; unfold after at 1, bind, print, ret;
    cbn [result final emitted].
  intros [= <- <- <-]. split; [done|]. split; [done|]. intros _.
  rewrite !status_fetches_app. apply in_or_app. left. apply in_or_app. left.
  apply in_or_app. right. by apply Hfetch.
Qed.

End deployment.

Lemma try_finally_run {S A} (body : M S A) (cleanup : M S unit) s :
  try_finally body cleanup s
  = Outcome
      (match result (cleanup (final (body s))) with
       | Ok _ => result (body s)
       | Raise e => Raise e
       end)
      (final (cleanup (final (body s))))
      (emitted (body s) ++ emitted (cleanup (final (body s)))).
Proof.
  unfold try_finally. destruct (body s) as [r s1 tr1]. cbn.
  by destruct (cleanup s1) as [[[]|e] s2 tr2].
Qed.

Section deployment_main.
Context {W : Type}.
Context (cf_client : CloudFormationClient W) (lambda_client : LambdaClient W)
  (updater : CodeUpdater W) (invoker : Invoker W) (files : Files W).
Import lambda_deployment.

Abbreviation main' :=
  (main cf_client lambda_client updater invoker files).
Abbreviation deployment_steps' :=
  (deployment_steps cf_client lambda_client updater invoker files).

(** [main] up to its [try] statement. *)
Lemma main_enters_the_project create_lambda_package script_dir
  (s : session W) stale cwd w1 w2 :
  chdir files script_dir (remote s) = (Ok tt, w1) ->
  getcwd files w1 = (Ok cwd, w2) ->
  main' create_lambda_package script_dir (Frame s stale)
  = after
      [Print "Lambda Function Code Deployment" [];
       Print "==================================================" [];
       Print "Working directory: {}" [AStr cwd]]
      (try_finally
         (try_except
            (deployment_steps' create_lambda_package)
            (fun e =>
               print "Unexpected error: {}" [AStr (exn_text e)] ;;
               ret 1%Z))
         (fun fr =>
            match zip_path fr with
            | Some zip_path =>
                in_session (cleanup_temp_files files zip_path) fr
            | None => ret tt fr
            end)
         (Frame
            (Session w2 (journal s ++ [ChangeDirectory script_dir; GetCwd]))
            None)).
Proof.
  intros Hchdir Hgetcwd. unfold main.
  rewrite (bind_after (print "Lambda Function Code Deployment" []) _ _ tt
             eq_refl).
  rewrite (bind_after
             (print "==================================================" [])
             _ _ tt eq_refl).
  cbn [result final emitted print]. rewrite after_after. cbn [app].
  assert (in_session (ask (ChangeDirectory script_dir) (chdir files script_dir))
            (Frame s stale)
          = Outcome (Ok tt)
              (Frame (Session w1 (journal s ++ [ChangeDirectory script_dir]))
                 stale) []) as H1.
  { rewrite in_session_run. unfold ask. cbn [in_frame zip_path].
    by rewrite Hchdir. }
  rewrite (bind_after _ _ _ tt (f_equal result H1)), H1.
  cbn [result final emitted].
  assert (in_session (ask GetCwd (getcwd files))
            (Frame (Session w1 (journal s ++ [ChangeDirectory script_dir]))
               stale)
          = Outcome (Ok cwd)
              (Frame
                 (Session w2
                    (journal s ++ [ChangeDirectory script_dir; GetCwd]))
                 stale) []) as H2.
  { rewrite in_session_run. unfold ask. cbn [in_frame zip_path remote journal].
    by rewrite Hgetcwd, <- app_assoc. }
  rewrite (bind_after _ _ _ cwd (f_equal result H2)), H2.
  cbn [result final emitted].
  rewrite (bind_after (print _ _) _ _ tt eq_refl).
  cbn [result final emitted print].
  rewrite (bind_after (set_zip_path None) _ _ tt eq_refl).
  cbn [result final emitted set_zip_path in_frame].
  rewrite !after_after. done.
Qed.

Lemma cleanup_temp_files_answers zip_path (s : session W) :
  result (cleanup_temp_files files zip_path s) = Ok tt.
Proof.
  unfold cleanup_temp_files, try_except, bind, print, ask, ret.
  destruct (path_exists files zip_path (remote s)) as [[[]|e] w1];
    cbn [remote journal fst]; [|done..].
  by destruct (unlink files zip_path w1) as [[[]|e] w2].
Qed.

(** [main] once its [try] block has answered: the archive is cleaned up
    and the answer of the block is returned. *)
Lemma main_after_the_steps create_lambda_package script_dir
  (s : session W) stale cwd w1 w2 code last_step zip_path :
  chdir files script_dir (remote s) = (Ok tt, w1) ->
  getcwd files w1 = (Ok cwd, w2) ->
  let steps :=
    deployment_steps' create_lambda_package
      (Frame (Session w2 (journal s ++ [ChangeDirectory script_dir; GetCwd]))
         None) in
  result steps = Ok code ->
  final steps = Frame last_step (Some zip_path) ->
  let o := main' create_lambda_package script_dir (Frame s stale) in
  result o = Ok code /\
  in_frame (final o) = final (cleanup_temp_files files zip_path last_step) /\
  forall r,
    In r (status_fetches (emitted steps)) ->
    In r (status_fetches (emitted o)).
Proof.
  intros Hchdir Hgetcwd steps Hcode Hfinal. cbn zeta.
  rewrite (main_enters_the_project _ _ _ _ _ _ _ Hchdir Hgetcwd).
  rewrite try_finally_run, (try_except_ok _ _ _ _ Hcode).
  fold steps. rewrite Hfinal. cbn [lambda_deployment.zip_path].
  rewrite in_session_run. cbn [in_frame lambda_deployment.zip_path].
  unfold after. cbn [result final emitted in_frame].
  rewrite cleanup_temp_files_answers.
  split; [exact Hcode|]. split; [done|].
  intros r Hr. rewrite !status_fetches_app. apply in_or_app. right.
  apply in_or_app. by left.
Qed.

End deployment_main.

(** X23.  Take a deployment that gets into the project directory and
    builds its archive.  Whatever the services answer afterwards, [main]
    returns 0 or 1 without raising.  After the packaging its steps are
    run in order, each from the state the step before it left: the name of
    the function is read from the deployment record, the code is updated,
    the function is waited for with thirty attempts, and the updated
    function is tested.  The first step that fails (no name, or the answer
    [False]) ends the deployment: [main] returns 1, and all it does after
    that step is to clean up the archive.  [main] returns 0 exactly when
    every step succeeded; the archive is cleaned up last then too, and the
    state of the function was read on the way. *)
Theorem deployment_stops_at_the_first_failure {W : Type}
  (cf_client : CloudFormationClient W) (lambda_client : LambdaClient W)
  (updater : CodeUpdater W) (invoker : Invoker W) (files : Files W)
  (create_lambda_package : M (session W) (option string))
  (script_dir : string) (s : session W) (stale : option string)
  (cwd zip_path : string) (w1 w2 : W) :
  chdir files script_dir (remote s) = (Ok tt, w1) ->
  getcwd files w1 = (Ok cwd, w2) ->
  let built :=
    create_lambda_package
      (Session w2 (journal s ++ [ChangeDirectory script_dir; GetCwd])) in
  result built = Ok (Some zip_path) ->
  let o :=
    lambda_deployment.main cf_client lambda_client updater invoker files
      create_lambda_package script_dir (lambda_deployment.Frame s stale) in
  let named :=
    through (lambda_deployment.get_lambda_function_name cf_client)
      (final built) in
  let cleaned (last_step : session W) :=
    final (lambda_deployment.cleanup_temp_files files zip_path last_step) in
  exists function_name,
    result named = Ok function_name /\
    match function_name with
    | Some (String c rest) =>
        let name := String c rest in
        let updated :=
          lambda_deployment.update_lambda_code updater files name zip_path
            (final named) in
        let waited :=
          through (deploy_lambda.wait_for_function_ready lambda_client name
                     30) (final updated) in
        let tested :=
          lambda_deployment.test_updated_function cf_client invoker name
            (final waited) in
        exists code_updated ready tested_ok : bool,
          result updated = Ok code_updated /\
          result waited = Ok ready /\
          result tested = Ok tested_ok /\
          result o
          = Ok (if code_updated && ready && tested_ok then 0%Z else 1%Z) /\
          lambda_deployment.in_frame (final o)
          = cleaned (final (if negb code_updated then updated
                            else if negb ready then waited else tested)) /\
          (result o = Ok 0%Z ->
           In (GetFunction name) (status_fetches (emitted o)))
    | _ =>
        result o = Ok 1%Z /\
        lambda_deployment.in_frame (final o) = cleaned (final named)
    end.
Proof.
  intros Hchdir Hgetcwd built Hbuilt. cbn zeta.
  set (fr := lambda_deployment.Frame
               (Session w2 (journal s ++ [ChangeDirectory script_dir; GetCwd]))
               None).
  destruct (deployment_steps_run cf_client lambda_client updater invoker
              files create_lambda_package zip_path fr Hbuilt)
    as (function_name & Hname & Hsteps).
  cbn zeta in Hname, Hsteps. cbn [lambda_deployment.in_frame fr] in *.
  fold built in Hname, Hsteps.
  exists function_name. split; [exact Hname|].
  destruct function_name as [[|c rest]|].
  1, 3: destruct Hsteps as [Hcode Hfinal];
    destruct (main_after_the_steps cf_client lambda_client updater invoker
                files create_lambda_package script_dir s stale cwd w1 w2
                _ _ _ Hchdir Hgetcwd Hcode Hfinal) as (Hr & Hf & _);
    by split.
  destruct Hsteps as (b3 & b4 & b5 & Hr3 & Hr4 & Hr5 & Hcode & Hfinal & Hread).
  exists b3, b4, b5. do 3 (split; [assumption|]).
  destruct (main_after_the_steps cf_client lambda_client updater invoker
              files create_lambda_package script_dir s stale cwd w1 w2
              _ _ _ Hchdir Hgetcwd Hcode Hfinal) as (Hr & Hf & Hin).
  split; [exact Hr|]. split; [exact Hf|].
  intros H0. apply Hin, Hread. cbn zeta in Hr. congruence.
Qed.

Lemma deployment_stops_at_the_first_failure_witness :
  result deployment_with_refused_upload = Ok 1%Z /\
  journal (lambda_deployment.in_frame (final deployment_with_refused_upload))
  = [ChangeDirectory "/home/user/data-pipeline"; GetCwd;
     ReadBytes "lambda_deployment.zip";
     UpdateFunctionCode "data-pipeline-data-extractor" "PK";
     PathExists "lambda_deployment.zip"; Unlink "lambda_deployment.zip"].
Proof.
  destruct (deployment_stops_at_the_first_failure
              (cf_double (Ok [deployed_stack]) (Ok tt) (Ok tt))
              (lambda_double (Ok "Active") (Ok tt) (Ok []))
              {| update_function_code _ _ := unavailable |}
              silent_invoker local_files
              (ret (Some "lambda_deployment.zip"))
              "/home/user/data-pipeline" (fresh tt) None
              "/home/user/data-pipeline" "lambda_deployment.zip" tt tt
              eq_refl eq_refl eq_refl)
    as (function_name & Hname & Hsteps).
  injection Hname as <-.
  destruct Hsteps as (b3 & b4 & b5 & Hr3 & _ & _ & Hcode & Hfinal & _).
  injection Hr3 as <-.
  split; [exact Hcode|]. fold deployment_with_refused_upload in Hfinal.
  rewrite Hfinal. reflexivity.
Defined.

(** X24.  Take a deployment that gets into the project directory but does
    not get an archive: the packaging answers [None] or raises.  [main]
    then returns 1 at once: after the packaging it makes no call and no
    request, and it looks for no file to clean up. *)
Theorem no_archive_no_deployment {W : Type}
  (cf_client : CloudFormationClient W) (lambda_client : LambdaClient W)
  (updater : CodeUpdater W) (invoker : Invoker W) (files : Files W)
  (create_lambda_package : M (session W) (option string))
  (script_dir : string) (s : session W) (stale : option string)
  (cwd : string) (w1 w2 : W) :
  chdir files script_dir (remote s) = (Ok tt, w1) ->
  getcwd files w1 = (Ok cwd, w2) ->
  let built :=
    create_lambda_package
      (Session w2 (journal s ++ [ChangeDirectory script_dir; GetCwd])) in
  (forall zip_path, result built <> Ok (Some zip_path)) ->
  let o :=
    lambda_deployment.main cf_client lambda_client updater invoker files
      create_lambda_package script_dir (lambda_deployment.Frame s stale) in
  result o = Ok 1%Z /\
  lambda_deployment.zip_path (final o) = None /\
  journal (lambda_deployment.in_frame (final o)) = journal (final built) /\
  calls (emitted o) = calls (emitted built).
Proof.
  intros Hchdir Hgetcwd built Hbuilt. cbn zeta.
  rewrite (main_enters_the_project _ _ _ _ _ _ _ _ _ _ _ _ Hchdir Hgetcwd).
  set (fr := lambda_deployment.Frame
               (Session w2 (journal s ++ [ChangeDirectory script_dir; GetCwd]))
               None).
  assert (exists tr,
            try_except
              (lambda_deployment.deployment_steps cf_client lambda_client
                 updater invoker files create_lambda_package)
              (fun e =>
                 print "Unexpected error: {}" [AStr (exn_text e)] ;;
                 ret 1%Z) fr
            = Outcome (Ok 1%Z) (lambda_deployment.Frame (final built) None) tr
            /\ calls tr = calls (emitted built)) as (tr & Htry & Htr).
  { unfold lambda_deployment.deployment_steps.
    assert (lambda_deployment.in_session create_lambda_package fr
            = Outcome (result built)
                (lambda_deployment.Frame (final built) None)
                (emitted built)) as Hs
      by (by rewrite in_session_run).
    clearbody built fr.
    destruct built as [[[zip_path|]|e] s1 tr1]; cbn [result final emitted] in *.
    - by destruct (Hbuilt zip_path).
    - rewrite try_except_ok with (a := 1%Z).
      + rewrite (bind_after _ _ _ None) by (by rewrite Hs).
        rewrite Hs. cbn [result final emitted].
        rewrite (bind_after (lambda_deployment.set_zip_path None) _ _ tt
                   eq_refl).
        rewrite after_after. unfold after, ret, lambda_deployment.set_zip_path.
        cbn [result final emitted lambda_deployment.in_frame].
        eexists. split; [reflexivity|]. by rewrite !app_nil_r.
      + rewrite (bind_after _ _ _ None) by (by rewrite Hs).
        rewrite Hs. cbn [result final emitted].
        by rewrite (bind_after (lambda_deployment.set_zip_path None) _ _ tt
                      eq_refl).
    - unfold try_except. rewrite (bind_raise _ _ _ e) by (by rewrite Hs).
      rewrite Hs. unfold bind, print, ret. cbn [result final emitted].
      eexists. split; [reflexivity|]. by rewrite calls_app, app_nil_r. }
  rewrite try_finally_run, Htry. unfold after.
  cbn [result final emitted lambda_deployment.zip_path
       lambda_deployment.in_frame ret].
  split; [done|]. split; [done|]. split; [done|].
  by rewrite app_nil_r.
Qed.

Lemma no_archive_no_deployment_witness :
  result deployment_without_archive = Ok 1%Z /\
  lambda_deployment.zip_path (final deployment_without_archive) = None /\
  journal (lambda_deployment.in_frame (final deployment_without_archive))
  = [ChangeDirectory "/home/user/data-pipeline"; GetCwd] /\
  calls (emitted deployment_without_archive) = [].
Proof.
  apply (no_archive_no_deployment
           (cf_double (Ok [deployed_stack]) (Ok tt) (Ok tt))
           (lambda_double (Ok "Active") (Ok tt) (Ok []))
           {| update_function_code _ _ := unavailable |}
           silent_invoker local_files
           (print "Lambda functions directory not found: {}"
                  [AStr "lambda_functions"] ;;
            ret None)
           "/home/user/data-pipeline" (fresh tt) None
           "/home/user/data-pipeline" tt tt eq_refl eq_refl).
  intros zip_path H. discriminate H.
Defined.
